(** * fuzztok: the fuzzy token estimator, embedded and verified

    A shallow embedding of the estimation engine of [fuzztok]
    (character classifier, run grouping, adjustment factor, confidence,
    cost calculator) together with the properties its specification states.

    Conventions of the embedding.
    - A JavaScript string holding text is the list of its UTF-16 code units
      ([jsstring]); [length] is therefore the JavaScript [length].
    - Model names, labels and formatted output are Rocq strings.
    - The counters of the classifier, which only ever hold integers, are in
      [Z]; [undefined] is [None].
    - The numbers of the program are embedded twice.  In the first part a
      number is a rational ([number]) and arithmetic is exact.  That part
      carries the properties that do not depend on rounding: the resolution
      of names and configurations, the order of the tests, the counts,
      equalities between two runs of the same computation, and bounds that
      rounding to nearest preserves.  The module [Binary64] gives the
      arithmetic of the program again over the binary64 numbers of the
      kernel, operation by operation as the program performs it, with its
      infinities, NaN and signed zeros.  Every property that depends on the
      value a computation rounds to, on a division by zero or on the
      rendering of a number is stated over [Binary64]. *)

From Stdlib Require Import ZArith QArith Qround Qabs List String Ascii Bool Lia Lqa.
From Stdlib Require Import Qpower DecimalString DecimalN.
From Stdlib Require Floats.
Import ListNotations.

Set Implicit Arguments.
Set Warnings "-inexact-float".

Definition jsstring := list Z.
Definition number := Q.

(** ** The parts of the JavaScript runtime the program uses *)

Module JS.

(** [s.charCodeAt(0)]: the first code unit, NaN ([None]) on the empty
    string. *)
Definition charCodeAt0 (s : jsstring) : option Z := hd_error s.

(** [code >= lo && code <= hi]; every comparison with NaN is false. *)
Definition between (code : option Z) (lo hi : Z) : bool :=
  match code with
  | Some c => (lo <=? c)%Z && (c <=? hi)%Z
  | None => false
  end.

Definition isHighSurrogate (u : Z) : bool := (0xD800 <=? u)%Z && (u <=? 0xDBFF)%Z.
Definition isLowSurrogate (u : Z) : bool := (0xDC00 <=? u)%Z && (u <=? 0xDFFF)%Z.

(** The string iterator behind [for (const char of text)]: one string per
    code point, a well-formed surrogate pair giving one string of two code
    units and a lone surrogate a string of one. *)
Fixpoint iterate (s : jsstring) : list jsstring :=
  match s with
  | [] => []
  | u :: rest =>
      match rest with
      | v :: rest' =>
          if isHighSurrogate u && isLowSurrogate v
          then [u; v] :: iterate rest'
          else [u] :: iterate rest
      | [] => [[u]]
      end
  end.

(** [String.fromCodePoint(cp)]: the UTF-16 encoding of one code point. *)
Definition fromCodePoint (cp : Z) : jsstring :=
  if (cp <? 0x10000)%Z then [cp]
  else [ (0xD800 + Z.shiftr (cp - 0x10000) 10)%Z;
         (0xDC00 + Z.land (cp - 0x10000) 0x3FF)%Z ].

(** [re.test(s)] for a regular expression made of one character class and
    no flag: some code unit of [s] is in the class. *)
Definition test (class : Z -> bool) (s : jsstring) : bool := existsb class s.

Definition inClass (u lo hi : Z) : bool := (lo <=? u)%Z && (u <=? hi)%Z.

(** The class [\s] of ECMAScript: WhiteSpace and LineTerminator. *)
Definition whiteSpaceClass (u : Z) : bool :=
  inClass u 0x0009 0x000D || (u =? 0x0020)%Z || (u =? 0x00A0)%Z ||
  (u =? 0x1680)%Z || inClass u 0x2000 0x200A || inClass u 0x2028 0x2029 ||
  (u =? 0x202F)%Z || (u =? 0x205F)%Z || (u =? 0x3000)%Z || (u =? 0xFEFF)%Z.

(** Comparisons of numbers, as booleans. *)
Definition ltb (x y : number) : bool := negb (Qle_bool y x).
Definition gtb (x y : number) : bool := negb (Qle_bool x y).
Definition eqb (x y : number) : bool := Qeq_bool x y.

(** [Math.ceil]. *)
Definition ceil (x : number) : number := inject_Z (Qceiling x).

(** [x || d] for an optional number: [undefined] and [0] are falsy. *)
Definition numberOr (x : option number) (d : number) : number :=
  match x with
  | Some q => if eqb q 0 then d else q
  | None => d
  end.

(** Truthiness of an optional string: [undefined] and the empty string
    are falsy. *)
Definition truthyString (s : option string) : bool :=
  match s with
  | Some EmptyString => false
  | Some _ => true
  | None => false
  end.

(** [s || t] where [t] may be [undefined] too. *)
Definition stringOr (s t : option string) : option string :=
  if truthyString s then s else t.

(** [s || d] where [d] is a string. *)
Definition stringOrElse (s : option string) (d : string) : string :=
  match s with
  | Some n => if truthyString s then n else d
  | None => d
  end.

Definition uintChars (d : Decimal.uint) : list ascii :=
  list_ascii_of_string (NilEmpty.string_of_uint d).

(** The digits of the decimal representation of a natural number, with
    no leading zero. *)
Definition digitChars (n : Z) : list ascii :=
  uintChars (N.to_uint (Z.to_N n)).

(** [x.toFixed(f)] after ECMA-262, Number.prototype.toFixed.  The sign
    is split off.  Below [10^21] (step 11, [fixedDigits]) [n] is the
    integer nearest to [x * 10^f], the larger one on a tie, written in
    decimal, padded with zeros to [f + 1] digits and cut [f] digits from
    its end by the point.  At [10^21] and above the result is that of
    [Number::toString], whose digits depend on the binary64 value: it is
    left as the parameter [NumberToString]. *)
Definition fixedDigits (x : number) (f : nat) : string :=
  let n := Qfloor (x * 10 ^ Z.of_nat f + (1 # 2)) in
  let m := if (n =? 0)%Z then ["0"%char] else digitChars n in
  match f with
  | O => string_of_list_ascii m
  | S _ =>
      let k := List.length m in
      let m := if (k <=? f)%nat then repeat "0"%char (f + 1 - k) ++ m else m in
      let k := List.length m in
      let a := firstn (k - f) m in
      let b := skipn (k - f) m in
      string_of_list_ascii (a ++ "."%char :: b)
  end.

Section ToFixed.
Variable NumberToString : number -> string.

Definition toFixed (x : number) (f : nat) : string :=
  let s := if ltb x 0 then "-"%string else ""%string in
  let x := if ltb x 0 then - x else x in
  let m := if Qle_bool (10 ^ 21) x then NumberToString x
           else fixedDigits x f in
  (s ++ m)%string.
End ToFixed.

End JS.

(** ** CharacterClassifier *)

Inductive CharacterType := Cjk | Latin | Digit | Symbol | Whitespace.

Definition CharacterType_eqb (a b : CharacterType) : bool :=
  match a, b with
  | Cjk, Cjk | Latin, Latin | Digit, Digit | Symbol, Symbol
  | Whitespace, Whitespace => true
  | _, _ => false
  end.

Module Composition.
Record t := mk {
  cjk : Z;
  latin : Z;
  digits : Z;
  symbols : Z;
  whitespace : Z;
  total : Z;
  cjkRatio : number
}.
End Composition.

Module CharacterClassifier.

Definition isCJKCharacter (char : jsstring) : bool :=
  let code := JS.charCodeAt0 char in
  JS.between code 0x2e80 0x2eff ||
  JS.between code 0x3000 0x303f ||
  JS.between code 0x3040 0x309f ||
  JS.between code 0x30a0 0x30ff ||
  JS.between code 0x3100 0x312f ||
  JS.between code 0x3130 0x318f ||
  JS.between code 0x3190 0x319f ||
  JS.between code 0x31a0 0x31bf ||
  JS.between code 0x31c0 0x31ef ||
  JS.between code 0x31f0 0x31ff ||
  JS.between code 0x3200 0x32ff ||
  JS.between code 0x3300 0x33ff ||
  JS.between code 0x3400 0x4dbf ||
  JS.between code 0x4e00 0x9fff ||
  JS.between code 0xa000 0xa48f ||
  JS.between code 0xa490 0xa4cf ||
  JS.between code 0xac00 0xd7af ||
  JS.between code 0xf900 0xfaff ||
  JS.between code 0xfe30 0xfe4f ||
  JS.between code 0xff00 0xffef ||
  JS.between code 0x20000 0x2a6df ||
  JS.between code 0x2a700 0x2b73f ||
  JS.between code 0x2b740 0x2b81f ||
  JS.between code 0x2b820 0x2ceaf ||
  JS.between code 0x2ceb0 0x2ebef ||
  JS.between code 0x30000 0x3134f.

(** [/[a-zA-ZÀ-ɏḀ-ỿ]/] *)
Definition latinClass (u : Z) : bool :=
  JS.inClass u 0x61 0x7a || JS.inClass u 0x41 0x5a ||
  JS.inClass u 0x00c0 0x024f || JS.inClass u 0x1e00 0x1eff.

(** [/[0-9٠-٩۰-۹]/] *)
Definition digitClass (u : Z) : bool :=
  JS.inClass u 0x30 0x39 || JS.inClass u 0x0660 0x0669 ||
  JS.inClass u 0x06f0 0x06f9.

Definition getCharacterType (char : jsstring) : CharacterType :=
  if isCJKCharacter char then Cjk
  else if JS.test latinClass char then Latin
  else if JS.test digitClass char then Digit
  else if JS.test JS.whiteSpaceClass char then Whitespace
  else Symbol.

(** The object [composition] of [analyzeTextComposition], before the
    ratio is added to it. *)
Record counts := mkCounts {
  c_cjk : Z;
  c_latin : Z;
  c_digits : Z;
  c_symbols : Z;
  c_whitespace : Z;
  c_total : Z
}.

(** One turn of the loop: the counter of the character's type goes up. *)
Definition increment (composition : counts) (char : jsstring) : counts :=
  let '(mkCounts k l d s w t) := composition in
  match getCharacterType char with
  | Digit => mkCounts k l (d + 1) s w t
  | Symbol => mkCounts k l d (s + 1) w t
  | Cjk => mkCounts (k + 1) l d s w t
  | Latin => mkCounts k (l + 1) d s w t
  | Whitespace => mkCounts k l d s (w + 1) t
  end.

Definition analyzeTextComposition (text : jsstring) : Composition.t :=
  let composition :=
    fold_left increment (JS.iterate text)
              (mkCounts 0 0 0 0 0 (Z.of_nat (List.length text))) in
  Composition.mk
    (c_cjk composition) (c_latin composition) (c_digits composition)
    (c_symbols composition) (c_whitespace composition) (c_total composition)
    (if (0 <? c_total composition)%Z
     then inject_Z (c_cjk composition) / inject_Z (c_total composition)
     else 0).

End CharacterClassifier.

(** ** Configurations and providers *)

Inductive WhitespaceHandling := ignore | count | compress.

(** [TextPayload]: the prompt is a string or [null]. *)
Record TextPayload := {
  prompt : option jsstring;
  model : option string;
  maxTokens : option number
}.

(** [FuzzyModelConfig extends BaseTokenConfig]: the two fields of
    [BaseTokenConfig] first, then its own; the optional fields are
    options. *)
Record FuzzyModelConfig := {
  charsPerToken : number;
  overhead : number;
  cjkTokensPerChar : number;
  mixedTextMultiplier : number;
  numberTokensPerChar : option number;
  symbolTokensPerChar : option number;
  whitespaceHandling : option WhitespaceHandling
}.

(** The interface [ModelConfigProvider]; [getDefaultModel] is an optional
    method that may itself answer [undefined]. *)
Record ModelConfigProvider := {
  getConfig : string -> option FuzzyModelConfig;
  getSupportedModels : list string;
  getDefaultModel : option (option string)
}.

(** [SimpleModelConfigProvider]: a [Map] built from the entries of an
    object, whose keys are distinct, kept in insertion order. *)
Module SimpleModelConfigProvider.

Record t := {
  configs : list (string * FuzzyModelConfig);
  defaultModel : option string
}.

Definition new (configs : list (string * FuzzyModelConfig))
           (defaultModel : option string) : t :=
  {| configs := configs; defaultModel := defaultModel |}.

Fixpoint get (m : list (string * FuzzyModelConfig)) (key : string)
  : option FuzzyModelConfig :=
  match m with
  | [] => None
  | (k, v) :: m' => if String.eqb k key then Some v else get m' key
  end.

Definition provider (p : t) : ModelConfigProvider :=
  {| getConfig := get (configs p);
     getSupportedModels := map fst (configs p);
     getDefaultModel := Some (defaultModel p) |}.

(** The three methods of the class, on the object itself. *)
Definition getConfig (p : t) (modelName : string) : option FuzzyModelConfig :=
  get (configs p) modelName.

Definition getSupportedModels (p : t) : list string := map fst (configs p).

Definition getDefaultModel (p : t) : option string := defaultModel p.

End SimpleModelConfigProvider.

Module Breakdown.
Record t := mk {
  cjk : number;
  latin : number;
  digits : number;
  symbols : number;
  overhead : number
}.
End Breakdown.

Module TextAnalysis.
Record t := mk {
  totalChars : Z;
  cjkRatio : number;
  adjustmentFactor : number
}.
End TextAnalysis.

Inductive Confidence := high | medium | low.

Record EstimationResult := {
  tokens : number;
  breakdown : Breakdown.t;
  textAnalysis : TextAnalysis.t;
  confidence : Confidence;
  modelUsed : string
}.

Definition DEFAULT_FALLBACK_CONFIG : FuzzyModelConfig :=
  {| charsPerToken := 4;
     overhead := 10;
     cjkTokensPerChar := 1.5;
     mixedTextMultiplier := 1.05;
     numberTokensPerChar := Some 3.5;
     symbolTokensPerChar := Some 2.5;
     whitespaceHandling := Some compress |}.

(** ** FuzzyTokenEstimator *)

Module FuzzyTokenEstimator.

Record t := {
  modelProvider : ModelConfigProvider;
  fallbackConfig : FuzzyModelConfig;
  defaultModel : option string
}.

Record options := {
  opt_fallbackConfig : option FuzzyModelConfig;
  opt_defaultModel : option string
}.

(** The constructor.  A configuration object is always truthy, so
    [options?.fallbackConfig || DEFAULT_FALLBACK_CONFIG] only tests for
    presence; the default model goes through the truthiness of strings,
    and an absent [getDefaultModel] method answers [undefined]. *)
Definition new (modelProvider : ModelConfigProvider) (opts : option options) : t :=
  {| modelProvider := modelProvider;
     fallbackConfig :=
       match opts with
       | Some o =>
           match opt_fallbackConfig o with
           | Some c => c
           | None => DEFAULT_FALLBACK_CONFIG
           end
       | None => DEFAULT_FALLBACK_CONFIG
       end;
     defaultModel :=
       JS.stringOr
         (match opts with Some o => opt_defaultModel o | None => None end)
         (match getDefaultModel modelProvider with
          | Some answer => answer
          | None => None
          end) |}.

Definition setModelProvider (this : t) (provider : ModelConfigProvider) : t :=
  {| modelProvider := provider;
     fallbackConfig := fallbackConfig this;
     defaultModel := defaultModel this |}.

(** [modelName || this.defaultModel || 'unknown'] and
    [getConfig(model) || this.fallbackConfig]. *)
Definition getModelConfig (this : t) (modelName : option string)
  : FuzzyModelConfig * string :=
  let model :=
    JS.stringOrElse (JS.stringOr modelName (defaultModel this)) "unknown" in
  let config :=
    match getConfig (modelProvider this) model with
    | Some c => c
    | None => fallbackConfig this
    end in
  (config, model).

Definition calculateAdjustmentFactor (japaneseRatio : number) : number :=
  if JS.gtb japaneseRatio 0.8 then 0.6
  else if JS.eqb japaneseRatio 0 then 1.0
  else if JS.ltb japaneseRatio 0.2 then 0.7
  else 0.7 - ((japaneseRatio - 0.2) / 0.6) * 0.1.

Definition calculateConfidence (composition : Composition.t) : Confidence :=
  if (Composition.total composition <? 10)%Z then low
  else if JS.gtb (Composition.cjkRatio composition) 0.9
          || JS.ltb (Composition.cjkRatio composition) 0.1 then high
  else if JS.gtb (inject_Z (Composition.symbols composition)
                  / inject_Z (Composition.total composition)) 0.3 then low
  else medium.

(** The variables the closure [processGroup] and the loop share. *)
Record grouping := mkGrouping {
  g_breakdown : Breakdown.t;
  currentType : option CharacterType;
  currentGroup : jsstring
}.

Definition groupLength (g : grouping) : number :=
  inject_Z (Z.of_nat (List.length (currentGroup g))).

Definition processGroup (config : FuzzyModelConfig) (g : grouping) : grouping :=
  match currentGroup g, currentType g with
  | [], _ => g
  | _, None => g
  | _ :: _, Some ty =>
      let b := g_breakdown g in
      let b' :=
        match ty with
        | Cjk =>
            Breakdown.mk
              (Breakdown.cjk b + groupLength g * cjkTokensPerChar config)
              (Breakdown.latin b) (Breakdown.digits b) (Breakdown.symbols b)
              (Breakdown.overhead b)
        | Latin =>
            Breakdown.mk
              (Breakdown.cjk b)
              (Breakdown.latin b + JS.ceil (groupLength g / charsPerToken config))
              (Breakdown.digits b) (Breakdown.symbols b) (Breakdown.overhead b)
        | Digit =>
            Breakdown.mk
              (Breakdown.cjk b) (Breakdown.latin b)
              (Breakdown.digits b
               + JS.ceil (groupLength g
                          / JS.numberOr (numberTokensPerChar config) 3.5))
              (Breakdown.symbols b) (Breakdown.overhead b)
        | Symbol =>
            Breakdown.mk
              (Breakdown.cjk b) (Breakdown.latin b) (Breakdown.digits b)
              (Breakdown.symbols b
               + JS.ceil (groupLength g
                          / JS.numberOr (symbolTokensPerChar config) 2.5))
              (Breakdown.overhead b)
        | Whitespace =>
            match whitespaceHandling config with
            | Some count =>
                Breakdown.mk
                  (Breakdown.cjk b) (Breakdown.latin b) (Breakdown.digits b)
                  (Breakdown.symbols b + groupLength g * 0.3)
                  (Breakdown.overhead b)
            | _ => b
            end
        end in
      mkGrouping b' (currentType g) []
  end.

(** [type !== currentType], where [currentType] starts as [null]. *)
Definition differs (type : CharacterType) (current : option CharacterType) : bool :=
  match current with
  | Some ty => negb (CharacterType_eqb type ty)
  | None => true
  end.

(** The body of the grouping loop for one character. *)
Definition step (config : FuzzyModelConfig) (g : grouping) (char : jsstring)
  : grouping :=
  let type := CharacterClassifier.getCharacterType char in
  let g :=
    if differs type (currentType g)
    then let g := processGroup config g in
         mkGrouping (g_breakdown g) (Some type) (currentGroup g)
    else g in
  mkGrouping (g_breakdown g) (currentType g) (currentGroup g ++ char).

(** [Object.values(breakdown).reduce((sum, val) => sum + val, 0)] *)
Definition sumValues (b : Breakdown.t) : number :=
  fold_left Qplus
    [Breakdown.cjk b; Breakdown.latin b; Breakdown.digits b;
     Breakdown.symbols b; Breakdown.overhead b] 0.

(** [estimateDetailed] once [config] and [model] are bound. *)
Definition estimateDetailedWith (config : FuzzyModelConfig) (model : string)
           (text : jsstring) : EstimationResult :=
  match text with
  | [] =>
      {| tokens := overhead config;
         breakdown := Breakdown.mk 0 0 0 0 (overhead config);
         textAnalysis := TextAnalysis.mk 0 0 1;
         confidence := high;
         modelUsed := model |}
  | _ :: _ =>
      let composition := CharacterClassifier.analyzeTextComposition text in
      let g0 := mkGrouping (Breakdown.mk 0 0 0 0 (overhead config)) None [] in
      let g := processGroup config (fold_left (step config) (JS.iterate text) g0) in
      let breakdown := g_breakdown g in
      let baseTokens := sumValues breakdown in
      let baseTokens := baseTokens * mixedTextMultiplier config in
      let adjustmentFactor :=
        calculateAdjustmentFactor (Composition.cjkRatio composition) in
      let finalTokens := JS.ceil (baseTokens * adjustmentFactor) in
      let confidence := calculateConfidence composition in
      {| tokens := finalTokens;
         breakdown := breakdown;
         textAnalysis :=
           TextAnalysis.mk (Z.of_nat (List.length text))
                           (Composition.cjkRatio composition)
                           adjustmentFactor;
         confidence := confidence;
         modelUsed := model |}
  end.

Definition estimateDetailed (this : t) (text : jsstring)
           (modelName : option string) : EstimationResult :=
  let '(config, model) := getModelConfig this modelName in
  estimateDetailedWith config model text.

Definition estimate (this : t) (text : jsstring) (modelName : option string)
  : number :=
  tokens (estimateDetailed this text modelName).

Definition estimatePayload (this : t) (payload : TextPayload) : number :=
  let promptTokens :=
    match prompt payload with
    | Some text => estimate this text (model payload)
    | None => overhead (fst (getModelConfig this (model payload)))
    end in
  let maxTokens :=
    match maxTokens payload with
    | Some m => if negb (JS.eqb m 0) && JS.gtb m 0 then m else 500
    | None => 500
    end in
  JS.ceil ((promptTokens + maxTokens) * 1.1).

Definition estimateBatch (this : t) (texts : list jsstring)
           (modelName : option string) : list EstimationResult :=
  map (fun text => estimateDetailed this text modelName) texts.

Definition getModelProvider (this : t) : ModelConfigProvider :=
  modelProvider this.

Definition getSupportedModels (this : t) : list string :=
  getSupportedModels (modelProvider this).

End FuzzyTokenEstimator.

(** What [estimateStream] yields for one chunk. *)
Module StreamItem.
Record t := mk {
  chunk : jsstring;
  tokens : number;
  total : number
}.
End StreamItem.

(** [estimateStream], for a stream that delivers the chunks of
    [textStream] one after the other and then ends: the values the
    generator yields, in order.  The local variable [total] of the
    generator is the accumulator. *)
Module EstimateStream.

Fixpoint loop (this : FuzzyTokenEstimator.t) (total : number)
         (textStream : list jsstring) (modelName : option string)
  : list StreamItem.t :=
  match textStream with
  | [] => []
  | chunk :: rest =>
      let tokens := FuzzyTokenEstimator.estimate this chunk modelName in
      let total := total + tokens in
      StreamItem.mk chunk tokens total :: loop this total rest modelName
  end.

Definition estimateStream (this : FuzzyTokenEstimator.t)
           (textStream : list jsstring) (modelName : option string)
  : list StreamItem.t :=
  loop this 0 textStream modelName.

End EstimateStream.

Definition createFuzzyEstimator (modelProvider : ModelConfigProvider)
           (opts : option FuzzyTokenEstimator.options) : FuzzyTokenEstimator.t :=
  FuzzyTokenEstimator.new modelProvider opts.

Definition createSimpleFuzzyEstimator
           (modelConfigs : list (string * FuzzyModelConfig))
           (defaultModel : option string) : FuzzyTokenEstimator.t :=
  let provider := SimpleModelConfigProvider.new modelConfigs defaultModel in
  FuzzyTokenEstimator.new
    (SimpleModelConfigProvider.provider provider)
    (Some {| FuzzyTokenEstimator.opt_fallbackConfig := None;
             FuzzyTokenEstimator.opt_defaultModel := defaultModel |}).

(** ** TokenCostCalculator *)

Module TokenCostCalculator.

Record pricing := {
  input : number;
  output : number
}.

(** The interface [CostProvider]. *)
Record CostProvider := {
  getCost : string -> option pricing
}.

Record result := {
  inputCost : number;
  outputCost : number;
  totalCost : number;
  formattedTotal : string;
  available : bool
}.

Section Calculate.
Variable NumberToString : number -> string.

Definition calculate (costProvider : CostProvider) (model : string)
           (inputTokens outputTokens : number) : result :=
  match getCost costProvider model with
  | None =>
      {| inputCost := 0;
         outputCost := 0;
         totalCost := 0;
         formattedTotal := "N/A";
         available := false |}
  | Some pricing =>
      let inputCost := (inputTokens / 1000) * input pricing in
      let outputCost := (outputTokens / 1000) * output pricing in
      let totalCost := inputCost + outputCost in
      {| inputCost := inputCost;
         outputCost := outputCost;
         totalCost := totalCost;
         formattedTotal := "$" ++ JS.toFixed NumberToString totalCost 4;
         available := true |}
  end.
End Calculate.

End TokenCostCalculator.

(** ** What the specification says, in its own words

    The definitions below follow the text of the specification, not the
    program; the theorems compare the two. *)

Module Spec.

(** The Unicode blocks the classifier lists, as ranges of code points. *)
Definition cjkBlocks : list (Z * Z) :=
  [ (0x2e80, 0x2eff); (0x3000, 0x303f); (0x3040, 0x309f); (0x30a0, 0x30ff);
    (0x3100, 0x312f); (0x3130, 0x318f); (0x3190, 0x319f); (0x31a0, 0x31bf);
    (0x31c0, 0x31ef); (0x31f0, 0x31ff); (0x3200, 0x32ff); (0x3300, 0x33ff);
    (0x3400, 0x4dbf); (0x4e00, 0x9fff); (0xa000, 0xa48f); (0xa490, 0xa4cf);
    (0xac00, 0xd7af); (0xf900, 0xfaff); (0xfe30, 0xfe4f); (0xff00, 0xffef);
    (0x20000, 0x2a6df); (0x2a700, 0x2b73f); (0x2b740, 0x2b81f);
    (0x2b820, 0x2ceaf); (0x2ceb0, 0x2ebef); (0x30000, 0x3134f) ]%Z.

Definition inCjkBlocks (cp : Z) : bool :=
  existsb (fun '(lo, hi) => (lo <=? cp)%Z && (cp <=? hi)%Z) cjkBlocks.

(** A run: a category and the characters of a maximal stretch of it. *)
Definition run : Type := CharacterType * list jsstring.

(** A stretch of characters of one category put in front of runs: it
    joins the first run when that has its category. *)
Definition joinRun (ty : CharacterType) (stretch : list jsstring)
           (rs : list run) : list run :=
  match rs with
  | (ty', chars) :: rs' =>
      if CharacterType_eqb ty ty' then (ty', stretch ++ chars) :: rs'
      else (ty, stretch) :: rs
  | [] => [(ty, stretch)]
  end.

Definition consRun (char : jsstring) (rs : list run) : list run :=
  joinRun (CharacterClassifier.getCharacterType char) [char] rs.

(** The partition of a sequence of characters into maximal runs. *)
Definition runs (chars : list jsstring) : list run :=
  fold_right consRun [] chars.

(** What makes [rs] the maximal runs: no run is empty, every character of
    a run has the run's category, two neighbours differ in category. *)
Fixpoint maximal (rs : list run) : Prop :=
  match rs with
  | [] => True
  | (ty, chars) :: rest =>
      chars <> []
      /\ Forall (fun c => CharacterClassifier.getCharacterType c = ty) chars
      /\ match rest with
         | (ty', _) :: _ => ty <> ty'
         | [] => True
         end
      /\ maximal rest
  end.

(** The confidence label in the priority order of the specification. *)
Definition confidenceOf (total symbols : Z) (cjkRatio : number) : Confidence :=
  if (total <? 10)%Z then low
  else if JS.gtb cjkRatio 0.9 || JS.ltb cjkRatio 0.1 then high
  else if JS.gtb (inject_Z symbols / inject_Z total) 0.3 then low
  else medium.

(** The model name after resolution: the requested one, else the engine's
    default, else the placeholder; an empty name counts as none. *)
Definition resolvedModel (requested engineDefault : option string) : string :=
  match requested with
  | Some (String c n) => String c n
  | _ =>
      match engineDefault with
      | Some (String c n) => String c n
      | _ => "unknown"
      end
  end.

(** The sum of the five category counts of a composition. *)
Definition categorySum (c : Composition.t) : Z :=
  (Composition.cjk c + Composition.latin c + Composition.digits c
   + Composition.symbols c + Composition.whitespace c)%Z.

(** A decimal digit, "0" to "9". *)
Definition isDigit (c : ascii) : bool :=
  (48 <=? nat_of_ascii c)%nat && (nat_of_ascii c <=? 57)%nat.

Definition digitStep (acc : Z) (c : ascii) : Z :=
  (10 * acc + (Z.of_nat (nat_of_ascii c) - 48))%Z.

(** The number a string of decimal digits denotes. *)
Definition decimalValue (digits : list ascii) : Z :=
  fold_left digitStep digits 0%Z.

(** A number written in fixed notation with [f] decimals: an optional
    minus sign, at least one digit, the point, exactly [f] digits, the
    digits being those of the integer nearest to the magnitude of [x]
    scaled by [10^f]. *)
Definition fixedNotation (f : nat) (x : number) (s : string) : Prop :=
  exists (sign : string) (whole frac : list ascii),
    s = (sign ++ string_of_list_ascii (whole ++ "."%char :: frac))%string
    /\ (sign = ""%string \/ sign = "-"%string)
    /\ (sign = "-"%string <-> x < 0)
    /\ whole <> []
    /\ List.length frac = f
    /\ forallb isDigit (whole ++ frac) = true
    /\ Qabs x * 10 ^ Z.of_nat f - (1 # 2)
       < inject_Z (decimalValue (whole ++ frac))
       <= Qabs x * 10 ^ Z.of_nat f + (1 # 2).

(** The characters of a sequence that have a given category. *)
Definition countType (ty : CharacterType) (chars : list jsstring) : nat :=
  List.length
    (filter (fun c => CharacterType_eqb (CharacterClassifier.getCharacterType c) ty)
            chars).

(** A code unit that alone makes a character of the given category. *)
Definition unitType (u : Z) : CharacterType :=
  CharacterClassifier.getCharacterType [u].


(** The sum of a list of numbers, from the left. *)
Definition sum (xs : list number) : number := fold_left Qplus xs 0.


(** The code units held by the runs of one category. *)
Definition unitsOf (ty : CharacterType) (rs : list run) : nat :=
  fold_right
    (fun r acc =>
       if CharacterType_eqb (fst r) ty
       then (List.length (List.concat (snd r)) + acc)%nat else acc)
    0%nat rs.

(** A configuration with another whitespace policy. *)
Definition withWhitespaceHandling (config : FuzzyModelConfig)
           (w : option WhitespaceHandling) : FuzzyModelConfig :=
  {| charsPerToken := charsPerToken config;
     overhead := overhead config;
     cjkTokensPerChar := cjkTokensPerChar config;
     mixedTextMultiplier := mixedTextMultiplier config;
     numberTokensPerChar := numberTokensPerChar config;
     symbolTokensPerChar := symbolTokensPerChar config;
     whitespaceHandling := w |}.

End Spec.

(** ** The groups of the grouping loop

    What [processGroup] does when [currentType] and [currentGroup] are the
    category and the characters of a run, as a function of the run. *)

Module Groups.

(** [currentGroup.length] when the group holds the characters of [r]: a
    number of UTF-16 code units. *)
Definition groupLength (r : Spec.run) : number :=
  inject_Z (Z.of_nat (List.length (List.concat (snd r)))).

(** The [switch] of [processGroup] for that group. *)
Definition addGroup (config : FuzzyModelConfig) (b : Breakdown.t) (r : Spec.run)
  : Breakdown.t :=
  let L := groupLength r in
  match fst r with
  | Cjk =>
      Breakdown.mk (Breakdown.cjk b + L * cjkTokensPerChar config)
                   (Breakdown.latin b) (Breakdown.digits b)
                   (Breakdown.symbols b) (Breakdown.overhead b)
  | Latin =>
      Breakdown.mk (Breakdown.cjk b)
                   (Breakdown.latin b + JS.ceil (L / charsPerToken config))
                   (Breakdown.digits b) (Breakdown.symbols b)
                   (Breakdown.overhead b)
  | Digit =>
      Breakdown.mk (Breakdown.cjk b) (Breakdown.latin b)
                   (Breakdown.digits b
                    + JS.ceil (L / JS.numberOr (numberTokensPerChar config) 3.5))
                   (Breakdown.symbols b) (Breakdown.overhead b)
  | Symbol =>
      Breakdown.mk (Breakdown.cjk b) (Breakdown.latin b) (Breakdown.digits b)
                   (Breakdown.symbols b
                    + JS.ceil (L / JS.numberOr (symbolTokensPerChar config) 2.5))
                   (Breakdown.overhead b)
  | Whitespace =>
      match whitespaceHandling config with
      | Some count =>
          Breakdown.mk (Breakdown.cjk b) (Breakdown.latin b)
                       (Breakdown.digits b) (Breakdown.symbols b + L * 0.3)
                       (Breakdown.overhead b)
      | Some ignore | Some compress | None => b
      end
  end.

End Groups.

(** * The program in the arithmetic it runs in

    The definitions above compute with exact rationals.  The program
    computes with IEEE 754 binary64 numbers: every sum, product and
    quotient is rounded, a division by zero gives an infinity or NaN, and
    [Math.ceil] and [toFixed] see the rounded value.  The module below
    gives the arithmetic parts of the program over the binary64 numbers of
    the kernel ([PrimFloat.float]), for the properties that depend on
    them.  What does not compute with numbers (the classifier, the
    iterator, the counters, the resolution of names) is shared with the
    definitions above. *)

Module Binary64.
Import PrimFloat SpecFloat FloatOps.
#[local] Open Scope float_scope.

Definition number := float.

(** ** The parts of the JavaScript runtime *)

(** A length or a counter as a number; exact below [2^53]. *)
Definition ofZ (n : Z) : number := of_uint63 (Uint63.of_Z n).

Definition isNaN (x : number) : bool := negb (x =? x).

(** [Math.ceil]: NaN, the infinities and the zeros are returned as they
    are, and so is a number whose exponent is not negative, which is an
    integer; otherwise the mantissa is cut at the binary point, and a
    negative number above -1 gives -0. *)
Definition ceil (x : number) : number :=
  match Prim2SF x with
  | S754_finite s m e =>
      if (0 <=? e)%Z then x
      else
        let q := Z.shiftr (Z.pos m) (- e) in
        if s then - ofZ q
        else if (Z.shiftl q (- e) =? Z.pos m)%Z then ofZ q else ofZ (q + 1)
  | _ => x
  end.

(** Truthiness of a number: [0], [-0] and NaN are falsy. *)
Definition truthy (x : number) : bool := negb (x =? 0) && negb (isNaN x).

(** [x || d] for an optional number. *)
Definition numberOr (x : option number) (d : number) : number :=
  match x with
  | Some v => if truthy v then v else d
  | None => d
  end.

(** The real number a finite binary64 number stands for. *)
Definition value (x : number) : option Q :=
  match Prim2SF x with
  | S754_zero _ => Some 0%Q
  | S754_finite s m e =>
      Some ((if s then - inject_Z (Z.pos m) else inject_Z (Z.pos m)) * 2 ^ e)%Q
  | S754_infinity _ | S754_nan => None
  end.

(** The binary64 number nearest to an integer. *)
Definition nearest (n : Z) : spec_float := binary_normalize prec emax n 0 false.

(** [Number::toString] (ECMA-262) for a number whose value is an integer
    [X >= 10^21]: the integers [n], [k], [s] with [k >= 1],
    [10^(k-1) <= s < 10^k], [s * 10^(n-k)] rounding to the number and [k] as
    small as possible ([s] the nearest to [X] when there is a choice),
    written in exponential notation since [n > 21].  [candidates] are the
    [(n, 10^(n-k), s)] for one [k]: [n] is the number [d] of digits of [X]
    or [d + 1], [s] one of the two integers around [X / 10^(n-k)]. *)
Definition candidates (X : Z) (d k : nat) : list (Z * Z * Z) :=
  flat_map
    (fun n =>
       let p := (10 ^ (n - Z.of_nat k))%Z in
       let s := (X / p)%Z in
       filter (fun '(_, _, s) =>
                 (10 ^ (Z.of_nat k - 1) <=? s)%Z && (s <? 10 ^ Z.of_nat k)%Z
                 && SFeqb (nearest (s * p)) (nearest X))
              [(n, p, s); (n, p, (s + 1)%Z)])
    [Z.of_nat d; (Z.of_nat d + 1)%Z].

Definition closest (X : Z) (cs : list (Z * Z * Z)) : option (Z * Z * Z) :=
  fold_left
    (fun best c =>
       match best with
       | None => Some c
       | Some (_, p', s') =>
           let '(_, p, s) := c in
           if (Z.abs (s * p - X) <? Z.abs (s' * p' - X))%Z then Some c else best
       end)
    cs None.

Fixpoint shortest (X : Z) (d k fuel : nat) : option (Z * Z * Z) :=
  match fuel with
  | O => None
  | S fuel' =>
      match closest X (candidates X d k) with
      | Some c => Some c
      | None => shortest X d (S k) fuel'
      end
  end.

Definition exponential (X : Z) : string :=
  match shortest X (List.length (JS.digitChars X)) 1 17 with
  | Some (n, _, s) =>
      match JS.digitChars s with
      | [] => ""
      | c :: [] =>
          string_of_list_ascii (c :: "e"%char :: "+"%char :: JS.digitChars (n - 1))
      | c :: rest =>
          string_of_list_ascii
            (c :: "."%char :: rest
               ++ "e"%char :: "+"%char :: JS.digitChars (n - 1))
      end
  | None => ""
  end.

(** [x.toFixed(f)]: a number that is not finite is rendered by
    [Number::toString] ("NaN", "Infinity", "-Infinity"); a finite one as
    [JS.toFixed] renders its value, in exponential notation from [10^21]
    on. *)
Definition toFixed (x : number) (f : nat) : string :=
  match value x with
  | Some q => JS.toFixed (fun m => exponential (Qfloor m)) q f
  | None =>
      if isNaN x then "NaN" else if 0 <? x then "Infinity" else "-Infinity"
  end.

(** ** Configurations *)

Record FuzzyModelConfig := {
  charsPerToken : number;
  overhead : number;
  cjkTokensPerChar : number;
  mixedTextMultiplier : number;
  numberTokensPerChar : option number;
  symbolTokensPerChar : option number;
  whitespaceHandling : option WhitespaceHandling
}.

Record ModelConfigProvider := {
  getConfig : string -> option FuzzyModelConfig;
  getSupportedModels : list string;
  getDefaultModel : option (option string)
}.

Record TextPayload := {
  prompt : option jsstring;
  model : option string;
  maxTokens : option number
}.

Definition DEFAULT_FALLBACK_CONFIG : FuzzyModelConfig :=
  {| charsPerToken := 4;
     overhead := 10;
     cjkTokensPerChar := 1.5;
     mixedTextMultiplier := 1.05;
     numberTokensPerChar := Some 3.5;
     symbolTokensPerChar := Some 2.5;
     whitespaceHandling := Some compress |}.

(** ** The composition: the counters of [analyzeTextComposition] and the
    ratio computed from them *)

Module Composition.
Record t := mk {
  cjk : Z;
  latin : Z;
  digits : Z;
  symbols : Z;
  whitespace : Z;
  total : Z;
  cjkRatio : number
}.
End Composition.

Definition analyzeTextComposition (text : jsstring) : Composition.t :=
  let composition :=
    fold_left CharacterClassifier.increment (JS.iterate text)
              (CharacterClassifier.mkCounts 0 0 0 0 0
                                            (Z.of_nat (List.length text))) in
  Composition.mk
    (CharacterClassifier.c_cjk composition)
    (CharacterClassifier.c_latin composition)
    (CharacterClassifier.c_digits composition)
    (CharacterClassifier.c_symbols composition)
    (CharacterClassifier.c_whitespace composition)
    (CharacterClassifier.c_total composition)
    (if (0 <? CharacterClassifier.c_total composition)%Z
     then ofZ (CharacterClassifier.c_cjk composition)
          / ofZ (CharacterClassifier.c_total composition)
     else 0).

(** ** The result of an estimation *)

Module Breakdown.
Record t := mk {
  cjk : number;
  latin : number;
  digits : number;
  symbols : number;
  overhead : number
}.
End Breakdown.

Module TextAnalysis.
Record t := mk {
  totalChars : Z;
  cjkRatio : number;
  adjustmentFactor : number
}.
End TextAnalysis.

Record EstimationResult := {
  tokens : number;
  breakdown : Breakdown.t;
  textAnalysis : TextAnalysis.t;
  confidence : Confidence;
  modelUsed : string
}.

(** ** FuzzyTokenEstimator *)

Module FuzzyTokenEstimator.

Record t := {
  modelProvider : ModelConfigProvider;
  fallbackConfig : FuzzyModelConfig;
  defaultModel : option string
}.

Record options := {
  opt_fallbackConfig : option FuzzyModelConfig;
  opt_defaultModel : option string
}.

Definition new (modelProvider : ModelConfigProvider) (opts : option options) : t :=
  {| modelProvider := modelProvider;
     fallbackConfig :=
       match opts with
       | Some o =>
           match opt_fallbackConfig o with
           | Some c => c
           | None => DEFAULT_FALLBACK_CONFIG
           end
       | None => DEFAULT_FALLBACK_CONFIG
       end;
     defaultModel :=
       JS.stringOr
         (match opts with Some o => opt_defaultModel o | None => None end)
         (match getDefaultModel modelProvider with
          | Some answer => answer
          | None => None
          end) |}.

Definition getModelConfig (this : t) (modelName : option string)
  : FuzzyModelConfig * string :=
  let model :=
    JS.stringOrElse (JS.stringOr modelName (defaultModel this)) "unknown" in
  let config :=
    match getConfig (modelProvider this) model with
    | Some c => c
    | None => fallbackConfig this
    end in
  (config, model).

Definition calculateAdjustmentFactor (japaneseRatio : number) : number :=
  if 0.8 <? japaneseRatio then 0.6
  else if japaneseRatio =? 0 then 1.0
  else if japaneseRatio <? 0.2 then 0.7
  else 0.7 - ((japaneseRatio - 0.2) / 0.6) * 0.1.

Definition calculateConfidence (composition : Composition.t) : Confidence :=
  if (Composition.total composition <? 10)%Z then low
  else if (0.9 <? Composition.cjkRatio composition)
          || (Composition.cjkRatio composition <? 0.1) then high
  else if 0.3 <? ofZ (Composition.symbols composition)
                 / ofZ (Composition.total composition) then low
  else medium.

(** The variables the closure [processGroup] and the loop share. *)
Record grouping := mkGrouping {
  g_breakdown : Breakdown.t;
  currentType : option CharacterType;
  currentGroup : jsstring
}.

(** [currentGroup.length] *)
Definition groupLength (g : grouping) : number :=
  ofZ (Z.of_nat (List.length (currentGroup g))).

Definition processGroup (config : FuzzyModelConfig) (g : grouping) : grouping :=
  match currentGroup g, currentType g with
  | [], _ => g
  | _, None => g
  | _ :: _, Some ty =>
      let b := g_breakdown g in
      let b' :=
        match ty with
        | Cjk =>
            Breakdown.mk
              (Breakdown.cjk b + groupLength g * cjkTokensPerChar config)
              (Breakdown.latin b) (Breakdown.digits b) (Breakdown.symbols b)
              (Breakdown.overhead b)
        | Latin =>
            Breakdown.mk
              (Breakdown.cjk b)
              (Breakdown.latin b + ceil (groupLength g / charsPerToken config))
              (Breakdown.digits b) (Breakdown.symbols b) (Breakdown.overhead b)
        | Digit =>
            Breakdown.mk
              (Breakdown.cjk b) (Breakdown.latin b)
              (Breakdown.digits b
               + ceil (groupLength g
                       / numberOr (numberTokensPerChar config) 3.5))
              (Breakdown.symbols b) (Breakdown.overhead b)
        | Symbol =>
            Breakdown.mk
              (Breakdown.cjk b) (Breakdown.latin b) (Breakdown.digits b)
              (Breakdown.symbols b
               + ceil (groupLength g
                       / numberOr (symbolTokensPerChar config) 2.5))
              (Breakdown.overhead b)
        | Whitespace =>
            match whitespaceHandling config with
            | Some count =>
                Breakdown.mk
                  (Breakdown.cjk b) (Breakdown.latin b) (Breakdown.digits b)
                  (Breakdown.symbols b + groupLength g * 0.3)
                  (Breakdown.overhead b)
            | _ => b
            end
        end in
      mkGrouping b' (currentType g) []
  end.

(** The body of the grouping loop for one character. *)
Definition step (config : FuzzyModelConfig) (g : grouping) (char : jsstring)
  : grouping :=
  let type := CharacterClassifier.getCharacterType char in
  let g :=
    if FuzzyTokenEstimator.differs type (currentType g)
    then let g := processGroup config g in
         mkGrouping (g_breakdown g) (Some type) (currentGroup g)
    else g in
  mkGrouping (g_breakdown g) (currentType g) (currentGroup g ++ char).

(** [Object.values(breakdown).reduce((sum, val) => sum + val, 0)] *)
Definition sumValues (b : Breakdown.t) : number :=
  fold_left add
    [Breakdown.cjk b; Breakdown.latin b; Breakdown.digits b;
     Breakdown.symbols b; Breakdown.overhead b] 0.

(** [estimateDetailed] once [config] and [model] are bound. *)
Definition estimateDetailedWith (config : FuzzyModelConfig) (model : string)
           (text : jsstring) : EstimationResult :=
  match text with
  | [] =>
      {| tokens := overhead config;
         breakdown := Breakdown.mk 0 0 0 0 (overhead config);
         textAnalysis := TextAnalysis.mk 0 0 1;
         confidence := high;
         modelUsed := model |}
  | _ :: _ =>
      let composition := analyzeTextComposition text in
      let g0 := mkGrouping (Breakdown.mk 0 0 0 0 (overhead config)) None [] in
      let g := processGroup config (fold_left (step config) (JS.iterate text) g0) in
      let breakdown := g_breakdown g in
      let baseTokens := sumValues breakdown in
      let baseTokens := baseTokens * mixedTextMultiplier config in
      let adjustmentFactor :=
        calculateAdjustmentFactor (Composition.cjkRatio composition) in
      let finalTokens := ceil (baseTokens * adjustmentFactor) in
      let confidence := calculateConfidence composition in
      {| tokens := finalTokens;
         breakdown := breakdown;
         textAnalysis :=
           TextAnalysis.mk (Z.of_nat (List.length text))
                           (Composition.cjkRatio composition)
                           adjustmentFactor;
         confidence := confidence;
         modelUsed := model |}
  end.

Definition estimateDetailed (this : t) (text : jsstring)
           (modelName : option string) : EstimationResult :=
  let '(config, model) := getModelConfig this modelName in
  estimateDetailedWith config model text.

Definition estimate (this : t) (text : jsstring) (modelName : option string)
  : number :=
  tokens (estimateDetailed this text modelName).

Definition estimatePayload (this : t) (payload : TextPayload) : number :=
  let promptTokens :=
    match prompt payload with
    | Some text => estimate this text (model payload)
    | None => overhead (fst (getModelConfig this (model payload)))
    end in
  let maxTokens :=
    match maxTokens payload with
    | Some m => if truthy m && (0 <? m) then m else 500
    | None => 500
    end in
  ceil ((promptTokens + maxTokens) * 1.1).

End FuzzyTokenEstimator.

(** The [switch] of [processGroup] for the group that holds the
    characters of a run, as a function of the run. *)
Module Groups.

Definition groupLength (r : Spec.run) : number :=
  ofZ (Z.of_nat (List.length (List.concat (snd r)))).

Definition addGroup (config : FuzzyModelConfig) (b : Breakdown.t) (r : Spec.run)
  : Breakdown.t :=
  let L := groupLength r in
  match fst r with
  | Cjk =>
      Breakdown.mk (Breakdown.cjk b + L * cjkTokensPerChar config)
                   (Breakdown.latin b) (Breakdown.digits b)
                   (Breakdown.symbols b) (Breakdown.overhead b)
  | Latin =>
      Breakdown.mk (Breakdown.cjk b)
                   (Breakdown.latin b + ceil (L / charsPerToken config))
                   (Breakdown.digits b) (Breakdown.symbols b)
                   (Breakdown.overhead b)
  | Digit =>
      Breakdown.mk (Breakdown.cjk b) (Breakdown.latin b)
                   (Breakdown.digits b
                    + ceil (L / numberOr (numberTokensPerChar config) 3.5))
                   (Breakdown.symbols b) (Breakdown.overhead b)
  | Symbol =>
      Breakdown.mk (Breakdown.cjk b) (Breakdown.latin b) (Breakdown.digits b)
                   (Breakdown.symbols b
                    + ceil (L / numberOr (symbolTokensPerChar config) 2.5))
                   (Breakdown.overhead b)
  | Whitespace =>
      match whitespaceHandling config with
      | Some count =>
          Breakdown.mk (Breakdown.cjk b) (Breakdown.latin b)
                       (Breakdown.digits b) (Breakdown.symbols b + L * 0.3)
                       (Breakdown.overhead b)
      | _ => b
      end
  end.

End Groups.

(** ** TokenCostCalculator *)

Module TokenCostCalculator.

Record pricing := {
  input : number;
  output : number
}.

Record CostProvider := {
  getCost : string -> option pricing
}.

Record result := {
  inputCost : number;
  outputCost : number;
  totalCost : number;
  formattedTotal : string;
  available : bool
}.

Definition calculate (costProvider : CostProvider) (model : string)
           (inputTokens outputTokens : number) : result :=
  match getCost costProvider model with
  | None =>
      {| inputCost := 0;
         outputCost := 0;
         totalCost := 0;
         formattedTotal := "N/A";
         available := false |}
  | Some pricing =>
      let inputCost := (inputTokens / 1000) * input pricing in
      let outputCost := (outputTokens / 1000) * output pricing in
      let totalCost := inputCost + outputCost in
      {| inputCost := inputCost;
         outputCost := outputCost;
         totalCost := totalCost;
         formattedTotal := "$" ++ toFixed totalCost 4;
         available := true |}
  end.

End TokenCostCalculator.

End Binary64.

(** ** What the specification says, in binary64

    The accumulation the specification states for the run-grouping pass,
    in its own words: the length [L] of a run is its number of
    characters, and an optional divisor that is not given takes its
    default.  Then the shapes its statements on the adjustment factor and
    on the formatted cost speak of. *)

Module Spec64.
Import PrimFloat Binary64.
#[local] Open Scope float_scope.

(** The length [L] of a run: the number of its characters. *)
Definition runLength (r : Spec.run) : Z := Z.of_nat (List.length (snd r)).

(** An optional divisor, with the default it takes when it is not
    given. *)
Definition orDefault (x : option number) (d : number) : number :=
  match x with
  | Some v => v
  | None => d
  end.

(** What one run adds to the breakdown. *)
Definition addRun (config : FuzzyModelConfig) (b : Breakdown.t) (r : Spec.run)
  : Breakdown.t :=
  let L := ofZ (runLength r) in
  match fst r with
  | Cjk =>
      Breakdown.mk (Breakdown.cjk b + L * cjkTokensPerChar config)
                   (Breakdown.latin b) (Breakdown.digits b)
                   (Breakdown.symbols b) (Breakdown.overhead b)
  | Latin =>
      Breakdown.mk (Breakdown.cjk b)
                   (Breakdown.latin b + ceil (L / charsPerToken config))
                   (Breakdown.digits b) (Breakdown.symbols b)
                   (Breakdown.overhead b)
  | Digit =>
      Breakdown.mk (Breakdown.cjk b) (Breakdown.latin b)
                   (Breakdown.digits b
                    + ceil (L / orDefault (numberTokensPerChar config) 3.5))
                   (Breakdown.symbols b) (Breakdown.overhead b)
  | Symbol =>
      Breakdown.mk (Breakdown.cjk b) (Breakdown.latin b) (Breakdown.digits b)
                   (Breakdown.symbols b
                    + ceil (L / orDefault (symbolTokensPerChar config) 2.5))
                   (Breakdown.overhead b)
  | Whitespace =>
      match whitespaceHandling config with
      | Some count =>
          Breakdown.mk (Breakdown.cjk b) (Breakdown.latin b)
                       (Breakdown.digits b) (Breakdown.symbols b + L * 0.3)
                       (Breakdown.overhead b)
      | Some ignore | Some compress | None => b
      end
  end.

(** The breakdown of a text: the overhead, and what each maximal run
    adds, in the order of the text. *)
Definition breakdownOf (config : FuzzyModelConfig) (text : jsstring)
  : Breakdown.t :=
  fold_left (addRun config) (Spec.runs (JS.iterate text))
            (Breakdown.mk 0 0 0 0 (overhead config)).

(** The sum of a list of numbers, from the left. *)
Definition sum (xs : list number) : number := fold_left add xs 0.

(** The token total: the ceiling of the sum of the five subtotals times
    mixedTextMultiplier times the adjustment factor. *)
Definition tokenTotal (config : FuzzyModelConfig) (b : Breakdown.t)
           (adjustmentFactor : number) : number :=
  ceil (sum [Breakdown.cjk b; Breakdown.latin b; Breakdown.digits b;
             Breakdown.symbols b; Breakdown.overhead b]
        * mixedTextMultiplier config * adjustmentFactor).

(** An optional divisor that, when it is given, is a number other than 0
    and NaN. *)
Definition given (x : option number) : Prop :=
  match x with
  | Some v => truthy v = true
  | None => True
  end.


(** A string that ends with the point and exactly four decimal digits. *)
Definition fourDecimals (s : string) : bool :=
  match rev (list_ascii_of_string s) with
  | d4 :: d3 :: d2 :: d1 :: p :: _ =>
      Ascii.eqb p "."%char
      && forallb Spec.isDigit [d1; d2; d3; d4]
  | _ => false
  end.

End Spec64.

(** ** Fixtures of the repository's tests *)

Module Fixtures.

(** [mockConfig] and the estimator of fuzzy-token-estimator.test.ts. *)
Definition mockConfig : FuzzyModelConfig :=
  {| charsPerToken := 4;
     overhead := 10;
     cjkTokensPerChar := 1.2;
     mixedTextMultiplier := 1.05;
     numberTokensPerChar := Some 3.5;
     symbolTokensPerChar := Some 2.5;
     whitespaceHandling := Some compress |}.

Definition estimator : FuzzyTokenEstimator.t :=
  FuzzyTokenEstimator.new
    (SimpleModelConfigProvider.provider
       (SimpleModelConfigProvider.new [("test-model"%string, mockConfig)]
                                      (Some "test-model"%string)))
    None.

(** [MockCostProvider] of token-cost-calculator.test.ts. *)
Definition MockCostProvider : TokenCostCalculator.CostProvider :=
  {| TokenCostCalculator.getCost := fun model =>
       if String.eqb model "gpt-3.5-turbo" then
         Some {| TokenCostCalculator.input := 0.0015;
                 TokenCostCalculator.output := 0.002 |}
       else if String.eqb model "gpt-4" then
         Some {| TokenCostCalculator.input := 0.03;
                 TokenCostCalculator.output := 0.06 |}
       else if String.eqb model "cheap-model" then
         Some {| TokenCostCalculator.input := 0.001;
                 TokenCostCalculator.output := 0.001 |}
       else None |}.

(** A text of ASCII characters as a string of code units. *)
Definition ascii (s : string) : jsstring :=
  map (fun c => Z.of_nat (nat_of_ascii c)) (list_ascii_of_string s).

(** "こんにちは" *)
Definition konnichiwa : jsstring := [0x3053; 0x3093; 0x306b; 0x3061; 0x306f]%Z.

(** "これは日本語のテストメッセージです。" *)
Definition longJapanese : jsstring :=
  [0x3053; 0x308c; 0x306f; 0x65e5; 0x672c; 0x8a9e; 0x306e; 0x30c6; 0x30b9;
   0x30c8; 0x30e1; 0x30c3; 0x30bb; 0x30fc; 0x30b8; 0x3067; 0x3059; 0x3002]%Z.

Definition longEnglish : jsstring :=
  ascii "The quick brown fox jumps over the lazy dog.".

(** A stand-in for [Number::toString] where its value does not matter. *)
Definition noExponent (x : number) : string := ""%string.

End Fixtures.

(** The same fixtures in binary64, and the configurations of
    factory-functions.test.ts. *)
Module Fixtures64.
Import PrimFloat Binary64.
#[local] Open Scope float_scope.

Definition mockConfig : FuzzyModelConfig :=
  {| charsPerToken := 4;
     overhead := 10;
     cjkTokensPerChar := 1.2;
     mixedTextMultiplier := 1.05;
     numberTokensPerChar := Some 3.5;
     symbolTokensPerChar := Some 2.5;
     whitespaceHandling := Some compress |}.

Definition accurate : FuzzyModelConfig :=
  {| charsPerToken := 3;
     overhead := 15;
     cjkTokensPerChar := 1.5;
     mixedTextMultiplier := 1.1;
     numberTokensPerChar := None;
     symbolTokensPerChar := None;
     whitespaceHandling := None |}.

(** A provider over the entries of an object. *)
Definition provider (configs : list (string * FuzzyModelConfig))
           (defaultModel : option string) : ModelConfigProvider :=
  {| getConfig := fun m =>
       option_map snd (find (fun e => String.eqb (fst e) m) configs);
     getSupportedModels := map fst configs;
     getDefaultModel := Some defaultModel |}.

(** The estimator of fuzzy-token-estimator.test.ts. *)
Definition estimator : FuzzyTokenEstimator.t :=
  FuzzyTokenEstimator.new
    (provider [("test-model"%string, mockConfig)] (Some "test-model"%string))
    None.

(** [createSimpleFuzzyEstimator({})]: every model is unknown. *)
Definition unconfigured : FuzzyTokenEstimator.t :=
  FuzzyTokenEstimator.new (provider [] None) None.

Definition MockCostProvider : TokenCostCalculator.CostProvider :=
  {| TokenCostCalculator.getCost := fun model =>
       if String.eqb model "gpt-3.5-turbo" then
         Some {| TokenCostCalculator.input := 0.0015;
                 TokenCostCalculator.output := 0.002 |}
       else if String.eqb model "gpt-4" then
         Some {| TokenCostCalculator.input := 0.03;
                 TokenCostCalculator.output := 0.06 |}
       else if String.eqb model "cheap-model" then
         Some {| TokenCostCalculator.input := 0.001;
                 TokenCostCalculator.output := 0.001 |}
       else None |}.

(** Five times U+1F600, "😀😀😀😀😀": ten code units. *)
Definition fiveEmoji : jsstring :=
  List.concat (repeat [0xD83D; 0xDE00]%Z 5).

End Fixtures64.

(** * Properties *)

(** ** The string iterator *)

Module IterateFacts.

(** Induction over a string two code units at a time, as [JS.iterate]
    consumes it. *)
Lemma jsstring_ind2 (P : list Z -> Prop) :
  P [] ->
  (forall u, P [u]) ->
  (forall u v rest, P rest -> P (v :: rest) -> P (u :: v :: rest)) ->
  forall s, P s.
Proof.
  intros Hnil Hone Hstep.
  assert (both : forall s, P s /\ forall u, P (u :: s)).
  { induction s as [|v rest [IHrest IHcons]].
    - split; [exact Hnil | exact Hone].
    - split; [apply IHcons | intro u; apply Hstep; [exact IHrest | apply IHcons]]. }
  intro s. apply both.
Qed.

Lemma iterate_cons2 u v rest :
  JS.iterate (u :: v :: rest) =
  if JS.isHighSurrogate u && JS.isLowSurrogate v
  then [u; v] :: JS.iterate rest
  else [u] :: JS.iterate (v :: rest).
Proof. reflexivity. Qed.

(** The characters of a string, put back together, are the string. *)
Lemma concat_iterate s : List.concat (JS.iterate s) = s.
Proof.
  induction s as [|u|u v rest IHrest IHcons] using jsstring_ind2;
    [reflexivity | reflexivity |].
  rewrite iterate_cons2.
  destruct (JS.isHighSurrogate u && JS.isLowSurrogate v); cbn [List.concat app].
  - now rewrite IHrest.
  - now rewrite IHcons.
Qed.

Lemma iterate_nonempty s : Forall (fun char => char <> []) (JS.iterate s).
Proof.
  induction s as [|u|u v rest IHrest IHcons] using jsstring_ind2.
  - constructor.
  - cbn. constructor; [discriminate | constructor].
  - rewrite iterate_cons2.
    destruct (JS.isHighSurrogate u && JS.isLowSurrogate v);
      constructor; (discriminate || assumption).
Qed.

(** There are at most as many characters as code units. *)
Lemma length_iterate_le s :
  (List.length (JS.iterate s) <= List.length s)%nat.
Proof.
  induction s as [|u|u v rest IHrest IHcons] using jsstring_ind2;
    [cbn; lia | cbn; lia |].
  rewrite iterate_cons2.
  destruct (JS.isHighSurrogate u && JS.isLowSurrogate v);
    cbn [List.length] in *; lia.
Qed.

(** A string without a high surrogate has one character per code unit. *)
Lemma iterate_bmp s :
  Forall (fun u => JS.isHighSurrogate u = false) s ->
  JS.iterate s = map (fun u => [u]) s.
Proof.
  induction s as [|u|u v rest IHrest IHcons] using jsstring_ind2;
    [reflexivity | reflexivity |].
  intro H. rewrite iterate_cons2.
  inversion H as [|? ? Hu Hrest]; subst.
  rewrite Hu. cbn [andb map]. f_equal. now apply IHcons.
Qed.

End IterateFacts.

(** ** CharacterClassifier *)

Module ClassifierFacts.
Import CharacterClassifier.

(** On a string of one code unit the classifier is the table of the
    listed blocks. *)
Lemma isCJKCharacter_unit (u : Z) : isCJKCharacter [u] = Spec.inCjkBlocks u.
Proof.
  unfold isCJKCharacter, Spec.inCjkBlocks, Spec.cjkBlocks, JS.between,
    JS.charCodeAt0.
  cbn [hd_error existsb]. rewrite orb_false_r.
  repeat rewrite <- orb_assoc. reflexivity.
Qed.

(** Below U+10000 a character is its own code unit, and the classifier
    agrees with the listed blocks. *)
Lemma isCJKCharacter_bmp (cp : Z) :
  (cp < 0x10000)%Z ->
  isCJKCharacter (JS.fromCodePoint cp) = Spec.inCjkBlocks cp.
Proof.
  intro H. unfold JS.fromCodePoint.
  destruct (Z.ltb_spec cp 0x10000); [apply isCJKCharacter_unit | lia].
Qed.

Lemma fromCodePoint_high (cp : Z) :
  (0x10000 <= cp <= 0x10FFFF)%Z ->
  exists hi lo, JS.fromCodePoint cp = [hi; lo] /\ (0xD800 <= hi <= 0xDBFF)%Z.
Proof.
  intro H. unfold JS.fromCodePoint.
  destruct (Z.ltb_spec cp 0x10000); [lia |].
  eexists _, _. split; [reflexivity |].
  rewrite Z.shiftr_div_pow2 by lia.
  change (2 ^ 10)%Z with 1024%Z.
  assert (0 <= (cp - 0x10000) / 1024 < 1024)%Z
    by (split; [apply Z.div_pos | apply Z.div_lt_upper_bound]; lia).
  lia.
Qed.

(** Above U+FFFF [charCodeAt(0)] reads a high surrogate, which no listed
    range contains: no supplementary character is ever classified CJK. *)
Lemma isCJKCharacter_supplementary (cp : Z) :
  (0x10000 <= cp <= 0x10FFFF)%Z ->
  isCJKCharacter (JS.fromCodePoint cp) = false.
Proof.
  intro H. destruct (fromCodePoint_high H) as (hi & lo & -> & Hhi).
  unfold isCJKCharacter, JS.between, JS.charCodeAt0. cbn [hd_error].
  repeat match goal with
         | |- context [(?a <=? ?b)%Z] =>
             destruct (Z.leb_spec a b); try lia
         end; reflexivity.
Qed.

(** C1, at the first code point of CJK Unified Ideographs Extension B:
    U+20000 lies in a listed block, its string is the surrogate pair
    D840 DC00, and [isCJKCharacter] answers false for it, as it does for
    the first code points of Extensions C to G; the characters of these
    blocks are therefore classified as symbols. *)
Theorem isCJKCharacter_extension_B_missed :
  Spec.inCjkBlocks 0x20000 = true
  /\ JS.fromCodePoint 0x20000 = [0xD840; 0xDC00]%Z
  /\ isCJKCharacter (JS.fromCodePoint 0x20000) = false
  /\ getCharacterType (JS.fromCodePoint 0x20000) = Symbol
  /\ forallb (fun cp => Spec.inCjkBlocks cp
                        && negb (isCJKCharacter (JS.fromCodePoint cp)))
             [0x2a700; 0x2b740; 0x2b820; 0x2ceb0; 0x30000; 0x3134f]%Z = true.
Proof. repeat split; vm_compute; reflexivity. Qed.

End ClassifierFacts.

Module CompositionFacts.
Import CharacterClassifier.

Lemma increment_spec c char :
  let c' := increment c char in
  (c_cjk c' + c_latin c' + c_digits c' + c_symbols c' + c_whitespace c'
   = c_cjk c + c_latin c + c_digits c + c_symbols c + c_whitespace c + 1
   /\ c_total c' = c_total c
   /\ c_cjk c <= c_cjk c' <= c_cjk c + 1)%Z.
Proof.
  destruct c as [k l d s w t]. unfold increment.
  destruct (getCharacterType char); cbn; lia.
Qed.

Lemma fold_increment chars : forall c,
  let c' := fold_left increment chars c in
  (c_cjk c' + c_latin c' + c_digits c' + c_symbols c' + c_whitespace c'
   = c_cjk c + c_latin c + c_digits c + c_symbols c + c_whitespace c
     + Z.of_nat (List.length chars)
   /\ c_total c' = c_total c
   /\ c_cjk c <= c_cjk c' <= c_cjk c + Z.of_nat (List.length chars))%Z.
Proof.
  induction chars as [|char chars IH]; intro c; cbn [fold_left List.length].
  - cbn. lia.
  - specialize (IH (increment c char)). cbn zeta in IH.
    pose proof (increment_spec c char) as Hc. cbn zeta in Hc. lia.
Qed.

(** The five counts add up to the number of characters the iterator
    yields, while [total] is the number of code units. *)
Lemma categorySum_characters text :
  Spec.categorySum (analyzeTextComposition text)
  = Z.of_nat (List.length (JS.iterate text))
  /\ Composition.total (analyzeTextComposition text)
     = Z.of_nat (List.length text).
Proof.
  unfold Spec.categorySum, analyzeTextComposition. cbn.
  pose proof (fold_increment (JS.iterate text)
                (mkCounts 0 0 0 0 0 (Z.of_nat (List.length text)))) as H.
  cbn in H. lia.
Qed.

(** Without surrogates the two agree: the invariant holds on text of the
    Basic Multilingual Plane. *)
Lemma categorySum_total_bmp text :
  Forall (fun u => JS.isHighSurrogate u = false) text ->
  Spec.categorySum (analyzeTextComposition text)
  = Composition.total (analyzeTextComposition text).
Proof.
  intro H. destruct (categorySum_characters text) as [-> ->].
  now rewrite (IterateFacts.iterate_bmp H), length_map.
Qed.

Lemma ratio_bounds (a b : Z) :
  (0 <= a <= b)%Z -> (0 < b)%Z ->
  0 <= inject_Z a / inject_Z b <= 1.
Proof.
  intros Ha Hb.
  assert (0 < inject_Z b) by (change 0 with (inject_Z 0); now rewrite <- Zlt_Qlt).
  split.
  - apply Qle_shift_div_l; [assumption |].
    rewrite Qmult_0_l. change 0 with (inject_Z 0). rewrite <- Zle_Qle. lia.
  - apply Qle_shift_div_r; [assumption |].
    rewrite Qmult_1_l. rewrite <- Zle_Qle. lia.
Qed.

(** The ratio is in [0,1] whatever the text, and is the literal 0 on the
    empty text. *)
Lemma cjkRatio_bounds text :
  0 <= Composition.cjkRatio (analyzeTextComposition text) <= 1
  /\ (Composition.total (analyzeTextComposition text) = 0%Z ->
      Composition.cjkRatio (analyzeTextComposition text) = 0).
Proof.
  unfold analyzeTextComposition. cbn.
  pose proof (fold_increment (JS.iterate text)
                (mkCounts 0 0 0 0 0 (Z.of_nat (List.length text)))) as H.
  cbn in H. destruct H as (_ & Ht & Hk).
  pose proof (IterateFacts.length_iterate_le text) as Hlen.
  rewrite Ht.
  destruct (Z.ltb_spec 0 (Z.of_nat (List.length text))) as [Hpos | Hzero].
  - split; [apply ratio_bounds; lia | lia].
  - split; [lra | reflexivity].
Qed.

(** C2, at the text made of the one character U+1F600 (the surrogate pair
    D83D DE00): the loop counts one symbol, [total] is the [length] 2, and
    the five counts do not add up to [total]. *)
Theorem analyzeTextComposition_astral_total :
  let c := analyzeTextComposition (JS.fromCodePoint 0x1F600) in
  JS.fromCodePoint 0x1F600 = [0xD83D; 0xDE00]%Z
  /\ Composition.symbols c = 1%Z
  /\ Spec.categorySum c = 1%Z
  /\ Composition.total c = 2%Z
  /\ Spec.categorySum c <> Composition.total c.
Proof. vm_compute. repeat split; discriminate. Qed.

End CompositionFacts.

(** ** Comparisons of numbers *)

Module NumberFacts.

Lemma gtb_spec x y : reflect (y < x) (JS.gtb x y).
Proof.
  unfold JS.gtb. destruct (Qle_bool x y) eqn:E; constructor.
  - apply Qle_bool_iff in E. lra.
  - apply Qnot_le_lt. intro H. apply Qle_bool_iff in H. congruence.
Qed.

Lemma ltb_spec x y : reflect (x < y) (JS.ltb x y).
Proof. unfold JS.ltb. exact (gtb_spec y x). Qed.

Lemma eqb_spec x y : reflect (x == y) (JS.eqb x y).
Proof.
  unfold JS.eqb. destruct (Qeq_bool x y) eqn:E; constructor.
  - now apply Qeq_bool_iff.
  - intro H. apply Qeq_bool_iff in H. congruence.
Qed.

End NumberFacts.

(** ** The adjustment factor *)

Module AdjustmentFacts.
Import FuzzyTokenEstimator NumberFacts.




End AdjustmentFacts.

(** ** Model resolution, the empty text and the confidence label *)

Module EstimatorFacts.
Import FuzzyTokenEstimator.

(** The chain of [||] of [getModelConfig] is the resolution the
    specification describes. *)
Lemma getModelConfig_model this modelName :
  snd (getModelConfig this modelName)
  = Spec.resolvedModel modelName (defaultModel this).
Proof.
  unfold getModelConfig, Spec.resolvedModel, JS.stringOrElse, JS.stringOr.
  cbn [snd].
  destruct modelName as [[|c n]|]; cbn;
    destruct (defaultModel this) as [[|c' n']|]; reflexivity.
Qed.

Lemma getModelConfig_config this modelName :
  fst (getModelConfig this modelName)
  = match getConfig (modelProvider this)
                    (Spec.resolvedModel modelName (defaultModel this)) with
    | Some c => c
    | None => fallbackConfig this
    end.
Proof.
  rewrite <- getModelConfig_model. reflexivity.
Qed.

Lemma estimateDetailed_unfold this text modelName :
  estimateDetailed this text modelName
  = estimateDetailedWith (fst (getModelConfig this modelName))
                         (snd (getModelConfig this modelName)) text.
Proof.
  unfold estimateDetailed. destruct (getModelConfig this modelName).
  reflexivity.
Qed.

Lemma modelUsed_estimateDetailedWith config model text :
  modelUsed (estimateDetailedWith config model text) = model.
Proof. destruct text; reflexivity. Qed.

Lemma resolvedModel_nonempty requested engineDefault :
  Spec.resolvedModel requested engineDefault <> ""%string.
Proof.
  unfold Spec.resolvedModel.
  destruct requested as [[|c n]|]; try discriminate;
    destruct engineDefault as [[|c' n']|]; discriminate.
Qed.

(** C6: on the empty text the result carries the overhead of the resolved
    configuration untouched as its token total, zero for the four
    category subtotals, zero characters, ratio 0, adjustment factor 1, and
    the label "high". *)
Theorem estimateDetailed_empty (this : t) (modelName : option string) :
  let config := fst (getModelConfig this modelName) in
  let r := estimateDetailed this [] modelName in
  tokens r = overhead config
  /\ Breakdown.cjk (breakdown r) = 0
  /\ Breakdown.latin (breakdown r) = 0
  /\ Breakdown.digits (breakdown r) = 0
  /\ Breakdown.symbols (breakdown r) = 0
  /\ Breakdown.overhead (breakdown r) = overhead config
  /\ TextAnalysis.totalChars (textAnalysis r) = 0%Z
  /\ TextAnalysis.cjkRatio (textAnalysis r) = 0
  /\ TextAnalysis.adjustmentFactor (textAnalysis r) = 1
  /\ confidence r = high.
Proof.
  cbn zeta. rewrite estimateDetailed_unfold. cbn.
  repeat (split; [reflexivity |]). reflexivity.
Qed.

(** C7 as stated fails: on the empty text the composition has fewer than
    10 characters, which the priority order labels "low", while
    [estimateDetailed] answers "high" before any composition is made. *)
Lemma confidence_not_from_composition_on_empty :
  ~ (forall (this : t) (text : jsstring) (modelName : option string),
        let c := CharacterClassifier.analyzeTextComposition text in
        confidence (estimateDetailed this text modelName)
        = Spec.confidenceOf (Composition.total c) (Composition.symbols c)
                            (Composition.cjkRatio c)).
Proof.
  intro H.
  specialize (H (createSimpleFuzzyEstimator [] None) [] None).
  vm_compute in H. discriminate.
Qed.

(** C7, amended: for every text that is not empty the label follows the
    priority order over the composition (fewer than 10 code units: "low";
    else ratio above 0.9 or below 0.1: "high"; else symbols over total
    above 0.3: "low"; else "medium"); for the empty text it is "high". *)
Theorem confidence_priority (this : t) (text : jsstring)
        (modelName : option string) :
  let c := CharacterClassifier.analyzeTextComposition text in
  (text <> [] ->
   confidence (estimateDetailed this text modelName)
   = Spec.confidenceOf (Composition.total c) (Composition.symbols c)
                       (Composition.cjkRatio c))
  /\ (text = [] -> confidence (estimateDetailed this text modelName) = high).
Proof.
  cbn zeta. rewrite estimateDetailed_unfold.
  split; intro H; destruct text; try congruence; reflexivity.
Qed.

Lemma confidence_priority_witness :
  confidence (estimateDetailed (createSimpleFuzzyEstimator [] None)
                               [0x48; 0x69]%Z None) = low
  /\ confidence (estimateDetailed (createSimpleFuzzyEstimator [] None)
                                  [] None) = high.
Proof.
  split.
  - rewrite (proj1 (confidence_priority (createSimpleFuzzyEstimator [] None)
                      [0x48; 0x69]%Z None)); [reflexivity | discriminate].
  - apply (proj2 (confidence_priority (createSimpleFuzzyEstimator [] None)
                    [] None)). reflexivity.
Defined.

(** C8: [estimateDetailed] is a total function of the text and the model
    name.  The name it reports is the requested one, else the engine's
    default, else "unknown"; with no configuration under that name the
    whole result is the one computed from the fallback configuration,
    which is the one given to the constructor or else the built-in
    default (4, 10, 1.5, 1.05, 3.5, 2.5, compress). *)
Theorem estimateDetailed_unknown_model (this : t) (text : jsstring)
        (modelName : option string) :
  let model := Spec.resolvedModel modelName (defaultModel this) in
  let r := estimateDetailed this text modelName in
  modelUsed r = model
  /\ (getConfig (modelProvider this) model = None ->
      r = estimateDetailedWith (fallbackConfig this) model text)
  /\ (forall config, getConfig (modelProvider this) model = Some config ->
                     r = estimateDetailedWith config model text)
  /\ (forall provider supplied engineDefault,
         fallbackConfig
           (new provider (Some {| opt_fallbackConfig := Some supplied;
                                  opt_defaultModel := engineDefault |}))
         = supplied)
  /\ (forall provider engineDefault,
         fallbackConfig
           (new provider (Some {| opt_fallbackConfig := None;
                                  opt_defaultModel := engineDefault |}))
         = DEFAULT_FALLBACK_CONFIG
         /\ fallbackConfig (new provider None) = DEFAULT_FALLBACK_CONFIG)
  /\ DEFAULT_FALLBACK_CONFIG
     = {| charsPerToken := 4; overhead := 10; cjkTokensPerChar := 1.5;
          mixedTextMultiplier := 1.05; numberTokensPerChar := Some 3.5;
          symbolTokensPerChar := Some 2.5;
          whitespaceHandling := Some compress |}.
Proof.
  cbn zeta. rewrite estimateDetailed_unfold, getModelConfig_config,
    getModelConfig_model.
  split; [apply modelUsed_estimateDetailedWith |].
  split.
  { intros ->. reflexivity. }
  split; [intros config ->; reflexivity |].
  split; [reflexivity |].
  split; [split; reflexivity | reflexivity].
Qed.

Lemma estimateDetailed_unknown_model_witness :
  estimateDetailed (createSimpleFuzzyEstimator [] None) [0x48; 0x69]%Z
                   (Some "unknown-model"%string)
  = estimateDetailedWith DEFAULT_FALLBACK_CONFIG "unknown-model" [0x48; 0x69]%Z
  /\ tokens (estimateDetailed (createSimpleFuzzyEstimator [] None)
                              [0x48; 0x69]%Z (Some "unknown-model"%string))
     = 12.
Proof.
  pose proof (estimateDetailed_unknown_model
                (createSimpleFuzzyEstimator [] None) [0x48; 0x69]%Z
                (Some "unknown-model"%string)) as H.
  cbn zeta in H. destruct H as (_ & H & _).
  pose proof (H eq_refl) as E.
  split; [exact E | rewrite E; reflexivity].
Defined.

(** C10: the empty string as model name gives the very result of an
    absent model name, and no result names the empty string as its
    model. *)
Theorem estimateDetailed_empty_model_name (this : t) (text : jsstring) :
  estimateDetailed this text (Some ""%string)
  = estimateDetailed this text None
  /\ modelUsed (estimateDetailed this text (Some ""%string))
     = Spec.resolvedModel None (defaultModel this)
  /\ forall modelName,
       modelUsed (estimateDetailed this text modelName) <> ""%string.
Proof.
  split; [reflexivity |].
  split.
  - rewrite estimateDetailed_unfold, modelUsed_estimateDetailedWith,
      getModelConfig_model. reflexivity.
  - intro modelName.
    rewrite estimateDetailed_unfold, modelUsed_estimateDetailedWith,
      getModelConfig_model.
    apply resolvedModel_nonempty.
Qed.

End EstimatorFacts.

(** ** The grouping pass *)

Module GroupingFacts.
Import FuzzyTokenEstimator.

Lemma CharacterType_eqb_spec a b : reflect (a = b) (CharacterType_eqb a b).
Proof. destruct a, b; constructor; congruence. Qed.

(** *** [Spec.runs] is the partition into maximal runs *)

Lemma concat_joinRun ty stretch rs :
  List.concat (map snd (Spec.joinRun ty stretch rs))
  = stretch ++ List.concat (map snd rs).
Proof.
  unfold Spec.joinRun. destruct rs as [|[ty' chars] rs']; cbn.
  - reflexivity.
  - destruct (CharacterType_eqb ty ty'); cbn; [symmetry; apply app_assoc | reflexivity].
Qed.

Lemma concat_runs chars : List.concat (map snd (Spec.runs chars)) = chars.
Proof.
  induction chars as [|c chars IH]; [reflexivity |].
  change (Spec.runs (c :: chars)) with (Spec.consRun c (Spec.runs chars)).
  unfold Spec.consRun. rewrite concat_joinRun, IH. reflexivity.
Qed.

Lemma maximal_consRun c rs : Spec.maximal rs -> Spec.maximal (Spec.consRun c rs).
Proof.
  unfold Spec.consRun, Spec.joinRun.
  destruct rs as [|[ty' chars] rs']; intro H.
  - cbn. split; [discriminate |]. split; [| split; exact I].
    constructor; [reflexivity | constructor].
  - destruct (CharacterType_eqb_spec (CharacterClassifier.getCharacterType c) ty')
      as [E | N].
    + cbn in *. destruct H as (_ & Hall & Hnext & Hrest).
      split; [discriminate |]. split; [| split; assumption].
      constructor; assumption.
    + cbn [Spec.maximal]. split; [discriminate |].
      split; [| split; [exact N | exact H]].
      constructor; [reflexivity | constructor].
Qed.

Lemma maximal_runs chars : Spec.maximal (Spec.runs chars).
Proof.
  induction chars as [|c chars IH]; [exact I |].
  change (Spec.runs (c :: chars)) with (Spec.consRun c (Spec.runs chars)).
  now apply maximal_consRun.
Qed.

(** *** The loop computes the fold of [Groups.addGroup] over the runs *)

(** Closing a pending group that is not empty adds its run. *)
Lemma processGroup_pending config b ty stretch :
  List.concat stretch <> [] ->
  processGroup config (mkGrouping b (Some ty) (List.concat stretch))
  = mkGrouping (Groups.addGroup config b (ty, stretch)) (Some ty) [].
Proof.
  intro H. unfold processGroup, Groups.addGroup, Groups.groupLength, groupLength.
  cbn [currentGroup currentType g_breakdown fst snd].
  destruct (List.concat stretch) as [|u rest] eqn:E; [congruence |].
  destruct ty; reflexivity.
Qed.

Lemma CharacterType_eqb_refl ty : CharacterType_eqb ty ty = true.
Proof. destruct ty; reflexivity. Qed.

Lemma joinRun_same ty stretch c rs :
  CharacterClassifier.getCharacterType c = ty ->
  Spec.joinRun ty stretch (Spec.consRun c rs)
  = Spec.joinRun ty (stretch ++ [c]) rs.
Proof.
  intros <-. unfold Spec.consRun.
  set (ty := CharacterClassifier.getCharacterType c).
  destruct rs as [|[ty' chars] rs']; cbn [Spec.joinRun].
  - now rewrite CharacterType_eqb_refl.
  - destruct (CharacterType_eqb ty ty') eqn:E; cbn [Spec.joinRun].
    + rewrite E, <- app_assoc. reflexivity.
    + now rewrite CharacterType_eqb_refl.
Qed.

Lemma joinRun_other ty stretch c rs :
  CharacterClassifier.getCharacterType c <> ty ->
  Spec.joinRun ty stretch (Spec.consRun c rs)
  = (ty, stretch) :: Spec.consRun c rs.
Proof.
  intro N. unfold Spec.consRun.
  set (tc := CharacterClassifier.getCharacterType c) in *.
  assert (F : CharacterType_eqb ty tc = false)
    by (destruct (CharacterType_eqb_spec ty tc); congruence).
  destruct rs as [|[ty' chars] rs']; cbn [Spec.joinRun].
  - now rewrite F.
  - destruct (CharacterType_eqb_spec tc ty') as [E | N']; cbn [Spec.joinRun].
    + rewrite <- E, F. reflexivity.
    + now rewrite F.
Qed.

(** The invariant of the loop: with a stretch of category [ty] pending,
    what remains to be added is the stretch joined to the runs of the
    characters still to come. *)
Lemma loop_pending config chars : forall b ty stretch,
  List.concat stretch <> [] ->
  Forall (fun c => c <> []) chars ->
  g_breakdown
    (processGroup config
       (fold_left (step config) chars
                  (mkGrouping b (Some ty) (List.concat stretch))))
  = fold_left (Groups.addGroup config) (Spec.joinRun ty stretch (Spec.runs chars)) b.
Proof.
  induction chars as [|c chars IH]; intros b ty stretch Hstretch Hchars.
  - cbn [fold_left Spec.runs fold_right Spec.joinRun].
    now rewrite processGroup_pending.
  - inversion Hchars as [|? ? Hc Hrest]; subst.
    change (Spec.runs (c :: chars)) with (Spec.consRun c (Spec.runs chars)).
    cbn [fold_left]. unfold step at 2. cbn [currentType differs].
    destruct (CharacterType_eqb_spec (CharacterClassifier.getCharacterType c) ty)
      as [E | N]; cbn [negb].
    + cbn [g_breakdown currentType currentGroup].
      replace (List.concat stretch ++ c) with (List.concat (stretch ++ [c]))
        by (rewrite concat_app; cbn; now rewrite app_nil_r).
      rewrite joinRun_same by exact E.
      apply IH; [| assumption].
      rewrite concat_app. cbn. rewrite app_nil_r.
      intro H. apply app_eq_nil in H. now destruct H.
    + rewrite processGroup_pending by assumption.
      cbn [g_breakdown currentType currentGroup app].
      rewrite joinRun_other by exact N.
      pose proof (IH (Groups.addGroup config b (ty, stretch))
                     (CharacterClassifier.getCharacterType c) [c]) as IHc.
      cbn [List.concat] in IHc. rewrite app_nil_r in IHc.
      cbn [fold_left]. unfold Spec.consRun. now apply IHc.
Qed.

Lemma loop_runs config b chars :
  Forall (fun c => c <> []) chars ->
  g_breakdown
    (processGroup config
       (fold_left (step config) chars (mkGrouping b None [])))
  = fold_left (Groups.addGroup config) (Spec.runs chars) b.
Proof.
  destruct chars as [|c chars]; intro H; [reflexivity |].
  inversion H as [|? ? Hc Hrest]; subst.
  change (Spec.runs (c :: chars)) with (Spec.consRun c (Spec.runs chars)).
  cbn [fold_left]. unfold step at 2.
  cbn [currentType differs processGroup currentGroup g_breakdown app].
  pose proof (@loop_pending config chars b
                (CharacterClassifier.getCharacterType c) [c]) as H1.
  cbn [List.concat] in H1. rewrite app_nil_r in H1.
  unfold Spec.consRun. now apply H1.
Qed.

(** *** What the length of a run counts *)

Lemma runs_Forall (P : jsstring -> Prop) chars :
  Forall P chars -> Forall (fun r => Forall P (snd r)) (Spec.runs chars).
Proof.
  induction chars as [|c chars IH]; intro H; [constructor |].
  inversion H as [|? ? Hc Hrest]; subst.
  change (Spec.runs (c :: chars)) with (Spec.consRun c (Spec.runs chars)).
  specialize (IH Hrest). unfold Spec.consRun, Spec.joinRun.
  destruct (Spec.runs chars) as [|[ty' cs] rs'].
  - repeat constructor. exact Hc.
  - inversion IH as [|? ? Hcs Hrs]; subst.
    destruct (CharacterType_eqb (CharacterClassifier.getCharacterType c) ty').
    + constructor; [constructor; assumption | assumption].
    + constructor; [repeat constructor; exact Hc | exact IH].
Qed.

Lemma length_concat_units (cs : list jsstring) :
  Forall (fun c => List.length c = 1%nat) cs ->
  List.length (List.concat cs) = List.length cs.
Proof.
  induction 1 as [|c cs Hc _ IH]; [reflexivity |].
  cbn [List.concat List.length]. rewrite length_app, Hc, IH. reflexivity.
Qed.

(** A character outside the Basic Multilingual Plane counts for two in
    the length of its group. *)
Example groupLength_astral :
  Spec.runs (JS.iterate [0xD83D; 0xDE00; 0xD83D; 0xDE00]%Z)
  = [(Symbol, [[0xD83D; 0xDE00]; [0xD83D; 0xDE00]])]%Z
  /\ Groups.groupLength (Symbol, [[0xD83D; 0xDE00]; [0xD83D; 0xDE00]]%Z) == 4.
Proof. split; reflexivity. Qed.

(** What [x || d] does with each kind of value, and the divisors a
    configuration gives at work: four digits under a divisor of 1, of 2,
    under none, and under 0. *)
Example numberOr_values :
  JS.numberOr None 3.5 = 3.5 /\ JS.numberOr (Some 0) 3.5 = 3.5
  /\ JS.numberOr (Some 2) 3.5 = 2 /\ JS.numberOr (Some 1) 2.5 = 1
  /\ (let digits d :=
        Breakdown.digits
          (breakdown
             (estimateDetailedWith
                {| charsPerToken := 4; overhead := 0; cjkTokensPerChar := 1;
                   mixedTextMultiplier := 1; numberTokensPerChar := d;
                   symbolTokensPerChar := d; whitespaceHandling := None |}
                "m" [0x32; 0x30; 0x32; 0x34]%Z)) in
      digits (Some 1) == 4 /\ digits (Some 2) == 2 /\ digits None == 2
      /\ digits (Some 0) == 2).
Proof. repeat split. Qed.

Lemma addRun_overhead config b r :
  Breakdown.overhead (Groups.addGroup config b r) = Breakdown.overhead b.
Proof.
  unfold Groups.addGroup. destruct (fst r); try reflexivity.
  destruct (whitespaceHandling config) as [[| |]|]; reflexivity.
Qed.

Lemma fold_addRun_overhead config rs : forall b,
  Breakdown.overhead (fold_left (Groups.addGroup config) rs b)
  = Breakdown.overhead b.
Proof.
  induction rs as [|r rs IH]; intro b; [reflexivity |].
  cbn [fold_left]. now rewrite IH, addRun_overhead.
Qed.


End GroupingFacts.

(** ** The cost calculator *)

Module CostFacts.
Import TokenCostCalculator.

Lemma uintChars_digits d : forallb Spec.isDigit (JS.uintChars d) = true.
Proof. induction d; cbn; auto. Qed.

Lemma value_uint_acc d : forall acc,
  fold_left Spec.digitStep (JS.uintChars d) (Z.pos acc)
  = Z.pos (Pos.of_uint_acc d acc).
Proof.
  induction d; intro acc; unfold JS.uintChars; cbn [NilEmpty.string_of_uint
    list_ascii_of_string fold_left Pos.of_uint_acc];
    [reflexivity | ..];
    fold (JS.uintChars d); rewrite <- IHd; f_equal; unfold Spec.digitStep;
    match goal with
    | |- context [Z.of_nat (nat_of_ascii ?c)] =>
        let v := eval vm_compute in (Z.of_nat (nat_of_ascii c)) in
        change (Z.of_nat (nat_of_ascii c)) with v
    end; lia.
Qed.

Lemma value_uint d :
  fold_left Spec.digitStep (JS.uintChars d) 0%Z = Z.of_N (Pos.of_uint d).
Proof.
  induction d; unfold JS.uintChars; cbn [NilEmpty.string_of_uint list_ascii_of_string
    fold_left Pos.of_uint]; [reflexivity | ..]; fold (JS.uintChars d);
    [exact IHd | ..]; cbn [Z.of_N]; rewrite <- value_uint_acc; reflexivity.
Qed.

Lemma decimalValue_digitChars n :
  (0 <= n)%Z -> Spec.decimalValue (JS.digitChars n) = n.
Proof.
  intro H. unfold Spec.decimalValue, JS.digitChars.
  change (fold_left Spec.digitStep (JS.uintChars (N.to_uint (Z.to_N n))) 0%Z = n).
  rewrite value_uint. change (Pos.of_uint ?d) with (N.of_uint d).
  rewrite DecimalN.Unsigned.of_to. now apply Z2N.id.
Qed.

Lemma decimalValue_zeros k digits :
  Spec.decimalValue (repeat "0"%char k ++ digits) = Spec.decimalValue digits.
Proof.
  unfold Spec.decimalValue. rewrite fold_left_app. f_equal.
  induction k as [|k IH]; [reflexivity | exact IH].
Qed.

Lemma zeros_digits k : forallb Spec.isDigit (repeat "0"%char k) = true.
Proof. induction k; cbn; auto. Qed.

Lemma digits_of_nearest n :
  (0 <= n)%Z ->
  let m := if (n =? 0)%Z then ["0"%char] else JS.digitChars n in
  forallb Spec.isDigit m = true /\ Spec.decimalValue m = n.
Proof.
  intro H. cbn zeta. destruct (Z.eqb_spec n 0) as [-> | _].
  - split; reflexivity.
  - split; [apply uintChars_digits | now apply decimalValue_digitChars].
Qed.

(** Step 11 with at least one decimal: at least one digit, the point,
    [f] digits, which together denote the nearest integer. *)
Lemma fixedDigits_shape (y : number) (f' : nat) :
  0 <= y ->
  exists whole frac : list ascii,
    JS.fixedDigits y (S f') = string_of_list_ascii (whole ++ "."%char :: frac)
    /\ whole <> []
    /\ List.length frac = S f'
    /\ forallb Spec.isDigit (whole ++ frac) = true
    /\ y * 10 ^ Z.of_nat (S f') - (1 # 2)
       < inject_Z (Spec.decimalValue (whole ++ frac))
       <= y * 10 ^ Z.of_nat (S f') + (1 # 2).
Proof.
  intro Hy. unfold JS.fixedDigits.
  set (f := S f').
  set (scaled := y * 10 ^ Z.of_nat f).
  set (n := Qfloor (scaled + (1 # 2))).
  assert (Hscaled : 0 <= scaled).
  { apply Qmult_le_0_compat; [exact Hy |]. apply Qpower_0_le. discriminate. }
  assert (Hn : (0 <= n)%Z).
  { change 0%Z with (Qfloor 0). apply Qfloor_resp_le. lra. }
  destruct (digits_of_nearest Hn) as [Hdigits Hvalue].
  set (m0 := if (n =? 0)%Z then ["0"%char] else JS.digitChars n) in *.
  set (m := if (List.length m0 <=? f)%nat
            then repeat "0"%char (f + 1 - List.length m0) ++ m0 else m0).
  assert (Hm : (f < List.length m)%nat
               /\ forallb Spec.isDigit m = true
               /\ Spec.decimalValue m = n).
  { unfold m. destruct (Nat.leb_spec (List.length m0) f).
    - rewrite length_app, repeat_length, forallb_app, zeros_digits,
        decimalValue_zeros.
      repeat split; [lia | exact Hdigits | exact Hvalue].
    - repeat split; [lia | exact Hdigits | exact Hvalue]. }
  destruct Hm as (Hlen & Hmdigits & Hmvalue).
  exists (firstn (List.length m - f) m), (skipn (List.length m - f) m).
  split; [reflexivity |].
  split.
  { intro E. apply (f_equal (@List.length ascii)) in E.
    rewrite length_firstn in E. cbn [List.length] in E. lia. }
  split; [rewrite length_skipn; lia |].
  rewrite firstn_skipn.
  split; [exact Hmdigits |].
  rewrite Hmvalue.
  pose proof (Qfloor_le (scaled + (1 # 2))) as Hlo.
  pose proof (Qlt_floor (scaled + (1 # 2))) as Hhi.
  fold n in Hlo, Hhi. rewrite inject_Z_plus in Hhi.
  change (inject_Z 1) with 1 in Hhi.
  split; lra.
Qed.

Lemma below_threshold y : y < 10 ^ 21 -> Qle_bool (10 ^ 21) y = false.
Proof.
  intro H. destruct (Qle_bool (10 ^ 21) y) eqn:E; [| reflexivity].
  apply Qle_bool_iff in E. lra.
Qed.

(** Below [10^21] in magnitude, [toFixed] with at least one decimal
    writes fixed notation. *)
Lemma toFixed_fixedNotation (NumberToString : number -> string)
      (x : number) (f' : nat) :
  Qabs x < 10 ^ 21 ->
  Spec.fixedNotation (S f') x (JS.toFixed NumberToString x (S f')).
Proof.
  intro Hx. unfold JS.toFixed, Spec.fixedNotation.
  destruct (NumberFacts.ltb_spec x 0) as [Hneg | Hpos].
  - assert (Habs : Qabs x == - x) by (apply Qabs_neg; lra).
    rewrite below_threshold by (rewrite <- Habs; exact Hx).
    assert (H0 : 0 <= - x) by lra.
    destruct (fixedDigits_shape f' H0) as (whole & frac & -> & Hw & Hf & Hd & Hv).
    exists "-"%string, whole, frac.
    split; [reflexivity |]. split; [now right |].
    split; [split; [intros _; exact Hneg | reflexivity] |].
    split; [exact Hw |]. split; [exact Hf |]. split; [exact Hd |].
    rewrite Habs. exact Hv.
  - assert (H0 : 0 <= x) by lra.
    assert (Habs : Qabs x == x) by (apply Qabs_pos; exact H0).
    rewrite below_threshold by (rewrite <- Habs; exact Hx).
    destruct (fixedDigits_shape f' H0) as (whole & frac & -> & Hw & Hf & Hd & Hv).
    exists ""%string, whole, frac.
    split; [reflexivity |]. split; [now left |].
    split; [split; [discriminate | intro; lra] |].
    split; [exact Hw |]. split; [exact Hf |]. split; [exact Hd |].
    rewrite Habs. exact Hv.
Qed.

(** The cases of the repository's tests. *)
Example calculate_gpt35 :
  let r := calculate Fixtures.noExponent Fixtures.MockCostProvider
                     "gpt-3.5-turbo" 1000 500 in
  inputCost r == 0.0015 /\ outputCost r == 0.001 /\ totalCost r == 0.0025
  /\ formattedTotal r = "$0.0025"%string /\ available r = true.
Proof. cbn. repeat split. Qed.

Example calculate_gpt4 :
  formattedTotal (calculate Fixtures.noExponent Fixtures.MockCostProvider
                            "gpt-4" 2000 1000) = "$0.1200"%string.
Proof. reflexivity. Qed.

End CostFacts.

(** ** The repository's tests, run on the embedding *)

Module RepositoryTests.
Import CharacterClassifier FuzzyTokenEstimator.

Example isCJKCharacter_cases :
  map (fun u => isCJKCharacter [u])
      [0x3042; 0x30a2; 0x6f22; 0x3002; 0x4e2d; 0xd55c; 0x61; 0x31; 0x20; 0x21]%Z
  = [true; true; true; true; true; true; false; false; false; false].
Proof. reflexivity. Qed.

Example getCharacterType_cases :
  map (fun u => getCharacterType [u])
      [0x3042; 0x61; 0x5a; 0xe9; 0x30; 0x0660; 0x20; 0x09; 0x0a; 0x21; 0x2605]%Z
  = [Cjk; Latin; Latin; Latin; Digit; Digit; Whitespace; Whitespace;
     Whitespace; Symbol; Symbol].
Proof. reflexivity. Qed.

Example composition_english :
  let c := analyzeTextComposition (Fixtures.ascii "Hello World") in
  (Composition.cjk c, Composition.latin c, Composition.whitespace c,
   Composition.total c) = (0, 10, 1, 11)%Z
  /\ Composition.cjkRatio c == 0.
Proof. split; reflexivity. Qed.

Example composition_mixed :
  let c := analyzeTextComposition
             (Fixtures.ascii "Hello " ++ Fixtures.konnichiwa
              ++ Fixtures.ascii " 123") in
  (Composition.cjk c, Composition.latin c, Composition.digits c,
   Composition.whitespace c, Composition.total c) = (5, 5, 3, 2, 15)%Z
  /\ Composition.cjkRatio c == 5 / 15.
Proof. split; reflexivity. Qed.

Example composition_symbols :
  let c := analyzeTextComposition
             (Fixtures.ascii "Hello! " ++ Fixtures.konnichiwa ++ [0x2605]%Z) in
  (Composition.latin c, Composition.cjk c, Composition.symbols c,
   Composition.total c) = (5, 5, 2, 13)%Z.
Proof. reflexivity. Qed.

Example estimate_empty :
  estimate Fixtures.estimator [] None = overhead Fixtures.mockConfig.
Proof. reflexivity. Qed.

Example estimate_mixed :
  let r := estimateDetailed Fixtures.estimator
             (Fixtures.ascii "Hello " ++ Fixtures.konnichiwa
              ++ Fixtures.ascii " 123") None in
  tokens r = 14 /\ Breakdown.cjk (breakdown r) == 6
  /\ Breakdown.latin (breakdown r) == 2 /\ Breakdown.digits (breakdown r) == 1
  /\ modelUsed r = "test-model"%string.
Proof. cbv zeta. repeat split. Qed.

Example confidence_levels :
  confidence (estimateDetailed Fixtures.estimator (Fixtures.ascii "Hi") None) = low
  /\ confidence (estimateDetailed Fixtures.estimator Fixtures.longEnglish None)
     = high
  /\ confidence (estimateDetailed Fixtures.estimator Fixtures.longJapanese None)
     = high.
Proof. repeat split. Qed.

Example unknown_model_gracefully :
  estimate Fixtures.estimator (Fixtures.ascii "test")
           (Some "unknown-model"%string) = 12.
Proof. reflexivity. Qed.

End RepositoryTests.

(** * The program in binary64 *)

(** ** The order of binary64 numbers *)

Module FloatFacts.
Import PrimFloat SpecFloat FloatOps FloatAxioms.
#[local] Open Scope float_scope.

Ltac order_cases :=
  repeat match goal with
  | |- context [Z.compare ?a ?b] => destruct (Z.compare_spec a b)
  | H : context [Z.compare ?a ?b] |- _ => destruct (Z.compare_spec a b)
  | |- context [Pos.compare_cont Eq ?a ?b] =>
      change (Pos.compare_cont Eq a b) with (Pos.compare a b);
      destruct (Pos.compare_spec a b)
  | H : context [Pos.compare_cont Eq ?a ?b] |- _ =>
      change (Pos.compare_cont Eq a b) with (Pos.compare a b) in H;
      destruct (Pos.compare_spec a b)
  end.

Ltac by_cases :=
  intros;
  repeat match goal with
  | x : spec_float |- _ => destruct x as [[|]|[|]| |[|] ? ?]
  end;
  cbn in *; try discriminate; try reflexivity;
  order_cases; cbn in *; try discriminate; try reflexivity;
  try (exfalso; lia); subst; try reflexivity; try lia.


Lemma SFcompare_Eq_Lt x y z :
  SFcompare x y = Some Eq -> SFcompare y z = Some Lt -> SFcompare x z = Some Lt.
Proof. by_cases. Qed.




(** Two numbers that compare equal are the same number, unless they are
    the two zeros. *)
Lemma SFcompare_Eq_finite x s m e :
  SFcompare x (S754_finite s m e) = Some Eq -> x = S754_finite s m e.
Proof.
  destruct x as [[|]|[|]| |[|] mx ex], s; cbn; try discriminate;
    order_cases; cbn; try discriminate; intros _; subst; reflexivity.
Qed.

(** The three comparisons of two numbers, from the one comparison of
    their specifications. *)
Lemma comparisons x y :
  (x <? y) = match SFcompare (Prim2SF x) (Prim2SF y) with
             | Some Lt => true | _ => false end
  /\ (x =? y) = match SFcompare (Prim2SF x) (Prim2SF y) with
                | Some Eq => true | _ => false end
  /\ (x <=? y) = match SFcompare (Prim2SF x) (Prim2SF y) with
                 | Some (Lt | Eq) => true | _ => false end.
Proof. rewrite ltb_spec, eqb_spec, leb_spec. repeat split. Qed.

Lemma ltb_Lt x y : (x <? y) = true <-> SFcompare (Prim2SF x) (Prim2SF y) = Some Lt.
Proof.
  rewrite (proj1 (comparisons x y)).
  destruct (SFcompare (Prim2SF x) (Prim2SF y)) as [[| |]|];
    split; congruence.
Qed.

Lemma eqb_Eq x y : (x =? y) = true <-> SFcompare (Prim2SF x) (Prim2SF y) = Some Eq.
Proof.
  rewrite (proj1 (proj2 (comparisons x y))).
  destruct (SFcompare (Prim2SF x) (Prim2SF y)) as [[| |]|];
    split; congruence.
Qed.



Lemma eqb_ltb_trans x y z :
  (x =? y) = true -> (y <? z) = true -> (x <? z) = true.
Proof. rewrite eqb_Eq, !ltb_Lt. apply SFcompare_Eq_Lt. Qed.






(** A number equal to a finite number other than zero is that number. *)
Lemma eqb_eq x y s m e :
  Prim2SF y = S754_finite s m e -> (x =? y) = true -> x = y.
Proof.
  intros Hy A. apply eqb_Eq in A. rewrite Hy in A.
  apply SFcompare_Eq_finite in A. rewrite <- Hy in A.
  rewrite <- (SF2Prim_Prim2SF x), <- (SF2Prim_Prim2SF y). now f_equal.
Qed.

End FloatFacts.

(** ** The adjustment factor in binary64 *)

Module AdjustmentFacts64.
Import PrimFloat Binary64 Binary64.FuzzyTokenEstimator FloatFacts.
#[local] Open Scope float_scope.








(** The ratio of a text of four CJK characters and one letter. *)
Example ratio_four_fifths :
  Composition.cjkRatio
    (analyzeTextComposition [0x3042; 0x3044; 0x3046; 0x3048; 0x61]%Z) = 0.8
  /\ ofZ 4 / ofZ 5 = 0.8.
Proof. split; reflexivity. Qed.




End AdjustmentFacts64.

(** ** The grouping pass in binary64 *)

Module GroupingFacts64.
Import PrimFloat Binary64 Binary64.FuzzyTokenEstimator.
#[local] Open Scope float_scope.

(** *** The loop computes the fold of [Groups.addGroup] over the runs *)

Lemma processGroup_pending_run config b ty stretch :
  List.concat stretch <> [] ->
  processGroup config (mkGrouping b (Some ty) (List.concat stretch))
  = mkGrouping (Groups.addGroup config b (ty, stretch)) (Some ty) [].
Proof.
  intro H. unfold processGroup, Groups.addGroup, Groups.groupLength, groupLength.
  cbn [currentGroup currentType g_breakdown fst snd].
  destruct (List.concat stretch) as [|u rest] eqn:E; [congruence |].
  destruct ty; reflexivity.
Qed.

Lemma loop_pending_run config chars : forall b ty stretch,
  List.concat stretch <> [] ->
  Forall (fun c => c <> []) chars ->
  g_breakdown
    (processGroup config
       (fold_left (step config) chars
                  (mkGrouping b (Some ty) (List.concat stretch))))
  = fold_left (Groups.addGroup config)
              (Spec.joinRun ty stretch (Spec.runs chars)) b.
Proof.
  induction chars as [|c chars IH]; intros b ty stretch Hstretch Hchars.
  - cbn [fold_left Spec.runs fold_right Spec.joinRun].
    now rewrite processGroup_pending_run.
  - inversion Hchars as [|? ? Hc Hrest]; subst.
    change (Spec.runs (c :: chars)) with (Spec.consRun c (Spec.runs chars)).
    cbn [fold_left]. unfold step at 2.
    cbn [currentType FuzzyTokenEstimator.differs].
    destruct (GroupingFacts.CharacterType_eqb_spec
                (CharacterClassifier.getCharacterType c) ty)
      as [E | N]; cbn [negb].
    + cbn [g_breakdown currentType currentGroup].
      replace (List.concat stretch ++ c) with (List.concat (stretch ++ [c]))
        by (rewrite concat_app; cbn; now rewrite app_nil_r).
      rewrite GroupingFacts.joinRun_same by exact E.
      apply IH; [| assumption].
      rewrite concat_app. cbn. rewrite app_nil_r.
      intro H. apply app_eq_nil in H. now destruct H.
    + rewrite processGroup_pending_run by assumption.
      cbn [g_breakdown currentType currentGroup app].
      rewrite GroupingFacts.joinRun_other by exact N.
      pose proof (IH (Groups.addGroup config b (ty, stretch))
                     (CharacterClassifier.getCharacterType c) [c]) as IHc.
      cbn [List.concat] in IHc. rewrite app_nil_r in IHc.
      cbn [fold_left]. unfold Spec.consRun. now apply IHc.
Qed.

Lemma loop_groups config b chars :
  Forall (fun c => c <> []) chars ->
  g_breakdown
    (processGroup config
       (fold_left (step config) chars (mkGrouping b None [])))
  = fold_left (Groups.addGroup config) (Spec.runs chars) b.
Proof.
  destruct chars as [|c chars]; intro H; [reflexivity |].
  inversion H as [|? ? Hc Hrest]; subst.
  change (Spec.runs (c :: chars)) with (Spec.consRun c (Spec.runs chars)).
  cbn [fold_left]. unfold step at 2.
  cbn [currentType FuzzyTokenEstimator.differs processGroup currentGroup
       g_breakdown app].
  pose proof (@loop_pending_run config chars b
                (CharacterClassifier.getCharacterType c) [c]) as H1.
  cbn [List.concat] in H1. rewrite app_nil_r in H1.
  unfold Spec.consRun. now apply H1.
Qed.

(** The breakdown of a text that is not empty: the groups the loop
    closes are the maximal runs of the text. *)
Lemma breakdown_groups config model text :
  text <> [] ->
  breakdown (estimateDetailedWith config model text)
  = fold_left (Groups.addGroup config) (Spec.runs (JS.iterate text))
              (Breakdown.mk 0 0 0 0 (overhead config)).
Proof.
  destruct text as [|u rest]; [congruence | intros _].
  unfold estimateDetailedWith. cbn [breakdown].
  apply loop_groups, IterateFacts.iterate_nonempty.
Qed.

(** The token total of a text that is not empty. *)
Lemma tokens_total config model text :
  text <> [] ->
  let r := estimateDetailedWith config model text in
  tokens r
  = Spec64.tokenTotal config (breakdown r)
                      (TextAnalysis.adjustmentFactor (textAnalysis r))
  /\ TextAnalysis.adjustmentFactor (textAnalysis r)
     = calculateAdjustmentFactor
         (Composition.cjkRatio (analyzeTextComposition text)).
Proof. destruct text; [congruence |]. intros _. split; reflexivity. Qed.

(** *** Where the length of a group is the length of the run *)

Lemma numberOr_given x d : Spec64.given x -> numberOr x d = Spec64.orDefault x d.
Proof. destruct x as [v|]; cbn; [intros -> |]; reflexivity. Qed.

(** What [x || d] does with each kind of value. *)
Lemma numberOr_cases (v d : number) :
  numberOr None d = d
  /\ (truthy v = true -> numberOr (Some v) d = v)
  /\ (truthy v = false -> numberOr (Some v) d = d)
  /\ numberOr (Some 0) d = d
  /\ numberOr (Some (-0)) d = d
  /\ numberOr (Some nan) d = d
  /\ numberOr (Some 2) 3.5 = 2.
Proof.
  split; [reflexivity |].
  split; [intro H; cbn; now rewrite H |].
  split; [intro H; cbn; now rewrite H |].
  repeat split.
Qed.

Lemma addGroup_addRun config b r :
  Spec64.given (numberTokensPerChar config) ->
  Spec64.given (symbolTokensPerChar config) ->
  List.length (List.concat (snd r)) = List.length (snd r) ->
  Groups.addGroup config b r = Spec64.addRun config b r.
Proof.
  intros Hn Hs HL. unfold Groups.addGroup, Spec64.addRun, Groups.groupLength,
    Spec64.runLength.
  destruct r as [ty cs]. cbn [fst snd] in *.
  rewrite HL, !numberOr_given by assumption.
  destruct ty; reflexivity.
Qed.

Lemma fold_addGroup_addRun config rs : forall b,
  Spec64.given (numberTokensPerChar config) ->
  Spec64.given (symbolTokensPerChar config) ->
  Forall (fun r => List.length (List.concat (snd r)) = List.length (snd r)) rs ->
  fold_left (Groups.addGroup config) rs b = fold_left (Spec64.addRun config) rs b.
Proof.
  induction rs as [|r rs IH]; intros b Hn Hs H; [reflexivity |].
  inversion H as [|? ? Hr Hrs]; subst. cbn [fold_left].
  rewrite (@addGroup_addRun config b r Hn Hs Hr). now apply IH.
Qed.

(** On a text without surrogates, under a configuration whose optional
    divisors are absent or proper numbers, the program accumulates what
    the specification states, run by run, and returns the total it
    states. *)
Lemma estimateDetailed_without_surrogates config model text :
  text <> [] ->
  Forall (fun u => JS.isHighSurrogate u = false) text ->
  Spec64.given (numberTokensPerChar config) ->
  Spec64.given (symbolTokensPerChar config) ->
  let r := estimateDetailedWith config model text in
  breakdown r = Spec64.breakdownOf config text
  /\ tokens r
     = Spec64.tokenTotal config (Spec64.breakdownOf config text)
         (calculateAdjustmentFactor
            (Composition.cjkRatio (analyzeTextComposition text))).
Proof.
  intros Hne Hbmp Hn Hs. cbn zeta.
  assert (Hb : breakdown (estimateDetailedWith config model text)
               = Spec64.breakdownOf config text).
  { rewrite (@breakdown_groups config model text Hne). unfold Spec64.breakdownOf.
    apply fold_addGroup_addRun; [assumption .. |].
    rewrite (IterateFacts.iterate_bmp Hbmp).
    assert (Hunits : Forall (fun c : jsstring => List.length c = 1%nat)
                            (map (fun u => [u]) text))
      by (apply Forall_map, Forall_forall; reflexivity).
    eapply Forall_impl; [| exact (GroupingFacts.runs_Forall Hunits)].
    intros r Hr. now apply GroupingFacts.length_concat_units. }
  split; [exact Hb |].
  destruct (@tokens_total config model text Hne) as [-> ->]. now rewrite Hb.
Qed.

(** C3, at a text of five emoji under the built-in configuration.  The
    five characters are one run of symbols, of length 5, for which the
    rule gives ceil(5 / 2.5) = 2 on the symbol subtotal and a total of
    ceil((2 + 10) * 1.05 * 1.0) = 13.  The program measures the group with
    [currentGroup.length], which is 10, adds ceil(10 / 2.5) = 4 and returns
    ceil((4 + 10) * 1.05 * 1.0) = 15. *)
Theorem estimateDetailed_astral_run :
  let text := Fixtures64.fiveEmoji in
  let config := DEFAULT_FALLBACK_CONFIG in
  let r := estimateDetailed Fixtures64.unconfigured text None in
  let stated := Spec64.breakdownOf config text in
  Spec.runs (JS.iterate text) = [(Symbol, repeat [0xD83D; 0xDE00]%Z 5)]
  /\ Spec64.runLength (Symbol, repeat [0xD83D; 0xDE00]%Z 5) = 5%Z
  /\ fst (getModelConfig Fixtures64.unconfigured None) = config
  /\ Breakdown.symbols stated = 2
  /\ Spec64.tokenTotal config stated
       (calculateAdjustmentFactor
          (Composition.cjkRatio (analyzeTextComposition text))) = 13
  /\ Breakdown.symbols (breakdown r) = 4
  /\ tokens r = 15.
Proof. repeat split. Qed.

(** The same text under the estimator of the repository's tests, and a
    text of the same five characters from the Basic Multilingual Plane,
    for which the program and the rule agree. *)
Example estimateDetailed_five_symbols :
  Breakdown.symbols
    (breakdown (estimateDetailed Fixtures64.estimator Fixtures64.fiveEmoji None))
  = 4
  /\ Breakdown.symbols
       (breakdown (estimateDetailed Fixtures64.estimator
                                    (Fixtures.ascii "!?!?!") None)) = 2
  /\ tokens (estimateDetailed Fixtures64.unconfigured
                              (Fixtures.ascii "!?!?!") None) = 13.
Proof. repeat split. Qed.

Lemma estimateDetailed_without_surrogates_witness :
  breakdown (estimateDetailedWith Fixtures64.mockConfig "test-model"
               (Fixtures.ascii "Hello, world 2024"))
  = Spec64.breakdownOf Fixtures64.mockConfig (Fixtures.ascii "Hello, world 2024").
Proof.
  apply (@estimateDetailed_without_surrogates Fixtures64.mockConfig "test-model"
           (Fixtures.ascii "Hello, world 2024")).
  - discriminate.
  - repeat constructor.
  - reflexivity.
  - reflexivity.
Defined.

(** The cases of the repository's tests, and the ratio 0.8 of a text of
    four CJK characters and one letter. *)
Example repository_tests_binary64 :
  let mixed := (Fixtures.ascii "Hello " ++ Fixtures.konnichiwa
                ++ Fixtures.ascii " 123")%list in
  let r := estimateDetailed Fixtures64.estimator mixed None in
  (tokens r = 14 /\ Breakdown.cjk (breakdown r) = 6
   /\ Breakdown.latin (breakdown r) = 2 /\ Breakdown.digits (breakdown r) = 1
   /\ TextAnalysis.adjustmentFactor (textAnalysis r) = 0.6777777777777777
   /\ confidence r = medium /\ modelUsed r = "test-model"%string)
  /\ estimate Fixtures64.estimator [] None = 10
  /\ estimate Fixtures64.estimator (Fixtures.ascii "test")
              (Some "unknown-model"%string) = 12
  /\ TextAnalysis.adjustmentFactor
       (textAnalysis
          (estimateDetailed Fixtures64.estimator
             [0x3042; 0x3044; 0x3046; 0x3048; 0x61]%Z None))
     = 0.5999999999999999
  /\ estimatePayload Fixtures64.estimator
       {| prompt := None; model := Some "test-model"%string;
          maxTokens := Some 100 |} = 122
  /\ estimatePayload Fixtures64.estimator
       {| prompt := Some (Fixtures.ascii "Hello World");
          model := Some "test-model"%string; maxTokens := None |} = 567.
Proof. vm_compute. repeat split. Qed.

(** The divisors a configuration gives are the ones used: four digits
    under a divisor of 1, of 2, under none, and under 0. *)
Example configured_divisors :
  let config d :=
    {| charsPerToken := 4; overhead := 0; cjkTokensPerChar := 1;
       mixedTextMultiplier := 1; numberTokensPerChar := d;
       symbolTokensPerChar := d; whitespaceHandling := None |} in
  let digits d :=
    Breakdown.digits
      (breakdown (estimateDetailedWith (config d) "m" (Fixtures.ascii "2024"))) in
  let symbols d :=
    Breakdown.symbols
      (breakdown (estimateDetailedWith (config d) "m" (Fixtures.ascii "!?!?"))) in
  digits (Some 1) = 4 /\ digits (Some 2) = 2 /\ digits None = 2
  /\ digits (Some 0) = 2
  /\ symbols (Some 1) = 4 /\ symbols (Some 4) = 1 /\ symbols None = 2.
Proof. repeat split. Qed.

(** Totals that depend on the rounding of binary64: 103 letters, and 490
    CJK characters, under the configuration "accurate" of the tests; a
    division by a zero charsPerToken. *)
Example rounded_totals :
  tokens (estimateDetailedWith Fixtures64.accurate "accurate"
            (repeat 0x61%Z 103)) = 56
  /\ tokens (estimateDetailedWith Fixtures64.accurate "accurate"
               (repeat 0x3042%Z 490)) = 496
  /\ tokens (estimateDetailedWith
               {| charsPerToken := 0; overhead := 10; cjkTokensPerChar := 1.5;
                  mixedTextMultiplier := 1.05; numberTokensPerChar := None;
                  symbolTokensPerChar := None; whitespaceHandling := None |}
               "m" (Fixtures.ascii "Hello")) = infinity.
Proof. repeat split. Qed.

End GroupingFacts64.

(** ** The cost calculator in binary64 *)

Module CostFacts64.
Import PrimFloat Binary64 Binary64.TokenCostCalculator.
#[local] Open Scope float_scope.

Lemma list_ascii_of_string_app (s t : string) :
  list_ascii_of_string (s ++ t)
  = (list_ascii_of_string s ++ list_ascii_of_string t)%list.
Proof. induction s as [|c s IH]; cbn; [reflexivity | now rewrite IH]. Qed.

(** A string in fixed notation with four decimals ends with the point and
    four digits. *)
Lemma fixedNotation_fourDecimals x s :
  Spec.fixedNotation 4 x s -> Spec64.fourDecimals s = true.
Proof.
  intros (sign & whole & frac & -> & _ & _ & _ & Hfrac & Hdigits & _).
  destruct frac as [|a [|b [|c [|d [|? ?]]]]]; try discriminate.
  unfold Spec64.fourDecimals.
  rewrite list_ascii_of_string_app, list_ascii_of_string_of_list_ascii,
    !rev_app_distr.
  cbn [rev app].
  rewrite forallb_app in Hdigits. apply andb_true_iff in Hdigits as [_ Hd].
  cbn [forallb] in Hd |- *. rewrite Ascii.eqb_refl.
  repeat (apply andb_true_iff in Hd as [? Hd]).
  now rewrite H, H0, H1, H2.
Qed.

(** The three renderings of [toFixed]. *)
Lemma toFixed_cases (x : number) (f' : nat) :
  (forall q, value x = Some q -> Qabs q < 10 ^ 21 ->
             Spec.fixedNotation (S f') q (toFixed x (S f')))
  /\ (forall q, value x = Some q -> 10 ^ 21 <= q ->
                toFixed x (S f') = exponential (Qfloor q))
  /\ (forall q, value x = Some q -> q <= - (10 ^ 21) ->
                toFixed x (S f') = ("-" ++ exponential (Qfloor (- q)))%string)
  /\ (value x = None ->
      toFixed x (S f') = "NaN"%string
      \/ toFixed x (S f') = "Infinity"%string
      \/ toFixed x (S f') = "-Infinity"%string).
Proof.
  unfold toFixed. split; [| split; [| split]].
  - intros q -> Hq. now apply CostFacts.toFixed_fixedNotation.
  - intros q -> Hq. unfold JS.toFixed.
    assert (P : 0 < 10 ^ 21) by reflexivity.
    destruct (NumberFacts.ltb_spec q 0) as [N | _]; [lra |].
    assert (E : Qle_bool (10 ^ 21) q = true) by now apply Qle_bool_iff.
    now rewrite E.
  - intros q -> Hq. unfold JS.toFixed.
    assert (P : 0 < 10 ^ 21) by reflexivity.
    destruct (NumberFacts.ltb_spec q 0) as [_ | N]; [| lra].
    assert (E : Qle_bool (10 ^ 21) (- q) = true)
      by (apply Qle_bool_iff; lra).
    now rewrite E.
  - intros ->. destruct (isNaN x); [now left |].
    destruct (0 <? x); [right; now left | right; now right].
Qed.

(** C9, against the claim as it is stated: a total of 10^21 is not
    written with four decimals. *)
Lemma calculate_not_four_decimals :
  let r := calculate Fixtures64.MockCostProvider "cheap-model" 1e27 0 in
  inputCost r = 1e21 /\ outputCost r = 0 /\ totalCost r = 1e21
  /\ available r = true
  /\ formattedTotal r = "$1e+21"%string
  /\ Spec64.fourDecimals (formattedTotal r) = false.
Proof. vm_compute. repeat split. Qed.

(** C9, as amended.  [calculate] is a total function.  With no price for
    the model the result is 0, 0, 0, "N/A", unavailable.  With a price the
    costs are the tokens over 1000 times the price, the total their sum,
    each operation rounded to binary64, the result available, and the
    formatted total "$" followed by [toFixed(4)] of the total: the total in
    fixed notation with exactly 4 decimals when it is finite and below
    10^21 in magnitude, in the exponential notation of [Number::toString]
    from 10^21 on, and "NaN", "Infinity" or "-Infinity" when it is not
    finite. *)
Theorem calculate_binary64 (costProvider : CostProvider) (model : string)
        (inputTokens outputTokens : number) :
  let r := calculate costProvider model inputTokens outputTokens in
  (getCost costProvider model = None ->
   inputCost r = 0 /\ outputCost r = 0 /\ totalCost r = 0
   /\ formattedTotal r = "N/A"%string /\ available r = false)
  /\ (forall price, getCost costProvider model = Some price ->
        inputCost r = inputTokens / 1000 * input price
        /\ outputCost r = outputTokens / 1000 * output price
        /\ totalCost r = inputCost r + outputCost r
        /\ available r = true
        /\ formattedTotal r = ("$" ++ toFixed (totalCost r) 4)%string
        /\ (forall q, value (totalCost r) = Some q -> Qabs q < 10 ^ 21 ->
              exists digits,
                formattedTotal r = ("$" ++ digits)%string
                /\ Spec.fixedNotation 4 q digits
                /\ Spec64.fourDecimals digits = true)
        /\ (forall q, value (totalCost r) = Some q -> 10 ^ 21 <= q ->
              formattedTotal r = ("$" ++ exponential (Qfloor q))%string)
        /\ (forall q, value (totalCost r) = Some q -> q <= - (10 ^ 21) ->
              formattedTotal r
              = ("$-" ++ exponential (Qfloor (- q)))%string)
        /\ (value (totalCost r) = None ->
            formattedTotal r = "$NaN"%string
            \/ formattedTotal r = "$Infinity"%string
            \/ formattedTotal r = "$-Infinity"%string)).
Proof.
  cbn zeta. unfold calculate. split.
  - intros ->. cbn. repeat split.
  - intros price ->.
    cbn [inputCost outputCost totalCost formattedTotal available].
    set (total := inputTokens / 1000 * input price
                  + outputTokens / 1000 * output price).
    destruct (toFixed_cases total 3) as (F & P & N & I).
    split; [reflexivity |]. split; [reflexivity |]. split; [reflexivity |].
    split; [reflexivity |]. split; [reflexivity |].
    split.
    { intros q Hq Hlt. exists (toFixed total 4).
      split; [reflexivity |]. split; [exact (F q Hq Hlt) |].
      exact (@fixedNotation_fourDecimals q _ (F q Hq Hlt)). }
    split; [intros q Hq Hge; now rewrite (P q Hq Hge) |].
    split; [intros q Hq Hle; now rewrite (N q Hq Hle) |].
    intro Hnone. destruct (I Hnone) as [-> | [-> | ->]]; auto.
Qed.

Lemma calculate_binary64_witness :
  let r := calculate Fixtures64.MockCostProvider "gpt-3.5-turbo" 1000 500 in
  inputCost r = 0.0015 /\ outputCost r = 0.001 /\ totalCost r = 0.0025
  /\ formattedTotal r = "$0.0025"%string
  /\ (exists digits,
         formattedTotal r = ("$" ++ digits)%string
         /\ Spec.fixedNotation
              4 (5764607523034235 # 2305843009213693952)%Q digits
         /\ Spec64.fourDecimals digits = true)
  /\ formattedTotal (calculate Fixtures64.MockCostProvider
                               "unknown-model" 1000 500) = "N/A"%string.
Proof.
  cbn zeta.
  pose proof (calculate_binary64 Fixtures64.MockCostProvider
                "gpt-3.5-turbo" 1000 500) as H.
  pose proof (calculate_binary64 Fixtures64.MockCostProvider
                "unknown-model" 1000 500) as U.
  cbn zeta in H, U.
  destruct H as [_ H]. destruct U as [U _].
  destruct (H _ eq_refl) as (A & B & C & _ & E & F & _).
  destruct (U eq_refl) as (_ & _ & _ & N & _).
  split; [rewrite A; reflexivity |].
  split; [rewrite B; reflexivity |].
  split; [rewrite C, A, B; reflexivity |].
  split; [rewrite E; reflexivity |].
  split; [| exact N].
  apply F; reflexivity.
Defined.

(** The cases of the repository's tests, whose expectations are exact
    comparisons, and a total that rounds to just below a tie of
    [toFixed]. *)
Example calculate_tests :
  let cost := calculate Fixtures64.MockCostProvider in
  (inputCost (cost "gpt-4"%string 2000 1000) = 0.06
   /\ outputCost (cost "gpt-4"%string 2000 1000) = 0.06
   /\ totalCost (cost "gpt-4"%string 2000 1000) = 0.12
   /\ formattedTotal (cost "gpt-4"%string 2000 1000) = "$0.1200"%string)
  /\ (inputCost (cost "cheap-model"%string 250 750) = 0.00025
      /\ outputCost (cost "cheap-model"%string 250 750) = 0.00075
      /\ totalCost (cost "cheap-model"%string 250 750) = 0.001
      /\ formattedTotal (cost "cheap-model"%string 250 750) = "$0.0010"%string)
  /\ (totalCost (cost "gpt-3.5-turbo"%string 100000 50000) = 0.25
      /\ formattedTotal (cost "gpt-3.5-turbo"%string 100000 50000) = "$0.2500"%string)
  /\ (totalCost (cost "cheap-model"%string 1 1) = 0.000002
      /\ formattedTotal (cost "cheap-model"%string 1 1) = "$0.0000"%string)
  /\ formattedTotal (cost "gpt-3.5-turbo"%string 0 0) = "$0.0000"%string
  /\ (totalCost (cost "gpt-3.5-turbo"%string 300 0) = 0.00045
      /\ formattedTotal (cost "gpt-3.5-turbo"%string 300 0) = "$0.0004"%string).
Proof. vm_compute. repeat split. Qed.

(** [Number::toString] from 10^21 on: 10^21, 2^70, 10^23 and the largest
    number. *)
Example exponential_cases :
  exponential (10 ^ 21) = "1e+21"%string
  /\ exponential (2 ^ 70) = "1.1805916207174113e+21"%string
  /\ value 1e23 = Some (inject_Z 99999999999999991611392)
  /\ exponential 99999999999999991611392 = "1e+23"%string
  /\ exponential (2 ^ 1024 - 2 ^ 971) = "1.7976931348623157e+308"%string.
Proof. vm_compute. repeat split. Qed.

End CostFacts64.

(** * Further properties of the code *)

(** ** The classifier on single code units and on supplementary characters *)

Module ClassifierExtra.
Import CharacterClassifier.

Ltac ranges :=
  repeat match goal with
         | H : (_ || _) = true |- _ =>
             apply orb_true_iff in H; destruct H
         | H : (_ && _) = true |- _ =>
             apply andb_true_iff in H; destruct H
         | H : (_ <=? _)%Z = true |- _ => apply Z.leb_le in H
         | H : (_ =? _)%Z = true |- _ => apply Z.eqb_eq in H
         | H : false = true |- _ => discriminate H
         end.

Lemma inCjkBlocks_lower u : Spec.inCjkBlocks u = true -> (0x2e80 <= u)%Z.
Proof.
  unfold Spec.inCjkBlocks, Spec.cjkBlocks. cbn [existsb].
  intro H. ranges; lia.
Qed.

Lemma inCjkBlocks_not_surrogate u :
  Spec.inCjkBlocks u = true -> (u < 0xD800 \/ 0xDFFF < u)%Z.
Proof.
  unfold Spec.inCjkBlocks, Spec.cjkBlocks. cbn [existsb].
  intro H. ranges; lia.
Qed.

Lemma latinClass_range u :
  latinClass u = true -> (0x41 <= u <= 0x1eff)%Z /\ (u < 0x660 \/ 0x6f9 < u)%Z
                         /\ (u < 0x30 \/ 0x39 < u)%Z /\ u <> 0xA0%Z
                         /\ u <> 0x1680%Z.
Proof. unfold latinClass, JS.inClass. intro H. ranges; lia. Qed.

Lemma digitClass_range u :
  digitClass u = true -> (0x30 <= u <= 0x6f9)%Z /\ u <> 0xA0%Z.
Proof. unfold digitClass, JS.inClass. intro H. ranges; lia. Qed.

Lemma whiteSpaceClass_range u :
  JS.whiteSpaceClass u = true ->
  (u <= 0x20 \/ u = 0xA0 \/ u = 0x1680 \/ 0x2000 <= u <= 0x205F
   \/ u = 0x3000 \/ u = 0xFEFF)%Z.
Proof. unfold JS.whiteSpaceClass, JS.inClass. intro H. ranges; lia. Qed.

Lemma cjk_white u :
  Spec.inCjkBlocks u = true -> JS.whiteSpaceClass u = true -> u = 0x3000%Z.
Proof.
  intros Hk Hw. pose proof (inCjkBlocks_lower _ Hk) as Hlo.
  destruct (whiteSpaceClass_range _ Hw) as [H | [H | [H | [H | [H | H]]]]];
    try lia.
  subst u. vm_compute in Hk. discriminate.
Qed.

Lemma getCharacterType_unit_tests u :
  getCharacterType [u]
  = if Spec.inCjkBlocks u then Cjk
    else if latinClass u then Latin
    else if digitClass u then Digit
    else if JS.whiteSpaceClass u then Whitespace
    else Symbol.
Proof.
  unfold getCharacterType, JS.test. cbn [existsb].
  now rewrite !orb_false_r, ClassifierFacts.isCJKCharacter_unit.
Qed.

Lemma white_not_latin_digit u :
  JS.whiteSpaceClass u = true -> latinClass u = false /\ digitClass u = false.
Proof.
  intro W. pose proof (whiteSpaceClass_range _ W) as Hw.
  split.
  - destruct (latinClass u) eqn:L; [| reflexivity].
    pose proof (latinClass_range _ L). lia.
  - destruct (digitClass u) eqn:D; [| reflexivity].
    pose proof (digitClass_range _ D).
    unfold JS.whiteSpaceClass, JS.inClass in W.
    unfold digitClass, JS.inClass in D. ranges; lia.
Qed.

Lemma latin_not_cjk_digit u :
  latinClass u = true -> Spec.inCjkBlocks u = false /\ digitClass u = false.
Proof.
  intro L. pose proof (latinClass_range _ L) as Hl. split.
  - destruct (Spec.inCjkBlocks u) eqn:K; [| reflexivity].
    pose proof (inCjkBlocks_lower _ K). lia.
  - destruct (digitClass u) eqn:D; [| reflexivity].
    unfold digitClass, JS.inClass in D. ranges; lia.
Qed.

Lemma digit_not_cjk u : digitClass u = true -> Spec.inCjkBlocks u = false.
Proof.
  intro D. pose proof (digitClass_range _ D).
  destruct (Spec.inCjkBlocks u) eqn:K; [| reflexivity].
  pose proof (inCjkBlocks_lower _ K). lia.
Qed.

(** For a character of one code unit the four tests exclude one another,
    but for U+3000, the ideographic space, which is both in a CJK block and
    white space and is classified CJK: the order of the tests decides
    nothing else. *)
Theorem getCharacterType_unit (u : Z) :
  (getCharacterType [u] = Cjk <-> Spec.inCjkBlocks u = true)
  /\ (getCharacterType [u] = Latin <-> latinClass u = true)
  /\ (getCharacterType [u] = Digit <-> digitClass u = true)
  /\ (getCharacterType [u] = Whitespace
      <-> JS.whiteSpaceClass u = true /\ u <> 0x3000%Z)
  /\ (getCharacterType [u] = Symbol
      <-> Spec.inCjkBlocks u = false /\ latinClass u = false
          /\ digitClass u = false /\ JS.whiteSpaceClass u = false)
  /\ getCharacterType [0x3000%Z] = Cjk
  /\ JS.whiteSpaceClass 0x3000 = true.
Proof.
  rewrite getCharacterType_unit_tests.
  assert (H3000 : u = 0x3000%Z -> Spec.inCjkBlocks u = true)
    by (intros ->; reflexivity).
  destruct (Spec.inCjkBlocks u) eqn:K.
  - (* in a CJK block *)
    assert (L : latinClass u = false).
    { destruct (latinClass u) eqn:L; [| reflexivity].
      destruct (latin_not_cjk_digit _ L). congruence. }
    assert (D : digitClass u = false).
    { destruct (digitClass u) eqn:D; [| reflexivity].
      pose proof (digit_not_cjk _ D). congruence. }
    rewrite L, D.
    split; [tauto |]. split; [split; discriminate |].
    split; [split; discriminate |].
    split.
    { split; [discriminate |]. intros [W N]. elim N. now apply cjk_white. }
    split; [split; [discriminate | intros [E _]; discriminate E] |].
    split; reflexivity.
  - destruct (latinClass u) eqn:L.
    + destruct (latin_not_cjk_digit _ L) as [_ D]. rewrite D.
      assert (W : JS.whiteSpaceClass u = false).
      { destruct (JS.whiteSpaceClass u) eqn:W; [| reflexivity].
        destruct (white_not_latin_digit _ W). congruence. }
      rewrite W.
      split; [split; discriminate |]. split; [tauto |].
      split; [split; discriminate |].
      split; [split; [discriminate | intros [E _]; discriminate E] |].
      split; [split; [discriminate | intros (_ & E & _); discriminate E] |].
      split; reflexivity.
    + destruct (digitClass u) eqn:D.
      * assert (W : JS.whiteSpaceClass u = false).
        { destruct (JS.whiteSpaceClass u) eqn:W; [| reflexivity].
          destruct (white_not_latin_digit _ W). congruence. }
        rewrite W.
        split; [split; discriminate |]. split; [split; discriminate |].
        split; [tauto |].
        split; [split; [discriminate | intros [E _]; discriminate E] |].
        split; [split; [discriminate | intros (_ & _ & E & _); discriminate E] |].
        split; reflexivity.
      * destruct (JS.whiteSpaceClass u) eqn:W.
        -- split; [split; discriminate |]. split; [split; discriminate |].
           split; [split; discriminate |].
           split.
           { split; [intros _; split; [reflexivity |] | reflexivity].
             intro E. specialize (H3000 E). discriminate H3000. }
           split; [split; [discriminate | intros (_ & _ & _ & E); discriminate E] |].
           split; reflexivity.
        -- split; [split; discriminate |]. split; [split; discriminate |].
           split; [split; discriminate |].
           split; [split; [discriminate | intros [E _]; discriminate E] |].
           split; [split; [intros _; repeat split | reflexivity] |].
           split; reflexivity.
Qed.

Lemma surrogate_classes u :
  (0xD800 <= u <= 0xDFFF)%Z ->
  Spec.inCjkBlocks u = false /\ latinClass u = false /\ digitClass u = false
  /\ JS.whiteSpaceClass u = false.
Proof.
  intro H. repeat split.
  - destruct (Spec.inCjkBlocks u) eqn:K; [| reflexivity].
    pose proof (inCjkBlocks_not_surrogate _ K). lia.
  - destruct (latinClass u) eqn:L; [| reflexivity].
    pose proof (latinClass_range _ L). lia.
  - destruct (digitClass u) eqn:D; [| reflexivity].
    pose proof (digitClass_range _ D). lia.
  - destruct (JS.whiteSpaceClass u) eqn:W; [| reflexivity].
    pose proof (whiteSpaceClass_range _ W). lia.
Qed.

Lemma surrogate_bounds u v :
  JS.isHighSurrogate u = true -> JS.isLowSurrogate v = true ->
  (0xD800 <= u <= 0xDFFF)%Z /\ (0xD800 <= v <= 0xDFFF)%Z.
Proof.
  unfold JS.isHighSurrogate, JS.isLowSurrogate. intros Hu Hv. ranges. lia.
Qed.

(** A surrogate pair is a symbol, and so is a surrogate left alone. *)
Lemma getCharacterType_pair u v :
  JS.isHighSurrogate u = true -> JS.isLowSurrogate v = true ->
  getCharacterType [u; v] = Symbol.
Proof.
  intros Hu Hv. destruct (surrogate_bounds _ _ Hu Hv) as [Bu Bv].
  destruct (surrogate_classes Bu) as (K & L & D & W).
  destruct (surrogate_classes Bv) as (_ & L' & D' & W').
  unfold getCharacterType, JS.test. cbn [existsb].
  change (isCJKCharacter [u; v]) with (isCJKCharacter [u]).
  now rewrite ClassifierFacts.isCJKCharacter_unit, K, L, L', D, D', W, W'.
Qed.

Lemma getCharacterType_lone_surrogate u :
  (0xD800 <= u <= 0xDFFF)%Z -> getCharacterType [u] = Symbol.
Proof.
  intro B. destruct (surrogate_classes B) as (K & L & D & W).
  now rewrite getCharacterType_unit_tests, K, L, D, W.
Qed.

Lemma fromCodePoint_pair (cp : Z) :
  (0x10000 <= cp <= 0x10FFFF)%Z ->
  exists hi lo, JS.fromCodePoint cp = [hi; lo]
                /\ JS.isHighSurrogate hi = true
                /\ JS.isLowSurrogate lo = true.
Proof.
  intro H. unfold JS.fromCodePoint.
  destruct (Z.ltb_spec cp 0x10000); [lia |].
  eexists _, _. split; [reflexivity |].
  rewrite Z.shiftr_div_pow2 by lia.
  change 0x3FF%Z with (Z.ones 10). rewrite Z.land_ones by lia.
  change (2 ^ 10)%Z with 1024%Z.
  assert (0 <= (cp - 0x10000) / 1024 < 1024)%Z
    by (split; [apply Z.div_pos | apply Z.div_lt_upper_bound]; lia).
  assert (0 <= (cp - 0x10000) mod 1024 < 1024)%Z
    by (apply Z.mod_pos_bound; lia).
  unfold JS.isHighSurrogate, JS.isLowSurrogate.
  split; apply andb_true_iff; split; apply Z.leb_le; lia.
Qed.

(** Every character outside the Basic Multilingual Plane, an emoji as well
    as an ideograph of the CJK extensions, is one character for the
    iterator and a symbol for the classifier. *)
Theorem getCharacterType_supplementary (cp : Z) :
  (0x10000 <= cp <= 0x10FFFF)%Z ->
  JS.iterate (JS.fromCodePoint cp) = [JS.fromCodePoint cp]
  /\ List.length (JS.fromCodePoint cp) = 2%nat
  /\ getCharacterType (JS.fromCodePoint cp) = Symbol.
Proof.
  intro H. destruct (fromCodePoint_pair H) as (hi & lo & -> & Hhi & Hlo).
  split; [cbn; now rewrite Hhi, Hlo |].
  split; [reflexivity | now apply getCharacterType_pair].
Qed.

Lemma getCharacterType_supplementary_witness :
  getCharacterType (JS.fromCodePoint 0x1F600) = Symbol.
Proof.
  apply (getCharacterType_supplementary (cp := 0x1F600)). lia.
Defined.

End ClassifierExtra.

(** ** The composition, category by category *)

Module CompositionExtra.
Import CharacterClassifier.

Lemma countType_cons ty c chars :
  Spec.countType ty (c :: chars)
  = ((if CharacterType_eqb (getCharacterType c) ty then 1 else 0)
     + Spec.countType ty chars)%nat.
Proof.
  unfold Spec.countType. cbn [filter].
  destruct (CharacterType_eqb (getCharacterType c) ty); reflexivity.
Qed.

Lemma countType_app ty xs ys :
  Spec.countType ty (xs ++ ys)
  = (Spec.countType ty xs + Spec.countType ty ys)%nat.
Proof. unfold Spec.countType. now rewrite filter_app, length_app. Qed.

(** Each counter grows by the number of characters of its category. *)
Lemma fold_increment_counts chars : forall c,
  let c' := fold_left increment chars c in
  (c_cjk c' = c_cjk c + Z.of_nat (Spec.countType Cjk chars)
   /\ c_latin c' = c_latin c + Z.of_nat (Spec.countType Latin chars)
   /\ c_digits c' = c_digits c + Z.of_nat (Spec.countType Digit chars)
   /\ c_symbols c' = c_symbols c + Z.of_nat (Spec.countType Symbol chars)
   /\ c_whitespace c'
      = c_whitespace c + Z.of_nat (Spec.countType Whitespace chars)
   /\ c_total c' = c_total c)%Z.
Proof.
  induction chars as [|char chars IH]; intro c; cbn [fold_left].
  - cbn. lia.
  - specialize (IH (increment c char)). cbn zeta in *.
    rewrite !countType_cons.
    destruct c as [k l d s w t]. unfold increment in *.
    destruct (getCharacterType char); cbn in *; lia.
Qed.

Lemma length_le_twice_iterate s :
  (List.length s <= 2 * List.length (JS.iterate s))%nat.
Proof.
  induction s as [|u|u v rest IHrest IHcons] using IterateFacts.jsstring_ind2;
    [cbn; lia | cbn; lia |].
  rewrite IterateFacts.iterate_cons2.
  destruct (JS.isHighSurrogate u && JS.isLowSurrogate v);
    cbn [List.length] in *; lia.
Qed.

Lemma composition_counts (text : jsstring) :
  let c := analyzeTextComposition text in
  let chars := JS.iterate text in
  Composition.cjk c = Z.of_nat (Spec.countType Cjk chars)
  /\ Composition.latin c = Z.of_nat (Spec.countType Latin chars)
  /\ Composition.digits c = Z.of_nat (Spec.countType Digit chars)
  /\ Composition.symbols c = Z.of_nat (Spec.countType Symbol chars)
  /\ Composition.whitespace c = Z.of_nat (Spec.countType Whitespace chars)
  /\ Composition.total c = Z.of_nat (List.length text).
Proof.
  cbn zeta.
  pose proof (fold_increment_counts (JS.iterate text)
                (mkCounts 0 0 0 0 0 (Z.of_nat (List.length text)))) as H.
  cbn zeta in H. destruct H as (Hk & Hl & Hd & Hs & Hw & Ht).
  unfold analyzeTextComposition.
  cbn [Composition.cjk Composition.latin Composition.digits
       Composition.symbols Composition.whitespace].
  rewrite Hk, Hl, Hd, Hs, Hw. cbn [c_cjk c_latin c_digits c_symbols c_whitespace].
  split; [lia |]. split; [lia |]. split; [lia |]. split; [lia |].
  split; [lia |].
  exact (proj2 (CompositionFacts.categorySum_characters text)).
Qed.

(** Each of the five counts is the number of characters of its category
    among the characters the iterator yields, [total] is the length in code
    units, and the counts together make at least half of [total] and at
    most [total]. *)
Theorem analyzeTextComposition_counts (text : jsstring) :
  let c := analyzeTextComposition text in
  let chars := JS.iterate text in
  Composition.cjk c = Z.of_nat (Spec.countType Cjk chars)
  /\ Composition.latin c = Z.of_nat (Spec.countType Latin chars)
  /\ Composition.digits c = Z.of_nat (Spec.countType Digit chars)
  /\ Composition.symbols c = Z.of_nat (Spec.countType Symbol chars)
  /\ Composition.whitespace c = Z.of_nat (Spec.countType Whitespace chars)
  /\ Composition.total c = Z.of_nat (List.length text)
  /\ (Spec.categorySum c <= Composition.total c <= 2 * Spec.categorySum c)%Z.
Proof.
  cbn zeta.
  pose proof (fold_increment_counts (JS.iterate text)
                (mkCounts 0 0 0 0 0 (Z.of_nat (List.length text)))) as H.
  cbn zeta in H. destruct H as (Hk & Hl & Hd & Hs & Hw & Ht).
  pose proof (CompositionFacts.categorySum_characters text) as [Hsum Htotal].
  pose proof (IterateFacts.length_iterate_le text).
  pose proof (length_le_twice_iterate text).
  rewrite Hsum, Htotal.
  unfold analyzeTextComposition.
  cbn [Composition.cjk Composition.latin Composition.digits
       Composition.symbols Composition.whitespace].
  rewrite Hk, Hl, Hd, Hs, Hw. cbn [c_cjk c_latin c_digits c_symbols c_whitespace].
  repeat split; lia.
Qed.

(** The iterator cuts a concatenation where the two strings meet, unless
    the second begins with a low surrogate. *)
Lemma iterate_app a : forall b,
  (forall v, hd_error b = Some v -> JS.isLowSurrogate v = false) ->
  JS.iterate (a ++ b) = JS.iterate a ++ JS.iterate b.
Proof.
  induction a as [|u|u v rest IHrest IHcons] using IterateFacts.jsstring_ind2;
    intros b Hb.
  - reflexivity.
  - destruct b as [|v b']; [reflexivity |].
    cbn [app]. rewrite IterateFacts.iterate_cons2.
    rewrite (Hb v eq_refl), andb_false_r. reflexivity.
  - cbn [app]. rewrite !IterateFacts.iterate_cons2.
    destruct (JS.isHighSurrogate u && JS.isLowSurrogate v); cbn [app].
    + now rewrite IHrest.
    + change (v :: rest ++ b) with ((v :: rest) ++ b). now rewrite IHcons.
Qed.

(** The composition of a concatenation: every count and [total] is the
    sum of those of the parts, provided the second part does not begin with
    a low surrogate. *)
Theorem analyzeTextComposition_app (a b : jsstring) :
  (forall v, hd_error b = Some v -> JS.isLowSurrogate v = false) ->
  let ca := analyzeTextComposition a in
  let cb := analyzeTextComposition b in
  let c := analyzeTextComposition (a ++ b) in
  (Composition.cjk c = Composition.cjk ca + Composition.cjk cb
   /\ Composition.latin c = Composition.latin ca + Composition.latin cb
   /\ Composition.digits c = Composition.digits ca + Composition.digits cb
   /\ Composition.symbols c = Composition.symbols ca + Composition.symbols cb
   /\ Composition.whitespace c
      = Composition.whitespace ca + Composition.whitespace cb
   /\ Composition.total c = Composition.total ca + Composition.total cb)%Z.
Proof.
  intro Hb. cbn zeta.
  destruct (composition_counts a) as (-> & -> & -> & -> & -> & ->).
  destruct (composition_counts b) as (-> & -> & -> & -> & -> & ->).
  destruct (composition_counts (a ++ b)) as (-> & -> & -> & -> & -> & ->).
  rewrite (iterate_app a b Hb), !countType_app, length_app. lia.
Qed.

Lemma analyzeTextComposition_app_witness :
  Composition.latin
    (analyzeTextComposition (Fixtures.ascii "Hello" ++ Fixtures.konnichiwa))
  = (Composition.latin (analyzeTextComposition (Fixtures.ascii "Hello"))
     + Composition.latin (analyzeTextComposition Fixtures.konnichiwa))%Z.
Proof.
  apply (analyzeTextComposition_app (Fixtures.ascii "Hello") Fixtures.konnichiwa).
  intros v E. injection E as <-. reflexivity.
Defined.

(** Cut between the two halves of a surrogate pair, one symbol becomes
    two. *)
Example analyzeTextComposition_split_pair :
  Composition.symbols (analyzeTextComposition [0xD83D; 0xDE00]%Z) = 1%Z
  /\ (Composition.symbols (analyzeTextComposition [0xD83D]%Z)
      + Composition.symbols (analyzeTextComposition [0xDE00]%Z) = 2)%Z.
Proof. split; reflexivity. Qed.

End CompositionExtra.

(** ** Texts of a single script *)

Module PureTextExtra.
Import CharacterClassifier FuzzyTokenEstimator.

Lemma runs_homogeneous ty chars :
  chars <> [] ->
  Forall (fun c => getCharacterType c = ty) chars ->
  Spec.runs chars = [(ty, chars)].
Proof.
  induction chars as [|c chars IH]; intros Hne H; [congruence |].
  inversion H as [|? ? Hc Hrest]; subst.
  change (Spec.runs (c :: chars)) with (Spec.consRun c (Spec.runs chars)).
  destruct chars as [|c' chars'].
  - reflexivity.
  - rewrite IH by (discriminate || assumption).
    unfold Spec.consRun, Spec.joinRun.
    now rewrite GroupingFacts.CharacterType_eqb_refl.
Qed.

Lemma countType_all ty chars :
  Forall (fun c => getCharacterType c = ty) chars ->
  Spec.countType ty chars = List.length chars
  /\ forall ty', ty' <> ty -> Spec.countType ty' chars = 0%nat.
Proof.
  induction 1 as [|c chars Hc _ [IHall IHnone]]; [split; reflexivity |].
  split.
  - rewrite CompositionExtra.countType_cons, Hc,
      GroupingFacts.CharacterType_eqb_refl, IHall. reflexivity.
  - intros ty' N. rewrite CompositionExtra.countType_cons, Hc, (IHnone _ N).
    destruct (GroupingFacts.CharacterType_eqb_spec ty ty'); [congruence | reflexivity].
Qed.

Lemma length_concat_singletons (text : jsstring) :
  List.length (List.concat (map (fun u => [u]) text)) = List.length text.
Proof.
  rewrite GroupingFacts.length_concat_units, length_map; [reflexivity |].
  apply Forall_map, Forall_forall. reflexivity.
Qed.

(** A text whose code units each make a character of category [ty], none
    of them a high surrogate, is one run, and its composition has every
    character in that category. *)
Lemma homogeneous_text config model (text : jsstring) ty :
  text <> [] ->
  Forall (fun u => Spec.unitType u = ty /\ JS.isHighSurrogate u = false) text ->
  let r := estimateDetailedWith config model text in
  let c := analyzeTextComposition text in
  breakdown r
  = Groups.addGroup config (Breakdown.mk 0 0 0 0 (overhead config))
                (ty, map (fun u => [u]) text)
  /\ Groups.groupLength (ty, map (fun u => [u]) text)
     = inject_Z (Z.of_nat (List.length text))
  /\ Composition.total c = Z.of_nat (List.length text)
  /\ Composition.cjk c
     = (if CharacterType_eqb ty Cjk then Z.of_nat (List.length text) else 0%Z)
  /\ Composition.symbols c
     = (if CharacterType_eqb ty Symbol then Z.of_nat (List.length text) else 0%Z).
Proof.
  intros Hne H. cbn zeta.
  assert (Hbmp : Forall (fun u => JS.isHighSurrogate u = false) text)
    by (eapply Forall_impl; [| exact H]; now intros u [_ Hu]).
  assert (Hty : Forall (fun c => getCharacterType c = ty)
                       (map (fun u => [u]) text)).
  { apply Forall_map. eapply Forall_impl; [| exact H]. now intros u [Hu _]. }
  pose proof (IterateFacts.iterate_bmp Hbmp) as Hit.
  assert (Hne' : map (fun u : Z => [u]) text <> [])
    by (destruct text; [congruence | discriminate]).
  split.
  { destruct text as [|u rest]; [congruence |].
    unfold estimateDetailedWith. cbn [breakdown].
    rewrite GroupingFacts.loop_runs by apply IterateFacts.iterate_nonempty.
    rewrite Hit, (runs_homogeneous Hne' Hty). reflexivity. }
  split.
  { unfold Groups.groupLength. cbn [snd]. now rewrite length_concat_singletons. }
  pose proof (CompositionExtra.fold_increment_counts (JS.iterate text)
                (mkCounts 0 0 0 0 0 (Z.of_nat (List.length text)))) as Hc.
  cbn zeta in Hc. destruct Hc as (Hk & _ & _ & Hs & _ & Ht).
  rewrite Hit in Hk, Hs, Ht.
  destruct (countType_all Hty) as [Hall Hnone].
  rewrite length_map in Hall.
  unfold analyzeTextComposition. rewrite Hit.
  cbn [Composition.total Composition.cjk Composition.symbols].
  rewrite Hk, Hs, Ht. cbn [c_cjk c_symbols c_total].
  split; [reflexivity |].
  split.
  - destruct (GroupingFacts.CharacterType_eqb_spec ty Cjk) as [E | N].
    + subst ty. now rewrite Hall.
    + rewrite (Hnone Cjk) by congruence. reflexivity.
  - destruct (GroupingFacts.CharacterType_eqb_spec ty Symbol) as [E | N].
    + subst ty. now rewrite Hall.
    + rewrite (Hnone Symbol) by congruence. reflexivity.
Qed.

(** The fields of the result for a text that is not empty, in terms of
    its breakdown and of the composition. *)
Lemma result_nonempty config model (text : jsstring) :
  text <> [] ->
  let r := estimateDetailedWith config model text in
  let c := analyzeTextComposition text in
  let f := calculateAdjustmentFactor (Composition.cjkRatio c) in
  tokens r
  = JS.ceil (sumValues (breakdown r) * mixedTextMultiplier config * f)
  /\ textAnalysis r
     = TextAnalysis.mk (Z.of_nat (List.length text)) (Composition.cjkRatio c) f
  /\ confidence r = calculateConfidence c.
Proof. destruct text; [congruence |]. intros _. repeat split. Qed.

Lemma cjkRatio_of_counts (text : jsstring) :
  text <> [] ->
  Composition.cjkRatio (analyzeTextComposition text)
  = inject_Z (Composition.cjk (analyzeTextComposition text))
    / inject_Z (Composition.total (analyzeTextComposition text)).
Proof.
  intro Hne. unfold analyzeTextComposition.
  cbn [Composition.cjkRatio Composition.cjk Composition.total].
  pose proof (CompositionFacts.fold_increment (JS.iterate text)
                (mkCounts 0 0 0 0 0 (Z.of_nat (List.length text)))) as H.
  cbn zeta in H. destruct H as (_ & Ht & _). cbn [c_total] in Ht.
  rewrite Ht.
  destruct (Z.ltb_spec 0 (Z.of_nat (List.length text))); [reflexivity |].
  destruct text; [congruence | cbn [List.length] in *; lia].
Qed.

Lemma factor_of_zero r : r == 0 -> calculateAdjustmentFactor r = 1.0.
Proof.
  intro H. unfold calculateAdjustmentFactor.
  destruct (NumberFacts.gtb_spec r 0.8); [lra |].
  destruct (NumberFacts.eqb_spec r 0); [reflexivity | contradiction].
Qed.

Lemma factor_of_one r : r == 1 -> calculateAdjustmentFactor r = 0.6.
Proof.
  intro H. unfold calculateAdjustmentFactor.
  destruct (NumberFacts.gtb_spec r 0.8); [reflexivity | lra].
Qed.

Lemma confidence_of_pure (c : Composition.t) :
  Composition.cjkRatio c == 0 \/ Composition.cjkRatio c == 1 ->
  calculateConfidence c
  = if (Composition.total c <? 10)%Z then low else high.
Proof.
  intro H. unfold calculateConfidence.
  destruct (Composition.total c <? 10)%Z; [reflexivity |].
  destruct (NumberFacts.gtb_spec (Composition.cjkRatio c) 0.9);
    [reflexivity |].
  destruct (NumberFacts.ltb_spec (Composition.cjkRatio c) 0.1);
    [reflexivity |].
  destruct H; lra.
Qed.

Lemma ratio_zero (n : Z) : inject_Z 0 / inject_Z n == 0.
Proof. unfold Qdiv. now rewrite Qmult_0_l. Qed.

Lemma ratio_one (n : Z) : (0 < n)%Z -> inject_Z n / inject_Z n == 1.
Proof.
  intro H. field. intro E. unfold Qeq in E. cbn in E. lia.
Qed.

Lemma latin_units (text : jsstring) :
  Forall (fun u => latinClass u = true) text ->
  Forall (fun u => Spec.unitType u = Latin /\ JS.isHighSurrogate u = false) text.
Proof.
  apply Forall_impl. intros u L.
  destruct (ClassifierExtra.latin_not_cjk_digit _ L) as [K _].
  pose proof (ClassifierExtra.latinClass_range _ L) as R.
  split.
  - unfold Spec.unitType.
    now rewrite ClassifierExtra.getCharacterType_unit_tests, K, L.
  - unfold JS.isHighSurrogate.
    destruct (Z.leb_spec 0xD800 u); [lia | reflexivity].
Qed.

Lemma cjk_units (text : jsstring) :
  Forall (fun u => Spec.inCjkBlocks u = true) text ->
  Forall (fun u => Spec.unitType u = Cjk /\ JS.isHighSurrogate u = false) text.
Proof.
  apply Forall_impl. intros u K.
  pose proof (ClassifierExtra.inCjkBlocks_not_surrogate _ K) as R.
  split.
  - unfold Spec.unitType.
    now rewrite ClassifierExtra.getCharacterType_unit_tests, K.
  - unfold JS.isHighSurrogate.
    destruct (Z.leb_spec 0xD800 u); [| reflexivity].
    destruct (Z.leb_spec u 0xDBFF); [lia | reflexivity].
Qed.

(** A text of Latin letters only: the letters are counted as Latin, one
    for each code unit; the CJK, digit and symbol subtotals are zero, the
    ratio is 0 and the factor 1.0, and the label is "low" under 10 letters
    and "high" from 10 on. *)
Theorem estimateDetailed_pure_latin (this : t) (text : jsstring)
        (modelName : option string) :
  text <> [] ->
  Forall (fun u => latinClass u = true) text ->
  let r := estimateDetailed this text modelName in
  Composition.total (analyzeTextComposition text) = Z.of_nat (List.length text)
  /\ Composition.cjk (analyzeTextComposition text) = 0%Z
  /\ Composition.symbols (analyzeTextComposition text) = 0%Z
  /\ Breakdown.cjk (breakdown r) = 0
  /\ Breakdown.digits (breakdown r) = 0
  /\ Breakdown.symbols (breakdown r) = 0
  /\ TextAnalysis.cjkRatio (textAnalysis r) == 0
  /\ TextAnalysis.adjustmentFactor (textAnalysis r) = 1.0
  /\ confidence r = (if (Z.of_nat (List.length text) <? 10)%Z then low else high).
Proof.
  intros Hne Hlatin. cbn zeta.
  rewrite EstimatorFacts.estimateDetailed_unfold.
  set (config := fst (getModelConfig this modelName)).
  set (model := snd (getModelConfig this modelName)).
  destruct (homogeneous_text config model Hne (latin_units Hlatin))
    as (Hb & HL & Ht & Hk & Hs).
  destruct (result_nonempty config model Hne) as (Htok & Han & Hconf).
  assert (Hratio : Composition.cjkRatio (analyzeTextComposition text) == 0).
  { rewrite (cjkRatio_of_counts Hne), Hk. cbn [CharacterType_eqb].
    apply ratio_zero. }
  split; [exact Ht |]. split; [exact Hk |]. split; [exact Hs |].
  rewrite Han, Hconf, Hb.
  cbn [TextAnalysis.cjkRatio TextAnalysis.adjustmentFactor].
  rewrite (factor_of_zero Hratio), (confidence_of_pure _ (or_introl Hratio)), Ht.
  unfold Groups.addGroup. cbn [fst].
  cbn [Breakdown.cjk Breakdown.latin Breakdown.digits Breakdown.symbols].
  split; [reflexivity |]. split; [reflexivity |]. split; [reflexivity |].
  split; [exact Hratio |]. split; reflexivity.
Qed.

Lemma estimateDetailed_pure_latin_witness :
  confidence (estimateDetailed Fixtures.estimator (Fixtures.ascii "Hello") None)
  = low
  /\ confidence (estimateDetailed Fixtures.estimator
                                  (Fixtures.ascii "HelloWorldAgain") None)
     = high.
Proof.
  assert (H1 : Fixtures.ascii "Hello" <> []) by discriminate.
  assert (L1 : Forall (fun u => latinClass u = true) (Fixtures.ascii "Hello"))
    by (repeat constructor).
  assert (H2 : Fixtures.ascii "HelloWorldAgain" <> []) by discriminate.
  assert (L2 : Forall (fun u => latinClass u = true)
                      (Fixtures.ascii "HelloWorldAgain"))
    by (repeat constructor).
  split.
  - exact (proj2 (proj2 (proj2 (proj2 (proj2 (proj2 (proj2 (proj2
             (estimateDetailed_pure_latin Fixtures.estimator None H1 L1))))))))).
  - exact (proj2 (proj2 (proj2 (proj2 (proj2 (proj2 (proj2 (proj2
             (estimateDetailed_pure_latin Fixtures.estimator None H2 L2))))))))).
Defined.

(** A text of code units of the listed CJK blocks only: the characters
    are counted as CJK, one for each code unit; the Latin, digit and
    symbol subtotals are zero, the ratio is 1 and the factor 0.6, and the
    label is "low" under 10 characters and "high" from 10 on. *)
Theorem estimateDetailed_pure_cjk (this : t) (text : jsstring)
        (modelName : option string) :
  text <> [] ->
  Forall (fun u => Spec.inCjkBlocks u = true) text ->
  let r := estimateDetailed this text modelName in
  Composition.total (analyzeTextComposition text) = Z.of_nat (List.length text)
  /\ Composition.cjk (analyzeTextComposition text)
     = Z.of_nat (List.length text)
  /\ Composition.symbols (analyzeTextComposition text) = 0%Z
  /\ Breakdown.latin (breakdown r) = 0
  /\ Breakdown.digits (breakdown r) = 0
  /\ Breakdown.symbols (breakdown r) = 0
  /\ TextAnalysis.cjkRatio (textAnalysis r) == 1
  /\ TextAnalysis.adjustmentFactor (textAnalysis r) = 0.6
  /\ confidence r = (if (Z.of_nat (List.length text) <? 10)%Z then low else high).
Proof.
  intros Hne Hcjk. cbn zeta.
  rewrite EstimatorFacts.estimateDetailed_unfold.
  set (config := fst (getModelConfig this modelName)).
  set (model := snd (getModelConfig this modelName)).
  destruct (homogeneous_text config model Hne (cjk_units Hcjk))
    as (Hb & HL & Ht & Hk & Hs).
  destruct (result_nonempty config model Hne) as (Htok & Han & Hconf).
  cbn [CharacterType_eqb] in Hk, Hs.
  assert (Hratio : Composition.cjkRatio (analyzeTextComposition text) == 1).
  { rewrite (cjkRatio_of_counts Hne), Hk, Ht.
    apply ratio_one. destruct text; [congruence | cbn [List.length]; lia]. }
  split; [exact Ht |]. split; [exact Hk |]. split; [exact Hs |].
  rewrite Han, Hconf, Hb.
  cbn [TextAnalysis.cjkRatio TextAnalysis.adjustmentFactor].
  rewrite (factor_of_one Hratio), (confidence_of_pure _ (or_intror Hratio)), Ht.
  unfold Groups.addGroup. cbn [fst].
  cbn [Breakdown.cjk Breakdown.latin Breakdown.digits Breakdown.symbols].
  split; [reflexivity |]. split; [reflexivity |]. split; [reflexivity |].
  split; [exact Hratio |]. split; reflexivity.
Qed.

Lemma estimateDetailed_pure_cjk_witness :
  TextAnalysis.adjustmentFactor
    (textAnalysis (estimateDetailed Fixtures.estimator Fixtures.konnichiwa None))
  = 0.6
  /\ confidence (estimateDetailed Fixtures.estimator Fixtures.longJapanese None)
     = high.
Proof.
  assert (H1 : Fixtures.konnichiwa <> []) by discriminate.
  assert (K1 : Forall (fun u => Spec.inCjkBlocks u = true) Fixtures.konnichiwa)
    by (repeat constructor).
  assert (H2 : Fixtures.longJapanese <> []) by discriminate.
  assert (K2 : Forall (fun u => Spec.inCjkBlocks u = true) Fixtures.longJapanese)
    by (repeat constructor).
  split.
  - exact (proj1 (proj2 (proj2 (proj2 (proj2 (proj2 (proj2 (proj2
             (estimateDetailed_pure_cjk Fixtures.estimator None H1 K1))))))))).
  - exact (proj2 (proj2 (proj2 (proj2 (proj2 (proj2 (proj2 (proj2
             (estimateDetailed_pure_cjk Fixtures.estimator None H2 K2))))))))).
Defined.

End PureTextExtra.

(** ** The result of an estimation *)

Module EngineExtra.
Import CharacterClassifier FuzzyTokenEstimator.

Lemma factor_bounds r : 0.6 <= calculateAdjustmentFactor r <= 1.
Proof.
  unfold calculateAdjustmentFactor.
  destruct (NumberFacts.gtb_spec r 0.8) as [G | G]; [split; discriminate |].
  destruct (NumberFacts.eqb_spec r 0) as [Z | Z]; [split; discriminate |].
  destruct (NumberFacts.ltb_spec r 0.2) as [L | L]; [split; discriminate |].
  setoid_replace ((r - 0.2) / 0.6 * 0.1) with ((r - 0.2) * (1 # 6)) by field.
  split; lra.
Qed.

(** The factor never raises an estimate and never cancels it: it is
    positive and at most 1.0.  It is 1.0 at ratio 0 and nowhere else: at
    every other ratio it is at most 0.7, so that any CJK content at all
    takes at least three tenths off the estimate. *)
Theorem calculateAdjustmentFactor_range (r : number) :
  0 < calculateAdjustmentFactor r <= 1.0
  /\ (r == 0 -> calculateAdjustmentFactor r = 1.0)
  /\ (~ r == 0 -> calculateAdjustmentFactor r <= 0.7).
Proof.
  pose proof (factor_bounds r) as [Lo Hi].
  split; [split; lra |].
  unfold calculateAdjustmentFactor in *.
  destruct (NumberFacts.gtb_spec r 0.8) as [G | G].
  { split; [intro; lra | intros _; discriminate]. }
  destruct (NumberFacts.eqb_spec r 0) as [Z | Z].
  { split; [reflexivity | contradiction]. }
  destruct (NumberFacts.ltb_spec r 0.2) as [L | L].
  { split; [contradiction | intros _; discriminate]. }
  split; [contradiction | intros _].
  setoid_replace ((r - 0.2) / 0.6 * 0.1) with ((r - 0.2) * (1 # 6)) by field.
  lra.
Qed.

Lemma calculateAdjustmentFactor_range_witness :
  calculateAdjustmentFactor 0.001 <= 0.7.
Proof.
  apply (proj2 (proj2 (calculateAdjustmentFactor_range 0.001))).
  discriminate.
Defined.

Lemma breakdown_runs config model (text : jsstring) :
  text <> [] ->
  breakdown (estimateDetailedWith config model text)
  = fold_left (Groups.addGroup config) (Spec.runs (JS.iterate text))
              (Breakdown.mk 0 0 0 0 (overhead config)).
Proof.
  destruct text as [|u rest]; [congruence |]. intros _.
  unfold estimateDetailedWith. cbn [breakdown].
  apply GroupingFacts.loop_runs, IterateFacts.iterate_nonempty.
Qed.

(** What the result says about the text always agrees with
    [analyzeTextComposition], on the empty text too: the number of
    characters is [total], the ratio is the ratio, and the adjustment
    factor is the factor of that ratio; the ratio is in [0,1]; the overhead
    subtotal is the overhead of the configuration. *)
Theorem estimateDetailed_textAnalysis (this : t) (text : jsstring)
        (modelName : option string) :
  let config := fst (getModelConfig this modelName) in
  let r := estimateDetailed this text modelName in
  let c := analyzeTextComposition text in
  TextAnalysis.totalChars (textAnalysis r) = Composition.total c
  /\ TextAnalysis.totalChars (textAnalysis r) = Z.of_nat (List.length text)
  /\ TextAnalysis.cjkRatio (textAnalysis r) = Composition.cjkRatio c
  /\ TextAnalysis.adjustmentFactor (textAnalysis r)
     == calculateAdjustmentFactor (Composition.cjkRatio c)
  /\ 0 <= TextAnalysis.cjkRatio (textAnalysis r) <= 1
  /\ Breakdown.overhead (breakdown r) = overhead config.
Proof.
  cbn zeta. rewrite EstimatorFacts.estimateDetailed_unfold.
  set (config := fst (getModelConfig this modelName)).
  set (model := snd (getModelConfig this modelName)).
  destruct text as [|u rest].
  - cbn. repeat split; discriminate.
  - set (text := u :: rest).
    assert (Hne : text <> []) by discriminate.
    destruct (PureTextExtra.result_nonempty config model Hne) as (_ & Han & _).
    destruct (CompositionFacts.categorySum_characters text) as [_ Ht].
    pose proof (CompositionFacts.cjkRatio_bounds text) as [Hr _].
    rewrite Han, (breakdown_runs config model Hne),
      GroupingFacts.fold_addRun_overhead, Ht.
    cbn [TextAnalysis.totalChars TextAnalysis.cjkRatio
         TextAnalysis.adjustmentFactor Breakdown.overhead].
    split; [reflexivity |]. split; [reflexivity |]. split; [reflexivity |].
    split; [reflexivity |]. split; [exact Hr | reflexivity].
Qed.

(** Three consequences of the order of the confidence tests: a text of
    fewer than 10 code units that is not empty is "low"; a text of 10 code
    units or more without any CJK character is "high", however many symbols
    it has; and "medium" is only ever given to a text of 10 code units or
    more whose ratio is between 0.1 and 0.9 and whose symbols are at most
    three tenths of it. *)
Theorem confidence_consequences (this : t) (text : jsstring)
        (modelName : option string) :
  let r := estimateDetailed this text modelName in
  let c := analyzeTextComposition text in
  (text <> [] -> (List.length text < 10)%nat -> confidence r = low)
  /\ ((10 <= List.length text)%nat -> Composition.cjk c = 0%Z ->
      confidence r = high)
  /\ (confidence r = medium ->
      (10 <= List.length text)%nat
      /\ 0.1 <= Composition.cjkRatio c <= 0.9
      /\ inject_Z (Composition.symbols c) / inject_Z (Composition.total c)
         <= 0.3).
Proof.
  cbn zeta. rewrite EstimatorFacts.estimateDetailed_unfold.
  set (config := fst (getModelConfig this modelName)).
  set (model := snd (getModelConfig this modelName)).
  destruct text as [|u rest].
  { split; [congruence |]. split; [cbn; lia | discriminate]. }
  set (text := u :: rest).
  assert (Hne : text <> []) by discriminate.
  destruct (PureTextExtra.result_nonempty config model Hne) as (_ & _ & ->).
  destruct (CompositionFacts.categorySum_characters text) as [_ Ht].
  unfold calculateConfidence. rewrite Ht.
  destruct (Z.ltb_spec (Z.of_nat (List.length text)) 10) as [Hshort | Hlong].
  { split; [reflexivity |]. split; [lia | discriminate]. }
  split; [lia |].
  destruct (NumberFacts.gtb_spec
              (Composition.cjkRatio (analyzeTextComposition text)) 0.9)
    as [G | G].
  { split; [reflexivity | discriminate]. }
  destruct (NumberFacts.ltb_spec
              (Composition.cjkRatio (analyzeTextComposition text)) 0.1)
    as [L | L].
  { split; [reflexivity | discriminate]. }
  cbn [orb].
  split.
  { intros _ Hk. exfalso. apply L.
    rewrite (PureTextExtra.cjkRatio_of_counts Hne), Hk,
      PureTextExtra.ratio_zero. reflexivity. }
  destruct (NumberFacts.gtb_spec
              (inject_Z (Composition.symbols (analyzeTextComposition text))
               / inject_Z (Z.of_nat (List.length text))) 0.3) as [S | S].
  { discriminate. }
  intros _. split; [lia |]. split; [split; lra | lra].
Qed.

Lemma confidence_consequences_witness :
  confidence (estimateDetailed Fixtures.estimator
                               (Fixtures.ascii "!@#$%^&*()") None) = high.
Proof.
  apply (proj1 (proj2 (confidence_consequences Fixtures.estimator
                         (Fixtures.ascii "!@#$%^&*()") None))).
  - cbn. lia.
  - reflexivity.
Defined.

(** *** The whitespace policy *)

Lemma processGroup_whitespace config w1 w2 g :
  w1 <> Some count -> w2 <> Some count ->
  processGroup (Spec.withWhitespaceHandling config w1) g
  = processGroup (Spec.withWhitespaceHandling config w2) g.
Proof.
  intros H1 H2. unfold processGroup.
  destruct (currentGroup g); [reflexivity |].
  destruct (currentType g) as [[| | | |]|]; try reflexivity.
  cbn [Spec.withWhitespaceHandling whitespaceHandling].
  destruct w1 as [[| |]|], w2 as [[| |]|]; congruence.
Qed.

Lemma loop_whitespace config w1 w2 chars : forall g,
  w1 <> Some count -> w2 <> Some count ->
  fold_left (step (Spec.withWhitespaceHandling config w1)) chars g
  = fold_left (step (Spec.withWhitespaceHandling config w2)) chars g.
Proof.
  induction chars as [|c chars IH]; intros g H1 H2; [reflexivity |].
  cbn [fold_left].
  replace (step (Spec.withWhitespaceHandling config w1) g c)
    with (step (Spec.withWhitespaceHandling config w2) g c).
  - now apply IH.
  - unfold step. now rewrite (processGroup_whitespace config g H1 H2).
Qed.

(** "ignore", "compress" and an absent policy are one and the same: two
    configurations that differ only in the whitespace policy, neither
    being "count", give the same result for every text. *)
Theorem estimateDetailedWith_whitespace (config : FuzzyModelConfig)
        (w1 w2 : option WhitespaceHandling) (model : string) (text : jsstring) :
  w1 <> Some count -> w2 <> Some count ->
  estimateDetailedWith (Spec.withWhitespaceHandling config w1) model text
  = estimateDetailedWith (Spec.withWhitespaceHandling config w2) model text.
Proof.
  intros H1 H2. destruct text as [|u rest]; [reflexivity |].
  unfold estimateDetailedWith.
  rewrite (loop_whitespace config (JS.iterate (u :: rest)) _ H1 H2),
    (processGroup_whitespace config _ H1 H2).
  reflexivity.
Qed.

Lemma estimateDetailedWith_whitespace_witness :
  estimateDetailedWith
    (Spec.withWhitespaceHandling Fixtures.mockConfig (Some ignore))
    "m" (Fixtures.ascii "a b  c")
  = estimateDetailedWith
      (Spec.withWhitespaceHandling Fixtures.mockConfig (Some compress))
      "m" (Fixtures.ascii "a b  c").
Proof.
  apply estimateDetailedWith_whitespace; discriminate.
Defined.

(** *** Signs and bounds *)










(** *** The characters of the runs *)

(** The iterator yields characters of one code unit and surrogate pairs,
    which are symbols. *)
Lemma iterate_shapes s :
  Forall (fun c => List.length c = 1%nat \/ getCharacterType c = Symbol)
         (JS.iterate s).
Proof.
  induction s as [|u|u v rest IHrest IHcons] using IterateFacts.jsstring_ind2.
  - constructor.
  - cbn. repeat constructor.
  - rewrite IterateFacts.iterate_cons2.
    destruct (JS.isHighSurrogate u && JS.isLowSurrogate v) eqn:E.
    + apply andb_true_iff in E. destruct E as [Hu Hv].
      constructor; [right; now apply ClassifierExtra.getCharacterType_pair |].
      exact IHrest.
    + constructor; [left; reflexivity | exact IHcons].
Qed.

Lemma unitsOf_countType ty rs :
  ty <> Symbol ->
  Forall (fun r => Forall (fun c => getCharacterType c = fst r) (snd r)) rs ->
  Forall (fun r => Forall (fun c => List.length c = 1%nat
                                    \/ getCharacterType c = Symbol) (snd r)) rs ->
  Spec.unitsOf ty rs = Spec.countType ty (List.concat (map snd rs)).
Proof.
  intro Hsym.
  induction rs as [|[ty' cs] rs IH]; intros Hty Hshape; [reflexivity |].
  inversion Hty as [|? ? Hcs Hrest]; subst.
  inversion Hshape as [|? ? Hs Hshapes]; subst.
  cbn [Spec.unitsOf fold_right map List.concat fst snd] in *.
  fold (Spec.unitsOf ty rs).
  rewrite CompositionExtra.countType_app, (IH Hrest Hshapes).
  destruct (PureTextExtra.countType_all Hcs) as [Hall Hnone].
  destruct (GroupingFacts.CharacterType_eqb_spec ty' ty) as [E | N].
  - subst ty'. rewrite Hall. f_equal.
    apply GroupingFacts.length_concat_units.
    rewrite Forall_forall in *. intros c Hin.
    destruct (Hs c Hin) as [H1 | H1]; [exact H1 |].
    rewrite (Hcs c Hin) in H1. congruence.
  - rewrite (Hnone ty) by congruence. reflexivity.
Qed.

Lemma maximal_types rs :
  Spec.maximal rs ->
  Forall (fun r => Forall (fun c => getCharacterType c = fst r) (snd r)) rs.
Proof.
  induction rs as [|[ty cs] rs IH]; intro H; [constructor |].
  cbn [Spec.maximal] in H. destruct H as (_ & Hcs & _ & Hrest).
  constructor; [exact Hcs | now apply IH].
Qed.

(** *** Subtotals against the counts of the composition *)

Lemma unitsOf_composition ty (text : jsstring) :
  ty <> Symbol ->
  Spec.unitsOf ty (Spec.runs (JS.iterate text))
  = Spec.countType ty (JS.iterate text).
Proof.
  intro Hty. rewrite (@unitsOf_countType ty).
  - now rewrite GroupingFacts.concat_runs.
  - exact Hty.
  - apply maximal_types, GroupingFacts.maximal_runs.
  - apply GroupingFacts.runs_Forall, iterate_shapes.
Qed.

Lemma ceil_div_le_length (n : nat) (c : number) :
  1 <= c ->
  JS.ceil (inject_Z (Z.of_nat n) / c) <= inject_Z (Z.of_nat n).
Proof.
  intro Hc. unfold JS.ceil. rewrite <- Zle_Qle.
  rewrite <- (Qceiling_Z (Z.of_nat n)) at 2. apply Qceiling_resp_le.
  assert (Hn : 0 <= inject_Z (Z.of_nat n))
    by (change 0 with (inject_Z 0); rewrite <- Zle_Qle; lia).
  apply Qle_shift_div_r; [lra | nra].
Qed.

Lemma fold_addRun_latin config rs : forall b,
  1 <= charsPerToken config ->
  Breakdown.latin (fold_left (Groups.addGroup config) rs b)
  <= Breakdown.latin b + inject_Z (Z.of_nat (Spec.unitsOf Latin rs)).
Proof.
  induction rs as [|[ty cs] rs IH]; intros b Hc.
  - cbn [fold_left Spec.unitsOf fold_right Z.of_nat].
    change (inject_Z 0) with 0. lra.
  - cbn [fold_left Spec.unitsOf fold_right fst snd].
    fold (Spec.unitsOf Latin rs).
    pose proof (IH (Groups.addGroup config b (ty, cs)) Hc) as IHhi.
    unfold Groups.addGroup, Groups.groupLength in *. cbn [fst snd] in *.
    destruct ty; cbn [CharacterType_eqb Breakdown.latin] in *;
      try assumption.
    + rewrite Nat2Z.inj_add, inject_Z_plus.
      pose proof (ceil_div_le_length (List.length (List.concat cs)) Hc).
      lra.
    + destruct (whitespaceHandling config) as [[| |]|];
        cbn [Breakdown.latin] in *; assumption.
Qed.

(** When charsPerToken is at least 1, the Latin letters never get more
    tokens than there are letters, however they are spread over runs. *)
Theorem breakdown_latin_bounds (this : t) (text : jsstring)
        (modelName : option string) :
  1 <= charsPerToken (fst (getModelConfig this modelName)) ->
  Breakdown.latin (breakdown (estimateDetailed this text modelName))
  <= inject_Z (Composition.latin (analyzeTextComposition text)).
Proof.
  intros Hc. rewrite EstimatorFacts.estimateDetailed_unfold.
  set (config := fst (getModelConfig this modelName)) in *.
  set (model := snd (getModelConfig this modelName)).
  destruct text as [|u rest]; [cbn; discriminate |].
  set (text := u :: rest).
  rewrite breakdown_runs by discriminate.
  pose proof (@fold_addRun_latin config (Spec.runs (JS.iterate text))
                (Breakdown.mk 0 0 0 0 (overhead config)) Hc) as Hhi.
  rewrite unitsOf_composition in Hhi by discriminate.
  destruct (CompositionExtra.fold_increment_counts (JS.iterate text)
              (mkCounts 0 0 0 0 0 (Z.of_nat (List.length text))))
    as (_ & Hl & _).
  unfold analyzeTextComposition. cbn [Composition.latin].
  rewrite Hl. cbn [c_latin Breakdown.latin] in *. rewrite Z.add_0_l. lra.
Qed.

Lemma breakdown_latin_bounds_witness :
  Breakdown.latin
    (breakdown (estimateDetailed Fixtures.estimator
                                 (Fixtures.ascii "a b c d") None))
  <= inject_Z (Composition.latin
                 (analyzeTextComposition (Fixtures.ascii "a b c d"))).
Proof.
  apply (@breakdown_latin_bounds Fixtures.estimator
           (Fixtures.ascii "a b c d") None).
  discriminate.
Defined.

(** *** What the policy "count" adds *)

Lemma fold_addRun_count config w rs : forall b b' delta,
  w <> Some count ->
  Breakdown.cjk b == Breakdown.cjk b' ->
  Breakdown.latin b == Breakdown.latin b' ->
  Breakdown.digits b == Breakdown.digits b' ->
  Breakdown.symbols b == Breakdown.symbols b' + delta ->
  let x := fold_left
             (Groups.addGroup (Spec.withWhitespaceHandling config (Some count)))
             rs b in
  let y := fold_left (Groups.addGroup (Spec.withWhitespaceHandling config w))
                     rs b' in
  Breakdown.cjk x == Breakdown.cjk y
  /\ Breakdown.latin x == Breakdown.latin y
  /\ Breakdown.digits x == Breakdown.digits y
  /\ Breakdown.symbols x
     == Breakdown.symbols y + delta
        + inject_Z (Z.of_nat (Spec.unitsOf Whitespace rs)) * 0.3.
Proof.
  induction rs as [|[ty cs] rs IH]; intros b b' delta Hw Hk Hl Hd Hs.
  - cbn [fold_left Spec.unitsOf fold_right Z.of_nat].
    change (inject_Z 0) with 0. rewrite Qmult_0_l, Qplus_0_r.
    repeat split; assumption.
  - cbn [fold_left Spec.unitsOf fold_right fst snd].
    fold (Spec.unitsOf Whitespace rs).
    set (L := inject_Z (Z.of_nat (List.length (List.concat cs)))).
    destruct ty; cbn [CharacterType_eqb].
    + destruct (IH (Groups.addGroup (Spec.withWhitespaceHandling config (Some count))
                                b (Cjk, cs))
                   (Groups.addGroup (Spec.withWhitespaceHandling config w)
                                b' (Cjk, cs)) delta Hw)
        as (A & B & C & D); try assumption;
        [cbn; now rewrite Hk | repeat split; assumption].
    + destruct (IH (Groups.addGroup (Spec.withWhitespaceHandling config (Some count))
                                b (Latin, cs))
                   (Groups.addGroup (Spec.withWhitespaceHandling config w)
                                b' (Latin, cs)) delta Hw)
        as (A & B & C & D); try assumption;
        [cbn; now rewrite Hl | repeat split; assumption].
    + destruct (IH (Groups.addGroup (Spec.withWhitespaceHandling config (Some count))
                                b (Digit, cs))
                   (Groups.addGroup (Spec.withWhitespaceHandling config w)
                                b' (Digit, cs)) delta Hw)
        as (A & B & C & D); try assumption;
        [cbn; now rewrite Hd | repeat split; assumption].
    + destruct (IH (Groups.addGroup (Spec.withWhitespaceHandling config (Some count))
                                b (Symbol, cs))
                   (Groups.addGroup (Spec.withWhitespaceHandling config w)
                                b' (Symbol, cs)) delta Hw)
        as (A & B & C & D); try assumption;
        [cbn; rewrite Hs; ring | repeat split; assumption].
    + destruct (IH (Groups.addGroup (Spec.withWhitespaceHandling config (Some count))
                                b (Whitespace, cs))
                   (Groups.addGroup (Spec.withWhitespaceHandling config w)
                                b' (Whitespace, cs)) (delta + L * 0.3) Hw)
        as (A & B & C & D).
      * unfold Groups.addGroup. cbn [fst Spec.withWhitespaceHandling whitespaceHandling].
        destruct w as [[| |]|]; (exact Hk || congruence).
      * unfold Groups.addGroup. cbn [fst Spec.withWhitespaceHandling whitespaceHandling].
        destruct w as [[| |]|]; (exact Hl || congruence).
      * unfold Groups.addGroup. cbn [fst Spec.withWhitespaceHandling whitespaceHandling].
        destruct w as [[| |]|]; (exact Hd || congruence).
      * unfold Groups.addGroup, Groups.groupLength.
        cbn [fst snd Spec.withWhitespaceHandling whitespaceHandling].
        fold L.
        destruct w as [[| |]|]; try congruence;
          cbn [Breakdown.symbols]; rewrite Hs; ring.
      * split; [exact A |]. split; [exact B |]. split; [exact C |].
        rewrite D, Nat2Z.inj_add, inject_Z_plus. fold L. ring.
Qed.

(** The policy "count" changes nothing in the breakdown but the symbol
    subtotal, which it never lowers: the CJK, Latin and digit subtotals
    are those of any other policy, and so is the symbol subtotal when the
    text has no white space. *)
Theorem breakdown_whitespace_count (config : FuzzyModelConfig)
        (w : option WhitespaceHandling) (model : string) (text : jsstring) :
  w <> Some count ->
  let counted :=
    breakdown (estimateDetailedWith
                 (Spec.withWhitespaceHandling config (Some count)) model text) in
  let other :=
    breakdown (estimateDetailedWith
                 (Spec.withWhitespaceHandling config w) model text) in
  Breakdown.cjk counted == Breakdown.cjk other
  /\ Breakdown.latin counted == Breakdown.latin other
  /\ Breakdown.digits counted == Breakdown.digits other
  /\ Breakdown.symbols other <= Breakdown.symbols counted
  /\ (Composition.whitespace (analyzeTextComposition text) = 0%Z ->
      Breakdown.symbols counted == Breakdown.symbols other).
Proof.
  intro Hw. cbn zeta. destruct text as [|u rest].
  { cbn. split; [reflexivity |]. split; [reflexivity |].
    split; [reflexivity |]. split; [discriminate | reflexivity]. }
  set (text := u :: rest).
  rewrite !breakdown_runs by discriminate.
  cbn [Spec.withWhitespaceHandling overhead].
  destruct (@fold_addRun_count config w (Spec.runs (JS.iterate text))
              (Breakdown.mk 0 0 0 0 (overhead config))
              (Breakdown.mk 0 0 0 0 (overhead config)) 0 Hw)
    as (A & B & C & D); try reflexivity.
  rewrite unitsOf_composition in D by discriminate.
  destruct (CompositionExtra.fold_increment_counts (JS.iterate text)
              (mkCounts 0 0 0 0 0 (Z.of_nat (List.length text))))
    as (_ & _ & _ & _ & Hws & _).
  unfold analyzeTextComposition. cbn [Composition.whitespace].
  rewrite Hws. cbn [c_whitespace]. rewrite Z.add_0_l.
  assert (Hn : 0 <= inject_Z (Z.of_nat (Spec.countType Whitespace
                                          (JS.iterate text))))
    by (change 0 with (inject_Z 0); rewrite <- Zle_Qle; lia).
  split; [exact A |]. split; [exact B |]. split; [exact C |].
  split; [rewrite D; lra |].
  intro Hz. rewrite D, Hz. change (inject_Z 0) with 0. ring.
Qed.

Lemma breakdown_whitespace_count_witness :
  Breakdown.latin
    (breakdown (estimateDetailedWith
                  (Spec.withWhitespaceHandling Fixtures.mockConfig (Some count))
                  "m" (Fixtures.ascii "a b  c")))
  == Breakdown.latin
       (breakdown (estimateDetailedWith
                     (Spec.withWhitespaceHandling Fixtures.mockConfig
                                                  (Some compress))
                     "m" (Fixtures.ascii "a b  c"))).
Proof.
  apply (@breakdown_whitespace_count Fixtures.mockConfig (Some compress) "m"
           (Fixtures.ascii "a b  c")).
  discriminate.
Defined.

End EngineExtra.

(** ** Providers, factories and the default model *)

Module ProviderLookupExtra.

Lemma get_In configs m c :
  SimpleModelConfigProvider.get configs m = Some c -> In (m, c) configs.
Proof.
  induction configs as [|[k v] configs IH]; [discriminate |].
  cbn [SimpleModelConfigProvider.get].
  destruct (String.eqb_spec k m) as [-> | N].
  - intros [= ->]. now left.
  - intro H. right. now apply IH.
Qed.

Lemma In_get configs m c :
  NoDup (map fst configs) -> In (m, c) configs ->
  SimpleModelConfigProvider.get configs m = Some c.
Proof.
  induction configs as [|[k v] configs IH]; [contradiction |].
  cbn [map fst]. intros Hnd Hin. inversion Hnd as [|? ? Hk Hrest]; subst.
  cbn [SimpleModelConfigProvider.get].
  destruct Hin as [[= -> ->] | Hin].
  - now rewrite String.eqb_refl.
  - destruct (String.eqb_spec k m) as [-> | N]; [| now apply IH].
    elim Hk. change m with (fst (m, c)). now apply in_map.
Qed.

Lemma get_keys configs m :
  SimpleModelConfigProvider.get configs m <> None <-> In m (map fst configs).
Proof.
  induction configs as [|[k v] configs IH]; [cbn; tauto |].
  cbn [SimpleModelConfigProvider.get map fst In].
  destruct (String.eqb_spec k m) as [-> | N].
  - split; [now left | discriminate].
  - rewrite IH. split; [now right | intros [E | H]; [contradiction | exact H]].
Qed.

(** [SimpleModelConfigProvider]: [getConfig] answers for exactly the names
    that [getSupportedModels] lists; what it answers is an entry of the
    object it was built from, and every entry is found under its name. *)
Theorem SimpleModelConfigProvider_lookup
        (p : SimpleModelConfigProvider.t) (m : string) :
  let provider := SimpleModelConfigProvider.provider p in
  (getConfig provider m <> None <-> In m (getSupportedModels provider))
  /\ getConfig provider m = SimpleModelConfigProvider.getConfig p m
  /\ getSupportedModels provider = SimpleModelConfigProvider.getSupportedModels p
  /\ (forall c, getConfig provider m = Some c
                -> In (m, c) (SimpleModelConfigProvider.configs p))
  /\ (forall c, NoDup (map fst (SimpleModelConfigProvider.configs p)) ->
                In (m, c) (SimpleModelConfigProvider.configs p) ->
                getConfig provider m = Some c).
Proof.
  cbn. split; [apply get_keys |]. split; [reflexivity |].
  split; [reflexivity |]. split; [apply get_In | apply In_get].
Qed.

Lemma SimpleModelConfigProvider_lookup_witness :
  getConfig
    (SimpleModelConfigProvider.provider
       (SimpleModelConfigProvider.new
          [("test-model"%string, Fixtures.mockConfig)] None))
    "test-model"
  = Some Fixtures.mockConfig.
Proof.
  apply (SimpleModelConfigProvider_lookup
           (SimpleModelConfigProvider.new
              [("test-model"%string, Fixtures.mockConfig)] None)
           "test-model").
  - cbn. repeat constructor. intros [].
  - now left.
Defined.

End ProviderLookupExtra.

Module ProviderExtra.
Import FuzzyTokenEstimator.

(** The default model.  An engine whose default model is a name that is
    not empty estimates a text given without a model name exactly as it
    does under that name; the name given in the options wins over the
    provider's own default, which is used when the options give none or an
    empty one. *)
Theorem default_model (this : t) (d : string) (text : jsstring) :
  d <> ""%string ->
  (defaultModel this = Some d ->
   estimateDetailed this text None = estimateDetailed this text (Some d))
  /\ (forall configs,
         estimateDetailed (createSimpleFuzzyEstimator configs (Some d)) text None
         = estimateDetailed (createSimpleFuzzyEstimator configs (Some d)) text
                            (Some d))
  /\ (forall provider fallback,
         defaultModel
           (new provider (Some {| opt_fallbackConfig := fallback;
                                  opt_defaultModel := Some d |}))
         = Some d)
  /\ (forall provider fallback,
         defaultModel (new provider None)
         = match getDefaultModel provider with
           | Some answer => answer
           | None => None
           end
         /\ defaultModel
              (new provider (Some {| opt_fallbackConfig := fallback;
                                     opt_defaultModel := Some ""%string |}))
            = defaultModel (new provider None)).
Proof.
  intro Hd. destruct d as [|a d']; [congruence |].
  split.
  { intro E. unfold estimateDetailed, getModelConfig. rewrite E. reflexivity. }
  split; [reflexivity |]. split; [reflexivity |].
  intros provider fallback. split; reflexivity.
Qed.

Lemma default_model_witness :
  estimateDetailed Fixtures.estimator (Fixtures.ascii "test") None
  = estimateDetailed Fixtures.estimator (Fixtures.ascii "test")
                     (Some "test-model"%string).
Proof.
  apply (proj1 (default_model Fixtures.estimator (d := "test-model")
                  (Fixtures.ascii "test") ltac:(discriminate))).
  reflexivity.
Defined.

(** The two factories build the same engine: [createSimpleFuzzyEstimator]
    on an object and a default name is [createFuzzyEstimator] on the
    [SimpleModelConfigProvider] of that object and name, without options;
    so all their estimates agree. *)
Theorem factories_agree (configs : list (string * FuzzyModelConfig))
        (defaultName : option string) :
  createSimpleFuzzyEstimator configs defaultName
  = createFuzzyEstimator
      (SimpleModelConfigProvider.provider
         (SimpleModelConfigProvider.new configs defaultName))
      None
  /\ fallbackConfig (createSimpleFuzzyEstimator configs defaultName)
     = DEFAULT_FALLBACK_CONFIG
  /\ getSupportedModels (createSimpleFuzzyEstimator configs defaultName)
     = map fst configs.
Proof.
  unfold createSimpleFuzzyEstimator, createFuzzyEstimator, new, JS.stringOr.
  cbn. destruct defaultName as [[|a d]|]; repeat split.
Qed.

(** Changing the provider keeps the default model and the fallback
    configuration the engine was built with: a text is then estimated under
    the same resolved name as before, with the configuration the new
    provider has under that name, or else the old fallback. *)
Theorem setModelProvider_resolution (this : t) (provider : ModelConfigProvider)
        (text : jsstring) (modelName : option string) :
  let model := modelUsed (estimateDetailed this text modelName) in
  getModelProvider (setModelProvider this provider) = provider
  /\ defaultModel (setModelProvider this provider) = defaultModel this
  /\ fallbackConfig (setModelProvider this provider) = fallbackConfig this
  /\ modelUsed (estimateDetailed (setModelProvider this provider) text modelName)
     = model
  /\ estimateDetailed (setModelProvider this provider) text modelName
     = estimateDetailedWith
         (match getConfig provider model with
          | Some config => config
          | None => fallbackConfig this
          end) model text.
Proof.
  cbn zeta.
  rewrite !EstimatorFacts.estimateDetailed_unfold,
    !EstimatorFacts.modelUsed_estimateDetailedWith.
  repeat split.
Qed.

End ProviderExtra.

(** ** [estimatePayload] *)

Module PayloadExtra.
Import FuzzyTokenEstimator.

(** A prompt that is [null] and a prompt that is the empty string give the
    same payload estimate; an output budget that is absent, zero or
    negative is replaced by 500. *)
Theorem estimatePayload_defaults (this : t) (text : option jsstring)
        (modelName : option string) (budget : option number) :
  estimatePayload this {| prompt := None; model := modelName;
                          maxTokens := budget |}
  = estimatePayload this {| prompt := Some []; model := modelName;
                            maxTokens := budget |}
  /\ estimatePayload this {| prompt := text; model := modelName;
                             maxTokens := None |}
     = estimatePayload this {| prompt := text; model := modelName;
                               maxTokens := Some 500 |}
  /\ (forall m, m <= 0 ->
        estimatePayload this {| prompt := text; model := modelName;
                                maxTokens := Some m |}
        = estimatePayload this {| prompt := text; model := modelName;
                                  maxTokens := None |}).
Proof.
  split.
  { unfold estimatePayload, estimate.
    cbn [prompt model maxTokens].
    rewrite EstimatorFacts.estimateDetailed_unfold. reflexivity. }
  split; [reflexivity |].
  intros m Hm. unfold estimatePayload. cbn [prompt model maxTokens].
  destruct (NumberFacts.eqb_spec m 0) as [Z | Z]; [reflexivity |].
  destruct (NumberFacts.gtb_spec m 0) as [G | G]; [lra | reflexivity].
Qed.

Lemma estimatePayload_defaults_witness :
  estimatePayload Fixtures.estimator
    {| prompt := Some (Fixtures.ascii "Hello World");
       model := Some "test-model"%string; maxTokens := Some (-5) |}
  = estimatePayload Fixtures.estimator
      {| prompt := Some (Fixtures.ascii "Hello World");
         model := Some "test-model"%string; maxTokens := None |}.
Proof.
  apply (proj2 (proj2 (estimatePayload_defaults Fixtures.estimator
                         (Some (Fixtures.ascii "Hello World"))
                         (Some "test-model"%string) None))).
  discriminate.
Defined.



End PayloadExtra.

(** ** [estimateStream] *)

Module StreamExtra.
Import FuzzyTokenEstimator EstimateStream.

Lemma loop_spec this modelName textStream : forall total,
  List.length (loop this total textStream modelName) = List.length textStream
  /\ map StreamItem.chunk (loop this total textStream modelName) = textStream
  /\ forall i item,
       nth_error (loop this total textStream modelName) i = Some item ->
       StreamItem.tokens item = estimate this (StreamItem.chunk item) modelName
       /\ StreamItem.total item
          = fold_left Qplus
              (map (fun chunk => estimate this chunk modelName)
                   (firstn (S i) textStream))
              total.
Proof.
  induction textStream as [|chunk rest IH]; intro total.
  - split; [reflexivity |]. split; [reflexivity |].
    intros [|i] item E; discriminate E.
  - cbn [loop]. destruct (IH (total + estimate this chunk modelName))
      as (Hlen & Hmap & Hnth).
    split; [cbn [List.length]; now rewrite Hlen |].
    split; [cbn [map StreamItem.chunk]; now rewrite Hmap |].
    intros [|i] item E.
    + injection E as <-. split; reflexivity.
    + cbn [nth_error] in E. destruct (Hnth i item E) as [Ht Hs].
      split; [exact Ht |]. rewrite Hs. reflexivity.
Qed.

(** For a stream of chunks the generator yields one value per chunk, in
    order; each carries its chunk, the estimate of that chunk alone, and
    as [total] the sum of the estimates of all chunks received so far.
    What was yielded for the first chunks does not depend on the chunks
    that follow. *)
Theorem estimateStream_totals (this : t) (textStream : list jsstring)
        (modelName : option string) :
  List.length (estimateStream this textStream modelName)
  = List.length textStream
  /\ map StreamItem.chunk (estimateStream this textStream modelName)
     = textStream
  /\ (forall i item,
        nth_error (estimateStream this textStream modelName) i = Some item ->
        StreamItem.tokens item = estimate this (StreamItem.chunk item) modelName
        /\ StreamItem.total item
           = Spec.sum (map (fun chunk => estimate this chunk modelName)
                           (firstn (S i) textStream)))
  /\ (forall more,
        firstn (List.length textStream)
               (estimateStream this (textStream ++ more) modelName)
        = estimateStream this textStream modelName).
Proof.
  unfold estimateStream, Spec.sum.
  destruct (loop_spec this modelName textStream 0) as (Hlen & Hmap & Hnth).
  split; [exact Hlen |]. split; [exact Hmap |]. split; [exact Hnth |].
  intro more. clear Hlen Hmap Hnth. generalize 0 at 1 2.
  induction textStream as [|chunk rest IH]; intro total; [reflexivity |].
  cbn [app loop List.length firstn]. f_equal. apply IH.
Qed.

Lemma estimateStream_totals_witness :
  option_map StreamItem.total
    (nth_error (estimateStream Fixtures.estimator
                  [Fixtures.ascii "Hello "; Fixtures.ascii "world ";
                   Fixtures.konnichiwa] None) 2)
  = Some (Spec.sum
            (map (fun chunk => estimate Fixtures.estimator chunk None)
                 [Fixtures.ascii "Hello "; Fixtures.ascii "world ";
                  Fixtures.konnichiwa])).
Proof.
  destruct (nth_error (estimateStream Fixtures.estimator
                         [Fixtures.ascii "Hello "; Fixtures.ascii "world ";
                          Fixtures.konnichiwa] None) 2) as [item|] eqn:E;
    [| discriminate E].
  cbn [option_map]. f_equal.
  destruct (estimateStream_totals Fixtures.estimator
              [Fixtures.ascii "Hello "; Fixtures.ascii "world ";
               Fixtures.konnichiwa] None) as (_ & _ & H & _).
  exact (proj2 (H 2%nat item E)).
Defined.

End StreamExtra.

(** ** Small totals in the cost calculator *)

Module CostExtra.
Import TokenCostCalculator.








End CostExtra.

(** ** The groups and the composition *)

Module GroupsExtra.
Import PrimFloat Binary64 Binary64.FuzzyTokenEstimator.
#[local] Open Scope float_scope.

(** The groups that the loop closes are the maximal runs of the text,
    and the two passes over the text agree on what they count: the code
    units of the CJK, of the Latin, of the digit and of the white-space
    groups are as many as the characters the composition counts in these
    categories. *)
Theorem groups_composition (config : FuzzyModelConfig) (model : string)
        (text : jsstring) :
  text <> [] ->
  let rs := Spec.runs (JS.iterate text) in
  let c := analyzeTextComposition text in
  breakdown (estimateDetailedWith config model text)
  = fold_left (Groups.addGroup config) rs
              (Breakdown.mk 0 0 0 0 (overhead config))
  /\ Spec.maximal rs
  /\ List.concat (map snd rs) = JS.iterate text
  /\ Z.of_nat (Spec.unitsOf Cjk rs) = Composition.cjk c
  /\ Z.of_nat (Spec.unitsOf Latin rs) = Composition.latin c
  /\ Z.of_nat (Spec.unitsOf Digit rs) = Composition.digits c
  /\ Z.of_nat (Spec.unitsOf Whitespace rs) = Composition.whitespace c.
Proof.
  intro Hne. cbn zeta.
  split; [now apply GroupingFacts64.breakdown_groups |].
  split; [apply GroupingFacts.maximal_runs |].
  split; [apply GroupingFacts.concat_runs |].
  rewrite !EngineExtra.unitsOf_composition by discriminate.
  destruct (CompositionExtra.fold_increment_counts (JS.iterate text)
              (CharacterClassifier.mkCounts 0 0 0 0 0
                 (Z.of_nat (List.length text))))
    as (Hk & Hl & Hd & _ & Hw & _).
  unfold analyzeTextComposition.
  cbn [Composition.cjk Composition.latin Composition.digits
       Composition.whitespace].
  rewrite Hk, Hl, Hd, Hw. cbn. repeat split.
Qed.

Lemma groups_composition_witness :
  Z.of_nat (Spec.unitsOf Latin (Spec.runs (JS.iterate (Fixtures.ascii "a b c d"))))
  = Composition.latin (analyzeTextComposition (Fixtures.ascii "a b c d")).
Proof.
  assert (H : Fixtures.ascii "a b c d" <> []) by discriminate.
  exact (proj1 (proj2 (proj2 (proj2 (proj2
           (groups_composition Fixtures64.mockConfig "m" H)))))).
Defined.

End GroupsExtra.
